(** * Diagnostic consensus and orthotic recommendation engine

    A shallow embedding of the decision logic of the foot-scan processor:

    - [processor/diagnosis_rules.py]: the rule engine [apply_medical_rules]
      and its local primitive [add_recommendation];
    - [processor/foot_models/arch_model.py]: the weighted vote
      [_determine_overall_arch_type] and the agreement boost
      [_boost_confidence_with_agreement_analysis];
    - [processor/foot_models/base_model.py]: [BaseFootModel.analyze] and the
      helpers it calls;
    - [processor/ai_diagnosis.py]: [FootDiagnosisModel.analyze_foot_images]
      with [_map_arch_type_to_pdf_terminology], [_determine_arch_degree],
      [_determine_zone_alignment], [_generate_default_patient_context],
      [_extract_measurements], [enable_model] and [disable_model];
    - [processor/foot_models/pronation_model.py] and
      [processor/foot_models/deformity_model.py]: the decisions of
      [PronationModel.analyze] and [StructuralDeformityModel.analyze];
    - [processor/diagnosis_rules.py]: [map_abbreviations].

    Conventions.  A Python [float] is a rational ([Q]): decimal literals are
    the exact fractions they denote and arithmetic is exact.  A [dict] read
    with [.get] is a [gmap] (or an association list where the source relies
    on insertion order); a [list] is a [list]; a [str] is a [string], with
    [lower] restricted to ASCII.  An exception is a value of [exn], a call
    that may raise returns an [outcome], and [try]/[except] is
    [try_except]. *)

From Stdlib Require Import QArith Lqa ZArith Lia Ascii.
From stdpp Require Import gmap strings list fin_maps pretty.

Local Open Scope string_scope.

(** ** Python values shared by the modules *)

Module Py.

(** [str.lower()] on ASCII letters. *)
Definition lower_ascii (c : ascii) : ascii :=
  let n := nat_of_ascii c in
  if (65 <=? n)%nat && (n <=? 90)%nat then ascii_of_nat (n + 32) else c.

Fixpoint lower (s : string) : string :=
  match s with
  | EmptyString => EmptyString
  | String c s' => String (lower_ascii c) (lower s')
  end.

(** [s.startswith(p)]. *)
Fixpoint startswith (p s : string) : bool :=
  match p, s with
  | EmptyString, _ => true
  | String _ _, EmptyString => false
  | String a p', String b s' => bool_decide (a = b) && startswith p' s'
  end.

(** [needle in hay] for two strings. *)
Fixpoint contains (needle hay : string) : bool :=
  startswith needle hay ||
  match hay with
  | EmptyString => false
  | String _ hay' => contains needle hay'
  end.

(** [x in l] for a list of strings. *)
Definition mem (x : string) (l : list string) : bool := bool_decide (x ∈ l).

(** A dict whose iteration order matters is the list of its items in
    insertion order.  [k in d] and [d.get(k)]: *)
Fixpoint dict_lookup {V} (d : list (string * V)) (k : string) : option V :=
  match d with
  | [] => None
  | (k', v) :: d' => if bool_decide (k' = k) then Some v else dict_lookup d' k
  end.

(** [d[k] = f(d[k])] for a key that is present, [d[k] = f(init)] (a new
    last item) for one that is not. *)
Fixpoint dict_update {V} (d : list (string * V)) (k : string) (init : V) (f : V → V)
    : list (string * V) :=
  match d with
  | [] => [(k, f init)]
  | (k', v) :: d' =>
      if bool_decide (k' = k) then (k', f v) :: d'
      else (k', v) :: dict_update d' k init f
  end.

(** [d.get(k, default)]. *)
Fixpoint dict_get {V} (d : list (string * V)) (k : string) (default : V) : V :=
  match d with
  | [] => default
  | (k', v) :: d' => if bool_decide (k' = k) then v else dict_get d' k default
  end.

(** Float comparisons. *)
Definition gt (a b : Q) : bool := negb (Qle_bool a b).
Definition ge (a b : Q) : bool := Qle_bool b a.
Definition lt (a b : Q) : bool := negb (Qle_bool b a).
Definition le (a b : Q) : bool := Qle_bool a b.

(** The builtins [min(a, b)] and [max(a, b)]: the first argument is kept
    unless the second is strictly smaller (resp. larger). *)
Definition min (a b : Q) : Q := if lt b a then b else a.
Definition max (a b : Q) : Q := if gt b a then b else a.

(** [max(items, key=...)] on a sequence with first element [best]: the
    first element attaining the largest key; [above x y] is
    [key(x) > key(y)]. *)
Fixpoint max_by {A} (above : A → A → bool) (best : A) (l : list A) : A :=
  match l with
  | [] => best
  | x :: l' => max_by above (if above x best then x else best) l'
  end.

(** [sum(values)]. *)
Definition sum (l : list Q) : Q := fold_left Qplus l 0%Q.

(** Exceptions and calls that may raise.  [Exception] stands for every
    other subclass of Python's [Exception]. *)
Inductive exn :=
  | ValidationError (msg : string)
  | ModelError (msg : string)
  | Exception (msg : string).

Inductive outcome (A : Type) :=
  | Returned (a : A)
  | Raised (e : exn).
Arguments Returned {A} a.
Arguments Raised {A} e.

Global Instance outcome_ret : MRet outcome := λ A a, Returned a.

Global Instance outcome_bind : MBind outcome := λ A B k m,
  match m with
  | Returned a => k a
  | Raised e => Raised e
  end.

(** [try: body except Exception as e: handler(e)]. *)
Definition try_except {A} (body : outcome A) (handler : exn → outcome A) : outcome A :=
  match body with
  | Returned a => Returned a
  | Raised e => handler e
  end.

End Py.

(** ** The rule engine ([processor/diagnosis_rules.py]) *)

Module Rules.
Import Py.

Inductive category := Intrinsic | Extrinsic.

(** The [recommendations] dict of [apply_medical_rules]. *)
Record recommendations := {
  intrinsic : list string;
  extrinsic : list string;
  confidence_scores : gmap string Q;
  flags : gmap string bool;
  primary_recommendations : list string;
  secondary_recommendations : list string;
  combined_list : list string
}.

Definition init_recommendations : recommendations :=
  {| intrinsic := []; extrinsic := []; confidence_scores := ∅; flags := ∅;
     primary_recommendations := []; secondary_recommendations := [];
     combined_list := [] |}.

(** [recommendations[category]]. *)
Definition category_list (c : category) (r : recommendations) : list string :=
  match c with Intrinsic => intrinsic r | Extrinsic => extrinsic r end.

(** [if x not in l: l.append(x)]. *)
Definition append_new (x : string) (l : list string) : list string :=
  if mem x l then l else l ++ [x].

(** The nested function [add_recommendation]; its [justification] argument
    is never read. *)
Definition add_recommendation (rec_name : string) (cat : category)
    (confidence : Q) (primary : bool) (r : recommendations) : recommendations :=
  if mem rec_name (category_list cat r) then r
  else
    {| intrinsic := match cat with Intrinsic => intrinsic r ++ [rec_name] | Extrinsic => intrinsic r end;
       extrinsic := match cat with Intrinsic => extrinsic r | Extrinsic => extrinsic r ++ [rec_name] end;
       confidence_scores := <[rec_name := confidence]> (confidence_scores r);
       flags := flags r;
       primary_recommendations :=
         if primary then append_new rec_name (primary_recommendations r)
         else primary_recommendations r;
       secondary_recommendations :=
         if primary then secondary_recommendations r
         else append_new rec_name (secondary_recommendations r);
       combined_list := combined_list r ++ [rec_name] |}.

(** The patient context keys that the engine reads for a decision, each
    holding what [.get] returns (the default when the key is absent).  The
    dict [patient_factors] built from the other keys is never read. *)
Record patient_context := {
  medical_history : list string;
  previous_foot_pain : bool;
  leg_length_discrepancy : bool;
  ulcer_history : bool
}.

(** One entry of [pathology_map] or [other_conditions_map]. *)
Record rec_entry := Rec {
  name : string;
  category_of : category;
  confidence : Q;
  primary : bool
}.

(** The locals that the body updates: [recommendations] and [flags]. *)
Definition locals : Type := recommendations * gmap string bool.
Definition step : Type := locals → locals.

Definition add (rec_name : string) (cat : category) (conf : Q) (prim : bool) : step :=
  λ σ, (add_recommendation rec_name cat conf prim σ.1, σ.2).

(** [flags[k] = True]. *)
Definition set_flag (k : string) : step := λ σ, (σ.1, <[k := true]> σ.2).

(** [if b: s]. *)
Definition when (b : bool) (s : step) : step := if b then s else id.

Definition seq (s1 s2 : step) : step := λ σ, s2 (s1 σ).
Infix ">>" := seq (at level 65, right associativity).

(** [for rec in recs: add_recommendation(rec["name"], ...)]. *)
Definition add_all (recs : list rec_entry) : step :=
  λ σ, fold_left (λ σ rec, add (name rec) (category_of rec) (confidence rec) (primary rec) σ) recs σ.

(** Lines 89-129: arch type based recommendations. *)
Definition arch_rules (arch_type : string) (arch_degree : Z)
    (ctx : option patient_context) : step :=
  if bool_decide (arch_type = "Normal Arch") then
    when (match ctx with Some c => previous_foot_pain c | None => false end)
      (add "AS (Arch Support)" Intrinsic 0.70 false)
  else if bool_decide (arch_type = "Flat Arch") then
    if (arch_degree =? 1)%Z then
      add "AS (Arch Support)" Intrinsic 0.75 true
    else if (arch_degree =? 2)%Z then
      add "AS (Arch Support)" Intrinsic 0.85 true >>
      add "MAS (Medial Arch Support)" Intrinsic 0.80 true
    else if (arch_degree =? 3)%Z then
      add "MAS (Medial Arch Support)" Intrinsic 0.90 true >>
      add "NAS (Navicular Arch Support)" Intrinsic 0.85 true
    else if (arch_degree =? 4)%Z then
      add "MAS (Medial Arch Support)" Intrinsic 0.95 true >>
      add "NAS (Navicular Arch Support)" Intrinsic 0.95 true >>
      set_flag "severe_pes_planus"
    else id
  else if bool_decide (arch_type = "High Arch") then
    when (2 <=? arch_degree)%Z
      (add "Soft Cushioning" Intrinsic 0.80 true) >>
    when (3 <=? arch_degree)%Z
      (add "Heel Cushion Pad" Intrinsic 0.85 true >>
       add "Metatarsal Pad" Intrinsic 0.80 false) >>
    when (arch_degree =? 4)%Z (set_flag "severe_pes_cavus")
  else id.

(** [alignment.get(zone) == value]. *)
Definition zone_is (alignment : gmap string string) (zone value : string) : bool :=
  bool_decide (alignment !! zone = Some value).

(** [0.75 + (0.05 * arch_degree)]. *)
Definition confidence_val (arch_degree : Z) : Q :=
  (0.75 + (0.05 * inject_Z arch_degree))%Q.

(** Lines 131-178: alignment-based wedges and posting. *)
Definition alignment_rules (arch_type : string) (arch_degree : Z)
    (alignment : gmap string string) : step :=
  (if zone_is alignment "forefoot" "valgus" then
     add "Anterior Medial Wedge" Extrinsic (confidence_val arch_degree) true >>
     when (3 <=? arch_degree)%Z
       (add "SAW (Supinator Anterior Wedge)" Extrinsic 0.85 (3 <=? arch_degree)%Z)
   else if zone_is alignment "forefoot" "varus" then
     add "Anterior Lateral Wedge" Extrinsic (confidence_val arch_degree) true >>
     when (3 <=? arch_degree)%Z
       (add "PAW (Pronator Anterior Wedge)" Extrinsic 0.85 (3 <=? arch_degree)%Z)
   else id) >>
  (if zone_is alignment "midfoot" "valgus" then
     add "MAS (Medial Arch Support)" Intrinsic (confidence_val arch_degree) true >>
     when (2 <=? arch_degree)%Z
       (add "NAS (Navicular Arch Support)" Intrinsic 0.85 true)
   else if zone_is alignment "midfoot" "varus" then
     when (contains "High Arch" arch_type)
       (add "AS (Arch Support)" Intrinsic 0.75 true)
   else id) >>
  (if zone_is alignment "hindfoot" "valgus" then
     add "Posterior Medial Wedge" Extrinsic (confidence_val arch_degree) true >>
     when (3 <=? arch_degree)%Z
       (add "SPW (Supinator Posterior Wedge)" Extrinsic 0.85 true)
   else if zone_is alignment "hindfoot" "varus" then
     add "Posterior Lateral Wedge" Extrinsic (confidence_val arch_degree) true >>
     when (3 <=? arch_degree)%Z
       (add "PPW (Pronator Posterior Wedge)" Extrinsic 0.85 true)
   else id).

(** Lines 181-327 and 342-376: the static add-on tables, in source order. *)
Local Open Scope Q_scope.

Definition pathology_map : list (string * list rec_entry) :=
  [
    ("Claw Toe",
      [Rec "Toe Crest" Intrinsic 0.85 true;
       Rec "Cushioning" Intrinsic 0.80 false]);
    ("Hammer Toe",
      [Rec "Toe Crest" Intrinsic 0.85 true;
       Rec "Toe Loop" Extrinsic 0.75 false]);
    ("Mallet Toe",
      [Rec "Toe Crest" Intrinsic 0.80 true]);
    ("Tennis Toe",
      [Rec "Toe part Cushioning" Intrinsic 0.75 true]);
    ("Skiers Toe",
      [Rec "Toe part Cushioning" Intrinsic 0.75 true]);
    ("Turf Toe",
      [Rec "MP" Intrinsic 0.85 true;
       Rec "MPL" Intrinsic 0.80 false;
       Rec "Morton's Extension" Extrinsic 0.90 true]);
    ("Hallux Valgus",
      [Rec "AS" Intrinsic 0.70 false;
       Rec "Anterior Medial Wedge" Extrinsic 0.85 true;
       Rec "Hallux Separator" Intrinsic 0.80 true]);
    ("Hallux Rigidus",
      [Rec "Morton's to toe Extension (Stiff plate)" Extrinsic 0.95 true;
       Rec "Kinetic Wedge" Extrinsic 0.85 true]);
    ("Hallux Limitus",
      [Rec "Morton's Extension" Extrinsic 0.90 true;
       Rec "Rocker Sole" Extrinsic 0.85 false]);
    ("Metatarsalgia",
      [Rec "MP" Intrinsic 0.90 true;
       Rec "MPL" Intrinsic 0.85 true;
       Rec "Metatarsal Bar" Extrinsic 0.80 false]);
    ("Bunion Pain",
      [Rec "AS" Intrinsic 0.70 false;
       Rec "Anterior Medial Wedge" Extrinsic 0.85 true;
       Rec "Bunion Shield" Intrinsic 0.90 true]);
    ("Bunionette",
      [Rec "5th Met Head Relief" Intrinsic 0.90 true;
       Rec "Lateral Forefoot Spacer" Intrinsic 0.85 false]);
    ("Morton Neuroma",
      [Rec "MP" Intrinsic 0.90 true;
       Rec "MPL" Intrinsic 0.85 true;
       Rec "Metatarsal Bar" Extrinsic 0.80 false;
       Rec "Neuroma Pad" Intrinsic 0.95 true]);
    ("Sesamoiditis",
      [Rec "Sesamoid Relief Pad" Intrinsic 0.95 true;
       Rec "1st Met Head Off-loading" Intrinsic 0.90 true]);
    ("Midfoot Arthritis",
      [Rec "AS" Intrinsic 0.85 true;
       Rec "Fascia Groove" Intrinsic 0.80 false;
       Rec "Carbon Plate" Intrinsic 0.90 true]);
    ("Arch Pain",
      [Rec "AS" Intrinsic 0.90 true;
       Rec "Arch Cushioning" Intrinsic 0.85 false]);
    ("Kohler's disease",
      [Rec "NAS" Intrinsic 0.95 true;
       Rec "Navicular Off-loading" Intrinsic 0.90 true]);
    ("Peroneal Tendon Enteropathy",
      [Rec "Posterior Lateral Wedge" Extrinsic 0.85 true;
       Rec "Lateral Border Support" Intrinsic 0.80 false]);
    ("Cuboid Syndrome",
      [Rec "Valgus cuboid pad" Intrinsic 0.90 true;
       Rec "Cuboid Off-Load" Intrinsic 0.90 true;
       Rec "Lateral Midfoot Support" Intrinsic 0.80 false]);
    ("Accessory Navicular",
      [Rec "NAS" Intrinsic 0.90 true;
       Rec "Posterior Medial Wedge" Extrinsic 0.85 true;
       Rec "Navicular Relief Cut-out" Intrinsic 0.95 true]);
    ("Navicular Pain",
      [Rec "NAS" Intrinsic 0.85 true;
       Rec "Posterior Medial Wedge" Extrinsic 0.80 false;
       Rec "Navicular Off-loading" Intrinsic 0.90 true]);
    ("Lisfranc Injury",
      [Rec "Carbon Plate" Intrinsic 0.95 true;
       Rec "AS" Intrinsic 0.85 true;
       Rec "Rigid Midfoot Support" Intrinsic 0.90 true]);
    ("Plantar Fasciitis",
      [Rec "Heel Cushion Pad" Intrinsic 0.90 true;
       Rec "Fascia Groove" Intrinsic 0.85 true;
       Rec "Calcaneal Spur Accommodation" Intrinsic 0.80 false]);
    ("Heel Spur",
      [Rec "Heel Spur Pad" Intrinsic 0.95 true;
       Rec "Calcaneal Spur Accommodation" Intrinsic 0.90 true]);
    ("Posterior Tibialis Tendinitis",
      [Rec "AS" Intrinsic 0.85 true;
       Rec "MAS" Intrinsic 0.90 true;
       Rec "Medial Heel Wedge" Extrinsic 0.85 true]);
    ("Tarsal Tunnel Syndrome",
      [Rec "AS" Intrinsic 0.80 false;
       Rec "Heel Lift Pad" Intrinsic 0.85 true;
       Rec "Medial Arch Relief" Intrinsic 0.90 true]);
    ("Calcaneus Fx",
      [Rec "Heel Lift Pad" Intrinsic 0.95 true;
       Rec "Total Contact Orthotic" Intrinsic 0.90 true]);
    ("Heel Fat Pad Atrophy",
      [Rec "Heel Cushion Pad" Intrinsic 0.95 true;
       Rec "Shock Absorbing Heel" Extrinsic 0.90 true]);
    ("Achilles Tendinitis",
      [Rec "Heel Cushion Pad" Intrinsic 0.85 true;
       Rec "Heel Lift Pad" Intrinsic 0.90 true;
       Rec "Achilles Notch" Extrinsic 0.80 false]);
    ("Haglund's Deformity",
      [Rec "Heel Lift Pad" Intrinsic 0.85 true;
       Rec "Achilles Notch" Extrinsic 0.95 true;
       Rec "Heel Cup" Intrinsic 0.90 true]);
    ("Sever's Disease",
      [Rec "Heel Lift Pad" Intrinsic 0.90 true;
       Rec "Heel Cushion Pad" Intrinsic 0.90 true;
       Rec "Achilles Notch" Extrinsic 0.85 false])
  ].

Definition other_conditions_map : list (string * list rec_entry) :=
  [
    ("Abnormal peak pressure",
      [Rec "Soft Cushioning" Intrinsic 0.85 true;
       Rec "Pressure Relief Pad" Intrinsic 0.90 true]);
    ("Callus and Pain Point",
      [Rec "Soft Cushioning" Intrinsic 0.85 true;
       Rec "Off-Loading" Intrinsic 0.90 true;
       Rec "Pressure Relief Pad" Intrinsic 0.90 true]);
    ("Ulcer",
      [Rec "Off-Loading" Intrinsic 0.95 true;
       Rec "Total Contact Orthotic" Intrinsic 0.90 true;
       Rec "Ulcer Relief Aperture" Intrinsic 0.95 true]);
    ("Toe/Foot Part Amputation",
      [Rec "Toe filler" Intrinsic 0.95 true;
       Rec "Amputation Accommodation" Intrinsic 0.95 true;
       Rec "Rocker Sole" Extrinsic 0.90 true]);
    ("Leg Length Discrepancy",
      [Rec "Heel Height Pad" Extrinsic 0.95 true;
       Rec "Full Length Lift" Extrinsic 0.90 false]);
    ("Charcot Foot",
      [Rec "Total Contact Orthotic" Intrinsic 0.95 true;
       Rec "Rocker Sole" Extrinsic 0.90 true;
       Rec "Pressure Distribution Insole" Intrinsic 0.90 true]);
    ("Diabetes with Neuropathy",
      [Rec "Total Contact Orthotic" Intrinsic 0.95 true;
       Rec "Soft Cushioning" Intrinsic 0.90 true;
       Rec "Pressure Redistribution" Intrinsic 0.95 true])
  ].

Local Close Scope Q_scope.

(** Lines 329-339: recommendations for each detected pathology. *)
Definition pathology_rules (detected_pathologies : list string) : step :=
  λ σ, fold_left (λ σ condition, add_all (dict_get pathology_map condition []) σ)
         detected_pathologies σ.

(** [[x.lower() for x in patient_context.get("medical_history", [])]]. *)
Definition history (c : patient_context) : list string :=
  map lower (medical_history c).

(** Lines 379-415: the dict [other_conditions] as it stands before the final
    loop, in its insertion order. *)
Definition other_conditions (arch_degree : Z) (detected_pathologies : list string)
    (ctx : option patient_context) : list (string * bool) :=
  let of_context (f : patient_context → bool) :=
    match ctx with Some c => f c | None => false end in
  [ ("Abnormal peak pressure", mem "Metatarsalgia" detected_pathologies);
    ("Callus and Pain Point",
      mem "Plantar Fasciitis" detected_pathologies && (3 <=? arch_degree)%Z);
    ("Ulcer", of_context (λ c, ulcer_history c || mem "ulcer" (history c)));
    ("Toe/Foot Part Amputation", of_context (λ c, mem "amputation" (history c)));
    ("Leg Length Discrepancy", of_context leg_length_discrepancy);
    ("Charcot Foot", of_context (λ c, mem "charcot" (history c)));
    ("Diabetes with Neuropathy",
      of_context (λ c, mem "diabetes" (history c) && mem "neuropathy" (history c))) ].

(** Lines 397-415: the flags raised together with the context conditions. *)
Definition context_flags (ctx : option patient_context) : step :=
  match ctx with
  | None => id
  | Some c =>
      when (mem "diabetes" (history c) && mem "neuropathy" (history c))
        (set_flag "high_risk_foot") >>
      when (mem "charcot" (history c)) (set_flag "high_risk_foot") >>
      when (ulcer_history c || mem "ulcer" (history c)) (set_flag "high_risk_foot")
  end.

(** Lines 417-428: the loop over [other_conditions.items()]. *)
Definition other_condition_rules (conditions : list (string * bool)) : step :=
  λ σ, fold_left
         (λ σ (item : string * bool),
            when item.2 (add_all (dict_get other_conditions_map item.1 [])) σ)
         conditions σ.

(** The body of [apply_medical_rules] up to the final store of [flags]. *)
Definition rules_body (arch_type : string) (arch_degree : Z)
    (alignment : gmap string string) (detected_pathologies : list string)
    (ctx : option patient_context) : step :=
  arch_rules arch_type arch_degree ctx >>
  alignment_rules arch_type arch_degree alignment >>
  pathology_rules detected_pathologies >>
  context_flags ctx >>
  other_condition_rules (other_conditions arch_degree detected_pathologies ctx).

(** [recommendations["flags"] = flags]. *)
Definition store_flags (σ : locals) : recommendations :=
  {| intrinsic := intrinsic σ.1; extrinsic := extrinsic σ.1;
     confidence_scores := confidence_scores σ.1; flags := σ.2;
     primary_recommendations := primary_recommendations σ.1;
     secondary_recommendations := secondary_recommendations σ.1;
     combined_list := combined_list σ.1 |}.

(** [patient_context] is [None] both for Python's [None] and for an empty
    dict, which the guards [if patient_context:] treat alike. *)
Definition apply_medical_rules (arch_type : string) (arch_degree : Z)
    (alignment : gmap string string) (detected_pathologies : list string)
    (ctx : option patient_context) : recommendations :=
  store_flags
    (rules_body arch_type arch_degree alignment detected_pathologies ctx
       (init_recommendations, ∅)).

End Rules.

(** ** The weighted vote of the arch model ([foot_models/arch_model.py]) *)

Module Arch.
Import Py.

(** One entry of [classification_results]: the keys that the vote reads. *)
Record method_result := {
  classification : option string;
  confidence : option Q
}.

Definition initial_votes : list (string * Q) :=
  [("flat_feet", 0.0%Q); ("normal_arch", 0.0%Q); ("high_arch", 0.0%Q)].

(** Lines 1393-1401: one iteration of the vote-collecting loop. *)
Definition collect_vote (weights : list (string * Q)) (votes : list (string * Q))
    (item : string * method_result) : list (string * Q) :=
  match dict_lookup weights item.1 with
  | None => votes
  | Some weight =>
      let confidence := default 0.7%Q (confidence item.2) in
      match classification item.2 with
      | None => votes
      | Some c =>
          if bool_decide (is_Some (dict_lookup votes c))
          then dict_update votes c 0%Q (λ v, v + weight * confidence)%Q
          else votes
      end
  end.

(** [max(d.items(), key=lambda x: x[1])]; [ValueError] on an empty dict. *)
Definition max_item (d : list (string * Q)) : outcome (string * Q) :=
  match d with
  | [] => Raised (Exception "max() arg is an empty sequence")
  | x :: l => Returned (max_by (λ a b, gt a.2 b.2) x l)
  end.

(** [d[k]]; [KeyError] on a missing key. *)
Definition getitem (d : list (string * Q)) (k : string) : outcome Q :=
  match dict_lookup d k with
  | Some v => Returned v
  | None => Raised (Exception k)
  end.

(** [_determine_overall_arch_type(classifications, weights)]. *)
Definition _determine_overall_arch_type
    (classifications : list (string * method_result))
    (weights : list (string * Q)) : outcome (string * Q) :=
  let votes := fold_left (collect_vote weights) classifications initial_votes in
  winner ← max_item votes;
  let condition := winner.1 in
  let total_weight := sum (weights.*2) in
  confidence ←
    (if gt total_weight 0%Q
     then v ← getitem votes condition; mret (v / total_weight)%Q
     else mret 0.7%Q);
  mret (condition, max 0.6%Q (min 0.95%Q confidence)).

(** Lines 1341-1351: one iteration of the counting loop over the results
    that have a ["classification"] key; the state is
    [(classification_counts, total_methods)]. *)
Definition count_method (st : list (string * Z) * Z) (item : string * method_result)
    : list (string * Z) * Z :=
  match classification item.2 with
  | None => st
  | Some c => (dict_update st.1 c 0%Z (λ n, n + 1)%Z, (st.2 + 1)%Z)
  end.

(** [_boost_confidence_with_agreement_analysis(classification_results,
    base_confidence)]. *)
Definition _boost_confidence_with_agreement_analysis
    (classification_results : list (string * method_result))
    (base_confidence : Q) : Q :=
  let '(classification_counts, total_methods) :=
    fold_left count_method classification_results ([], 0%Z) in
  match classification_counts with
  | [] => base_confidence
  | x :: l =>
      let most_common := max_by (λ a b, (b.2 <? a.2)%Z) x l in
      if (0 <? total_methods)%Z then
        let agreement_percentage := (inject_Z most_common.2 / inject_Z total_methods)%Q in
        let confidence_boost :=
          if gt agreement_percentage 0.8%Q then 0.1%Q
          else if gt agreement_percentage 0.6%Q then 0.05%Q
          else 0%Q in
        min 0.95%Q (base_confidence + confidence_boost)%Q
      else base_confidence
  end.

(** Lines 177-184 of [ArchTypeModel.analyze]: the weight table. *)
Definition weights : list (string * Q) :=
  [ ("arch_height_index", 0.25%Q);
    ("medial_arch_angle", 0.20%Q);
    ("chippaux_smirak_index", 0.15%Q);
    ("navicular_drop", 0.15%Q);
    ("arch_rigidity", 0.10%Q);
    ("dynamic_arch_response", 0.15%Q) ].

(** Lines 186-190 of [ArchTypeModel.analyze]: the vote followed by the
    agreement boost. *)
Definition classify (classification_results : list (string * method_result))
    (weights : list (string * Q)) : outcome (string * Q) :=
  r ← _determine_overall_arch_type classification_results weights;
  mret (r.1, _boost_confidence_with_agreement_analysis classification_results r.2).

End Arch.

(** ** The result normaliser ([foot_models/base_model.py]) *)

Module Base.
Import Py.

(** Values stored in a result dict. *)
#[warnings="-register-all"]
Inductive value :=
  | VNone
  | VBool (b : bool)
  | VNum (q : Q)
  | VStr (s : string)
  | VDict (items : list (string * value)).

(** An entry of [images]: [None], an object that is not a [numpy] array, or
    an array with its [shape]. *)
Inductive image :=
  | ImageNone
  | NotArray
  | NdArray (shape : list nat).

(** A model: the attributes set by [__init__], the overridable
    [get_version] and the subclass hook [_analyze_implementation], which
    returns a dict or [None], or raises. *)
Record BaseFootModel := {
  name : string;
  description : string;
  get_version : string;
  _analyze_implementation :
    list image → gmap string Q → outcome (option (gmap string value))
}.

(** What one call reads from its environment: the successive values of
    [time.time()] and the text of [traceback.format_exc()]. *)
Record environment := {
  start_time : Q;
  end_time : Q;
  timestamp : Q;
  format_exc : string
}.

(** [repr] of a shape tuple of fewer than two dimensions. *)
Definition repr_shape (shape : list nat) : string :=
  match shape with
  | [] => "()"
  | n :: _ => "(" +:+ pretty n +:+ ",)"
  end.

(** Lines 139-147: the loop [for i, img in enumerate(images)]. *)
Fixpoint validate_images (i : nat) (images : list image) : outcome () :=
  match images with
  | [] => mret ()
  | img :: images' =>
      match img with
      | ImageNone =>
          Raised (ValidationError ("Image at index " +:+ pretty i +:+ " is None"))
      | NotArray =>
          Raised (ValidationError ("Image at index " +:+ pretty i +:+ " is not a numpy array"))
      | NdArray shape =>
          if (length shape <? 2)%nat
          then Raised (ValidationError
                 ("Image at index " +:+ pretty i +:+ " has invalid dimensions: "
                    +:+ repr_shape shape))
          else validate_images (S i) images'
      end
  end.

(** [_validate_inputs(images, measurements)]; an argument that is [None] in
    Python is [None] here.  Where the source returns nothing, the validated
    arguments are returned, for the call of the implementation. *)
Definition _validate_inputs (images : option (list image))
    (measurements : option (gmap string Q)) : outcome (list image * gmap string Q) :=
  match images with
  | None | Some [] => Raised (ValidationError "No images provided")
  | Some imgs =>
      match measurements with
      | None => Raised (ValidationError "No measurements provided")
      | Some m => _ ← validate_images 0 imgs; mret (imgs, m)
      end
  end.

(** [if k not in d: d[k] = v]. *)
Definition setdefault (k : string) (v : value) (d : gmap string value) : gmap string value :=
  match d !! k with
  | Some _ => d
  | None => <[k := v]> d
  end.

(** [_post_process_results(results)]. *)
Definition _post_process_results (self : BaseFootModel)
    (results : option (gmap string value)) : gmap string value :=
  match results with
  | None => ∅
  | Some processed =>
      setdefault "confidence" (VNum 0.8%Q)
        (setdefault "model_version" (VStr (get_version self))
           (setdefault "model_name" (VStr (name self)) processed))
  end.

(** [_create_error_response(error_type, error_message, execution_time,
    traceback)]. *)
Definition _create_error_response (self : BaseFootModel) (env : environment)
    (error_type error_message : string) (execution_time : Q)
    (traceback : option string) : gmap string value :=
  let error :=
    [ ("type", VStr error_type);
      ("message", VStr error_message);
      ("model_name", VStr (name self));
      ("execution_time", VNum execution_time);
      ("timestamp", VNum (timestamp env)) ] in
  let error :=
    match traceback with
    | Some tb => (error ++ [("traceback", VStr tb)])%list
    | None => error
    end in
  {[ "error" := VDict error;
     "model_name" := VStr (name self);
     "model_version" := VStr (get_version self);
     "success" := VBool false ]}.

(** Lines 54-75: the body of the [try] statement of [analyze]. *)
Definition analyze_body (self : BaseFootModel) (env : environment)
    (images : option (list image)) (measurements : option (gmap string Q))
    : outcome (gmap string value) :=
  args ← _validate_inputs images measurements;
  results ← _analyze_implementation self args.1 args.2;
  let results := _post_process_results self results in
  let last_execution_time := (end_time env - start_time env)%Q in
  mret (<["execution_metadata" :=
            VDict [ ("execution_time", VNum last_execution_time);
                    ("timestamp", VNum (timestamp env));
                    ("model_name", VStr (name self));
                    ("model_version", VStr (get_version self)) ]]> results).

(** The error type that each [except] clause reports. *)
Definition error_type (e : exn) : string :=
  match e with
  | ValidationError _ => "validation_error"
  | ModelError _ => "model_error"
  | Exception _ => "unexpected_error"
  end.

(** [str(e)]. *)
Definition str (e : exn) : string :=
  match e with
  | ValidationError msg | ModelError msg | Exception msg => msg
  end.

(** Lines 77-104: the three [except] clauses.  The assignments to
    [self.last_error] and the log records are not part of the returned
    value and are left out. *)
Definition analyze_handler (self : BaseFootModel) (env : environment) (e : exn)
    : outcome (gmap string value) :=
  let execution_time := (end_time env - start_time env)%Q in
  match e with
  | ValidationError _ | ModelError _ =>
      mret (_create_error_response self env (error_type e) (str e) execution_time None)
  | Exception _ =>
      mret (_create_error_response self env (error_type e) (str e) execution_time
              (Some (format_exc env)))
  end.

(** [BaseFootModel.analyze(images, measurements)]. *)
Definition analyze (self : BaseFootModel) (env : environment)
    (images : option (list image)) (measurements : option (gmap string Q))
    : outcome (gmap string value) :=
  try_except (analyze_body self env images measurements) (analyze_handler self env).

End Base.

(** ** The aggregator ([processor/ai_diagnosis.py]) *)

Module Diagnosis.
Import Py.

(** One zone of a pronation result's ["zone_alignment"]. *)
Record zone_data := {
  zone_alignment_of : option string;   (* key "alignment" *)
  zone_confidence : option Q           (* key "confidence" *)
}.

(** A model's result dict: the keys that the aggregator reads, [None] for
    an absent key. *)
Record model_result := {
  condition : option string;
  condition_name : option string;
  confidence : option Q;
  severity : option string;
  arch_measurements : option (gmap string Q);
  zone_alignment : option (gmap string zone_data);
  rearfoot_angle : option Q
}.

(** The empty dict [{}]; also what the aggregator reads from the error
    record of [BaseFootModel.analyze], whose keys are ["error"],
    ["model_name"], ["model_version"] and ["success"]. *)
Definition empty_result : model_result :=
  {| condition := None; condition_name := None; confidence := None;
     severity := None; arch_measurements := None; zone_alignment := None;
     rearfoot_angle := None |}.

(** Lines 144-149: the result stored when [model.analyze] raises. *)
Definition analysis_error : model_result :=
  {| condition := Some "unknown"; condition_name := Some "Analysis Error";
     confidence := Some 0.0%Q; severity := None; arch_measurements := None;
     zone_alignment := None; rearfoot_angle := None |}.

Record structured_diagnosis := {
  arch_type : string;
  arch_degree : Z;
  alignment : gmap string string;
  pathologies : list string
}.

(** The returned dict.  The keys left out are texts and copies:
    ["assessment"], ["detailed_results"], ["patient_context_used"],
    ["high_risk_flags"] and the ["abbreviation_map"]; [recommendations] is
    [None] for the fallback, whose dict has no add-on. *)
Record server_results := {
  diagnosis : string;
  result_confidence : Q;               (* key "confidence" *)
  measurements : gmap string Q;
  structured : structured_diagnosis;   (* key "structured_diagnosis" *)
  recommendations : option Rules.recommendations
}.

(** [_map_arch_type_to_pdf_terminology(arch_type)]. *)
Definition mapping : list (string * string) :=
  [ ("high_arch", "High Arch");
    ("flat_feet", "Flat Arch");
    ("normal_arch", "Normal Arch");
    ("flatfoot", "Flat Arch");
    ("high arch", "High Arch");
    ("normal foot structure", "Normal Arch") ].

Definition _map_arch_type_to_pdf_terminology (arch_type : string) : string :=
  dict_get mapping (lower arch_type) "Normal Arch".

Definition severity_map : list (string * Z) :=
  [("none", 1%Z); ("mild", 2%Z); ("moderate", 3%Z); ("severe", 4%Z)].

(** [_determine_arch_degree(arch_result)]. *)
Definition _determine_arch_degree (arch_result : model_result) : Z :=
  let condition := default "normal_arch" (condition arch_result) in
  let severity := default "none" (severity arch_result) in
  let measurements := default ∅ (arch_measurements arch_result) in
  let arch_height_index := default 0.25%Q (measurements !! "arch_height_index") in
  if contains "normal" (lower condition) then 1
  else if contains "flat" (lower condition) || contains "pes planus" (lower condition) then
    if ge arch_height_index 0.21%Q then 1
    else if ge arch_height_index 0.18%Q then 2
    else if ge arch_height_index 0.15%Q then 3
    else 4
  else if contains "high" (lower condition) || contains "pes cavus" (lower condition) then
    if le arch_height_index 0.34%Q then 1
    else if le arch_height_index 0.38%Q then 2
    else if le arch_height_index 0.42%Q then 3
    else 4
  else dict_get severity_map severity 1%Z.

(** [not zone_specific]: the zone's dict is missing or empty. *)
Definition zone_missing (z : option zone_data) : bool :=
  match z with
  | None => true
  | Some d => bool_decide (zone_alignment_of d = None ∧ zone_confidence d = None)
  end.

(** Lines 630-638: the tail of [_determine_zone_alignment]. *)
Definition zone_or_gait (zone : string) (zone_specific : option zone_data)
    (gait_result : model_result) : string :=
  let alignment := default "neutral" (zone_specific ≫= zone_alignment_of) in
  let confidence := default 0.5%Q (zone_specific ≫= zone_confidence) in
  if ge confidence 0.6%Q then alignment
  else
    match rearfoot_angle gait_result with
    | Some angle =>
        if bool_decide (zone = "hindfoot") then
          if lt angle (-2)%Q then "varus"
          else if gt angle 2%Q then "valgus"
          else "neutral"
        else "neutral"
    | None => "neutral"
    end.

(** [_determine_zone_alignment(zone, alignment_result, gait_result)]. *)
Definition _determine_zone_alignment (zone : string)
    (alignment_result gait_result : model_result) : string :=
  let alignment_zones := default ∅ (zone_alignment alignment_result) in
  let zone_specific := alignment_zones !! zone in
  let rear := bool_decide (zone = "hindfoot") || bool_decide (zone = "midfoot") in
  let fore := bool_decide (zone = "forefoot") in
  let otherwise := zone_or_gait zone zone_specific gait_result in
  if zone_missing zone_specific then
    let condition := lower (default "" (condition alignment_result)) in
    if contains "pronation" condition then
      if rear then "valgus" else if fore then "varus" else otherwise
    else if contains "supination" condition then
      if rear then "varus" else if fore then "valgus" else otherwise
    else otherwise
  else otherwise.

(** [results['models']]: model id to result, in insertion order.  The
    ["name"] and ["description"] stored next to each result are only read
    for the assessment text. *)
Definition models_dict : Type := list (string * model_result).

(** [d.get(model_id, {}).get('result', {})]. *)
Definition result_of (models : models_dict) (model_id : string) : model_result :=
  default empty_result (dict_lookup models model_id).

(** The locals of the model loop. *)
Record loop_state := {
  models : models_dict;
  primary_diagnosis : option string;
  primary_confidence : Q
}.

(** Lines 114-150: one iteration of the loop over the enabled models that
    are registered; [run] is the outcome of [model.analyze]. *)
Definition run_model (st : loop_state) (item : string * outcome model_result)
    : loop_state :=
  match item.2 with
  | Returned model_result =>
      let models := dict_update (models st) item.1 model_result (λ _, model_result) in
      let candidate := default 0%Q (confidence model_result) in
      let condition_name := default "" (condition_name model_result) in
      if gt candidate (primary_confidence st)
         && negb (contains "normal" (lower condition_name))
         && negb (bool_decide (default "none" (severity model_result) = "none"))
      then {| models := models; primary_diagnosis := Some condition_name;
              primary_confidence := candidate |}
      else {| models := models; primary_diagnosis := primary_diagnosis st;
              primary_confidence := primary_confidence st |}
  | Raised _ =>
      {| models := dict_update (models st) item.1 analysis_error (λ _, analysis_error);
         primary_diagnosis := primary_diagnosis st;
         primary_confidence := primary_confidence st |}
  end.

(** The whole loop, from the initial locals of lines 111-112. *)
Definition run_all (runs : list (string * outcome model_result)) : loop_state :=
  fold_left run_model runs
    {| models := []; primary_diagnosis := None; primary_confidence := 0%Q |}.

(** [if primary_diagnosis:]: neither [None] nor the empty string. *)
Definition truthy (s : option string) : bool :=
  match s with
  | Some d => negb (bool_decide (d = ""))
  | None => false
  end.

(** Lines 153-160: the summary diagnosis. *)
Definition summary (st : loop_state) : string * Q :=
  if truthy (primary_diagnosis st) then
    (default "" (primary_diagnosis st), primary_confidence st)
  else
    let arch_result := result_of (models st) "arch_type" in
    (default "Normal Foot Structure" (condition_name arch_result),
     default 0.9%Q (confidence arch_result)).

(** Lines 188-198: the detected pathologies. *)
Definition collect_pathologies (models : models_dict) : list string :=
  omap (λ item : string * model_result,
          let condition := default "" (condition_name item.2) in
          if negb (bool_decide (condition = ""))
             && negb (contains "normal" (lower condition))
             && negb (bool_decide (default "none" (severity item.2) = "none"))
             && ge (default 0%Q (confidence item.2)) 0.6%Q
          then Some condition else None)
       models.

(** Lines 681-697 of [_generate_default_patient_context]: the medical
    history seeded from the condition names.  The estimates of height and
    weight are keys that the rule engine does not read. *)
Definition pathology_indicators : list (string * list string) :=
  [ ("Diabetes", ["diabetic foot"; "neuropathy"; "peripheral vascular disease"]);
    ("Arthritis", ["midfoot arthritis"; "rheumatoid arthritis"; "osteoarthritis"]);
    ("Previous foot surgery", ["surgical scar"; "fusion"; "implant"]);
    ("Gout", ["gouty arthritis"; "tophi"]);
    ("Peripheral Neuropathy", ["neuropathy"; "numbness"; "tingling"]) ].

Definition seed_history (models : models_dict) : list string :=
  fold_left
    (λ history (item : string * model_result),
       let condition := lower (default "" (condition_name item.2)) in
       fold_left
         (λ history (entry : string * list string),
            if existsb (λ indicator, contains (lower indicator) condition) entry.2
            then Rules.append_new entry.1 history else history)
         pathology_indicators history)
    models [].

Definition _generate_default_patient_context (models : models_dict)
    : Rules.patient_context :=
  {| Rules.medical_history := seed_history models;
     Rules.previous_foot_pain := false;
     Rules.leg_length_discrepancy := false;
     Rules.ulcer_history := false |}.

(** Lines 267-293: the dict returned by the handler of the outer [try]. *)
Definition neutral_alignment : gmap string string :=
  {[ "forefoot" := "neutral"; "midfoot" := "neutral"; "hindfoot" := "neutral" ]}.

Definition fallback : server_results :=
  {| diagnosis := "Normal Foot Structure";
     result_confidence := 0.70%Q;
     measurements :=
       {[ "length" := 24.5%Q; "width" := 9.2%Q;
          "archHeight" := 1.8%Q; "instepHeight" := 2.5%Q ]};
     structured :=
       {| arch_type := "Normal Arch"; arch_degree := 1;
          alignment := neutral_alignment; pathologies := [] |};
     recommendations := None |}.

(** Lines 171-222: the structured diagnosis. *)
Definition structure (models : models_dict) : structured_diagnosis :=
  let arch_type_result := result_of models "arch_type" in
  let alignment_result := result_of models "pronation" in
  let gait_result := result_of models "gait" in
  {| arch_type :=
       _map_arch_type_to_pdf_terminology
         (default "normal_arch" (condition arch_type_result));
     arch_degree := _determine_arch_degree arch_type_result;
     alignment :=
       {[ "forefoot" := _determine_zone_alignment "forefoot" alignment_result gait_result;
          "midfoot" := _determine_zone_alignment "midfoot" alignment_result gait_result;
          "hindfoot" := _determine_zone_alignment "hindfoot" alignment_result gait_result ]};
     pathologies := collect_pathologies models |}.

(** Lines 96-262: the body of the outer [try].  [extracted] is the outcome
    of the image steps ([_preprocess_images], [_extract_measurements]),
    [runs] lists the enabled registered models with the outcome of their
    [analyze], and [patient_context] is [None] for Python's [None],
    [Some None] for an empty dict. *)
Definition analyze_body (extracted : outcome (gmap string Q))
    (runs : list (string * outcome model_result))
    (patient_context : option (option Rules.patient_context))
    : outcome server_results :=
  measured ← extracted;
  let st := run_all runs in
  let s := summary st in
  let sd := structure (models st) in
  let patient_context :=
    match patient_context with
    | None => Some (_generate_default_patient_context (models st))
    | Some given => given
    end in
  let orthotic_recommendation_data :=
    Rules.apply_medical_rules (arch_type sd) (arch_degree sd) (alignment sd)
      (pathologies sd) patient_context in
  mret {| diagnosis := s.1;
          result_confidence := s.2;
          measurements :=
            {[ "length" := default 25.0%Q (measured !! "length");
               "width" := default 9.5%Q (measured !! "width");
               "archHeight" := default 1.8%Q (measured !! "arch_height");
               "instepHeight" := default 2.5%Q (measured !! "instep_height") ]};
          structured := sd;
          recommendations := Some orthotic_recommendation_data |}.

(** [FootDiagnosisModel.analyze_foot_images]. *)
Definition analyze_foot_images (extracted : outcome (gmap string Q))
    (runs : list (string * outcome model_result))
    (patient_context : option (option Rules.patient_context))
    : outcome server_results :=
  try_except (analyze_body extracted runs patient_context) (λ _, mret fallback).

(** The registration order of [self.models]. *)
Definition registered : list string :=
  [ "arch_type"; "pronation"; "pressure"; "deformity"; "gait"; "footwear";
    "advanced_measurements" ].

End Diagnosis.

(** ** What a call reads from the interpreter *)

Module Runtime.

(** The value of each [random.uniform(a, b)] that a call makes, by its
    bounds (no call draws twice with the same bounds), and the built-in
    [round(x, ndigits)] on floats. *)
Record runtime := {
  uniform : Q → Q → Q;
  round : Q → Z → Q
}.

End Runtime.

(** ** The measurements of the aggregator ([processor/ai_diagnosis.py]) *)

Module Measurements.
Import Py Runtime.

(** [img.size] of an array given by its shape. *)
Definition size (shape : list nat) : nat := foldr Nat.mul 1%nat shape.

(** Lines 365-393: the measurements simulated from the height and width of
    the first image. *)
Definition from_image (rt : runtime) (height width : nat) : gmap string Q :=
  let length := round rt (inject_Z (Z.of_nat width) * 0.8 / 15)%Q 1 in
  let img_width := round rt (inject_Z (Z.of_nat height) * 0.4 / 15)%Q 1 in
  let arch_height := round rt (inject_Z (Z.of_nat height) * 0.05 / 15)%Q 1 in
  let instep_height := round rt (inject_Z (Z.of_nat height) * 0.07 / 15)%Q 1 in
  let length := max (min length 32.0%Q) 22.0%Q in
  let img_width := max (min img_width 12.0%Q) 7.0%Q in
  let arch_height := max (min arch_height 3.0%Q) 0.5%Q in
  let instep_height := max (min instep_height 4.0%Q) 1.5%Q in
  {[ "length" := length; "width" := img_width;
     "arch_height" := arch_height; "instep_height" := instep_height ]}.

(** Lines 397-413: the drawn measurements. *)
Definition drawn (rt : runtime) : gmap string Q :=
  {[ "length" := round rt (uniform rt 22.0%Q 30.0%Q) 1;
     "width" := round rt (uniform rt 8.0%Q 12.0%Q) 1;
     "arch_height" := round rt (uniform rt 0.8%Q 3.0%Q) 1;
     "instep_height" := round rt (uniform rt 2.0%Q 3.5%Q) 1 ]}.

(** [_extract_measurements(images)] on arrays given by their shapes.  The
    [ValueError] of unpacking [img.shape[:2]] for an array of fewer than two
    dimensions is caught by the [try] and leads to the drawn measurements. *)
Definition _extract_measurements (rt : runtime) (images : list (list nat))
    : gmap string Q :=
  match images with
  | img :: _ =>
      if (0 <? size img)%nat then
        match img with
        | height :: width :: _ => from_image rt height width
        | _ => drawn rt
        end
      else drawn rt
  | [] => drawn rt
  end.

End Measurements.

(** ** The pronation model ([foot_models/pronation_model.py]) *)

Module Pronation.
Import Py Runtime.

(** [_calculate_heel_angle(images)]. *)
Definition _calculate_heel_angle {A} (rt : runtime) (images : list A) : Q :=
  match images with
  | [] => 2.0%Q
  | _ => uniform rt (-8.0)%Q 10.0%Q
  end.

(** [_get_condition_name(condition)]. *)
Definition names : list (string * string) :=
  [ ("overpronation", "Overpronation");
    ("underpronation", "Underpronation (Supination)");
    ("neutral_pronation", "Neutral Pronation") ].

Definition _get_condition_name (condition : string) : string :=
  dict_get names condition "Unknown Condition".

(** The dict returned by [analyze], without its ["description"], a text
    looked up from the condition code. *)
Record result := {
  condition : string;
  condition_name : string;
  confidence : Q;
  severity : string;
  measurements : gmap string Q
}.

(** [PronationModel.analyze(images, measurements)], which overrides the
    method of the base class. *)
Definition analyze {A} (rt : runtime) (images : list A)
    (measurements : gmap string Q) : result :=
  let arch_height := default 0%Q (measurements !! "archHeight") in
  let heel_angle := _calculate_heel_angle rt images in
  let '(condition, confidence, severity) :=
    if lt arch_height 1.2%Q && gt heel_angle 5%Q then
      ("overpronation", round rt (uniform rt 0.70%Q 0.92%Q) 2,
       if lt heel_angle 8%Q then "mild" else "moderate")
    else if gt arch_height 2.4%Q && lt heel_angle (-3)%Q then
      ("underpronation", round rt (uniform rt 0.65%Q 0.90%Q) 2,
       if gt heel_angle (-6)%Q then "mild" else "moderate")
    else
      ("neutral_pronation", round rt (uniform rt 0.75%Q 0.95%Q) 2, "none") in
  {| condition := condition;
     condition_name := _get_condition_name condition;
     confidence := confidence;
     severity := severity;
     measurements :=
       {[ "heel_angle" := round rt heel_angle 1; "arch_height" := arch_height ]} |}.

(** The result as the aggregator reads it: the dict has no key
    ["arch_measurements"], ["zone_alignment"] or ["rearfoot_angle"]. *)
Definition as_model_result (r : result) : Diagnosis.model_result :=
  {| Diagnosis.condition := Some (condition r);
     Diagnosis.condition_name := Some (condition_name r);
     Diagnosis.confidence := Some (confidence r);
     Diagnosis.severity := Some (severity r);
     Diagnosis.arch_measurements := None;
     Diagnosis.zone_alignment := None;
     Diagnosis.rearfoot_angle := None |}.

End Pronation.

(** ** The deformity model ([foot_models/deformity_model.py]) *)

Module Deformity.
Import Py Runtime.

(** The dict returned by [analyze], without its ["description"], a text
    looked up from the condition code. *)
Record result := {
  condition : string;
  condition_name : string;
  confidence : Q;
  severity : string;
  features : gmap string Q
}.

Definition names : list (string * string) :=
  [ ("no_deformity", "No Structural Deformities");
    ("bunion", "Bunion (Hallux Valgus)");
    ("hammer_toe", "Hammer Toe");
    ("claw_toe", "Claw Toe");
    ("mallet_toe", "Mallet Toe") ].

(** [_get_condition_name(condition)]. *)
Definition _get_condition_name (condition : string) : string :=
  dict_get names condition "Unknown Condition".

(** [detected_features.get(k, 0)]. *)
Definition get (detected_features : gmap string Q) (k : string) : Q :=
  default 0%Q (detected_features !! k).

(** Lines 68-73: the scores, in the order of the dict. *)
Definition feature_scores (f : gmap string Q) : list (string * Q) :=
  [ ("bunion", (get f "hallux_valgus_angle" + get f "first_metatarsal_angle")%Q);
    ("hammer_toe", (get f "pip_flexion" + get f "dip_flexion" / 2)%Q);
    ("claw_toe", (get f "mtp_extension" + get f "pip_flexion" + get f "dip_flexion")%Q);
    ("mallet_toe", (get f "dip_flexion" * 2)%Q) ].

(** Lines 79-82: one iteration of the loop; the state is
    [(max_score, condition)]. *)
Definition highest (st : Q * string) (item : string * Q) : Q * string :=
  if gt item.2 st.1 && gt item.2 5%Q then (item.2, item.1) else st.

(** Lines 66-108 of [analyze(images, measurements)], from the features that
    [_detect_deformity_features(images)] returned. *)
Definition analyze (rt : runtime) (detected_features : gmap string Q) : result :=
  let '(max_score, condition) :=
    fold_left highest (feature_scores detected_features) (0%Q, "no_deformity") in
  let '(confidence, severity) :=
    if bool_decide (condition = "no_deformity") then
      (round rt (uniform rt 0.8%Q 0.95%Q) 2, "none")
    else
      (min (max (round rt (0.5 + max_score / 20)%Q 2) 0.6%Q) 0.95%Q,
       if gt max_score 15%Q then "severe"
       else if gt max_score 10%Q then "moderate"
       else "mild") in
  {| condition := condition;
     condition_name := _get_condition_name condition;
     confidence := confidence;
     severity := severity;
     features := detected_features |}.

(** The result as the aggregator reads it. *)
Definition as_model_result (r : result) : Diagnosis.model_result :=
  {| Diagnosis.condition := Some (condition r);
     Diagnosis.condition_name := Some (condition_name r);
     Diagnosis.confidence := Some (confidence r);
     Diagnosis.severity := Some (severity r);
     Diagnosis.arch_measurements := None;
     Diagnosis.zone_alignment := None;
     Diagnosis.rearfoot_angle := None |}.

End Deformity.

(** ** The winner of the vote, over the floats ([foot_models/arch_model.py]) *)

Module Vote.
Import Py.

(** One entry of [classification_results]: the keys that the vote reads. *)
Record method_result (float : Type) := {
  classification : option string;
  confidence : option float
}.
Arguments classification {float} _.
Arguments confidence {float} _.

Section floats.

(** The floats with what the vote uses of them: the literals [0.0] and
    [0.7], [+], [*] and [>]. *)
Context {float : Type} (zero default_confidence : float)
  (add mul : float → float → float) (above : float → float → bool).

Definition initial_votes : list (string * float) :=
  [("flat_feet", zero); ("normal_arch", zero); ("high_arch", zero)].

(** Lines 1393-1401: one iteration of the vote-collecting loop. *)
Definition collect_vote (weights : list (string * float))
    (votes : list (string * float)) (item : string * method_result float)
    : list (string * float) :=
  match dict_lookup weights item.1 with
  | None => votes
  | Some weight =>
      let confidence := default default_confidence (confidence item.2) in
      match classification item.2 with
      | None => votes
      | Some c =>
          if bool_decide (is_Some (dict_lookup votes c))
          then dict_update votes c zero (λ v, add v (mul weight confidence))
          else votes
      end
  end.

(** Lines 1387-1404 of [_determine_overall_arch_type]: the votes and
    [max(votes.items(), key=lambda x: x[1])]. *)
Definition winner (classifications : list (string * method_result float))
    (weights : list (string * float)) : outcome (string * float) :=
  match fold_left (collect_vote weights) classifications initial_votes with
  | [] => Raised (Exception "max() arg is an empty sequence")
  | x :: l => Returned (max_by (λ a b, above a.2 b.2) x l)
  end.

End floats.

End Vote.

(** ** The abbreviation map ([processor/diagnosis_rules.py]) *)

Module Abbreviations.
Import Py.

Definition abbreviation_map : list (string * string) :=
  [ ("MP", "Metatarsal Pad");
    ("MPL", "Metatarsal Platform");
    ("MT Bar", "Metatarsal Bar");
    ("AS", "Arch Support");
    ("MAS", "Medial Arch Support");
    ("NAS", "Navicular Arch Support");
    ("SAW", "Supinator Anterior Wedge");
    ("PAW", "Pronator Anterior Wedge");
    ("SPW", "Supinator Posterior Wedge");
    ("PPW", "Pronator Posterior Wedge");
    ("LLD", "Leg Length Discrepancy");
    ("1MT", "First Metatarsal");
    ("5MT", "Fifth Metatarsal") ].

(** [c.isspace()] for an ASCII character. *)
Definition isspace (c : ascii) : bool :=
  let n := nat_of_ascii c in
  (9 <=? n)%nat && (n <=? 13)%nat || (28 <=? n)%nat && (n <=? 32)%nat.

Fixpoint lstrip (s : string) : string :=
  match s with
  | EmptyString => EmptyString
  | String c s' => if isspace c then lstrip s' else s
  end.

Fixpoint rstrip (s : string) : string :=
  match s with
  | EmptyString => EmptyString
  | String c s' =>
      match rstrip s' with
      | EmptyString => if isspace c then EmptyString else String c EmptyString
      | r => String c r
      end
  end.

(** [s.strip()]. *)
Definition strip (s : string) : string := rstrip (lstrip s).

(** [s.split('(')[0]]. *)
Fixpoint before_paren (s : string) : string :=
  match s with
  | EmptyString => EmptyString
  | String c s' =>
      if bool_decide (c = "("%char) then EmptyString else String c (before_paren s')
  end.

(** The argument: a list, a dict with some of the keys ["intrinsic"],
    ["extrinsic"] and ["combined_list"], or anything else. *)
Inductive recommendations_data :=
  | DataList (recs : list string)
  | DataDict (intrinsic extrinsic combined_list : option (list string))
  | DataOther.

(** Lines 465-477: the list that the loop visits; [None] where the source
    returns the empty dict at once. *)
Definition recommendations_list (data : recommendations_data)
    : option (list string) :=
  match data with
  | DataList recs => Some recs
  | DataDict intrinsic extrinsic combined_list =>
      let l := [] in
      let l := match intrinsic with Some i => (l ++ i)%list | None => l end in
      let l := match extrinsic with Some e => (l ++ e)%list | None => l end in
      Some (match combined_list with Some c => c | None => l end)
  | DataOther => None
  end.

(** One iteration of the loop of lines 479-483. *)
Definition note (result : list (string * string)) (rec : string)
    : list (string * string) :=
  let abbr := strip (before_paren rec) in
  match dict_lookup abbreviation_map abbr with
  | Some full => dict_update result abbr full (λ _, full)
  | None => result
  end.

(** [map_abbreviations(recommendations_data)]. *)
Definition map_abbreviations (data : recommendations_data)
    : list (string * string) :=
  match recommendations_list data with
  | Some recs => fold_left note recs []
  | None => []
  end.

(** The dict returned by [apply_medical_rules], which has the three keys. *)
Definition of_recommendations (r : Rules.recommendations) : recommendations_data :=
  DataDict (Some (Rules.intrinsic r)) (Some (Rules.extrinsic r))
    (Some (Rules.combined_list r)).

End Abbreviations.

(** ** The enabled models ([processor/ai_diagnosis.py]) *)

Module Registry.
Import Py.

(** [l.remove(x)] for an [x] that is in [l]: the first occurrence goes. *)
Fixpoint remove (x : string) (l : list string) : list string :=
  match l with
  | [] => []
  | y :: l' => if bool_decide (y = x) then l' else y :: remove x l'
  end.

(** [enable_model(model_id)] on [self.enabled_models]: the new list and the
    returned flag. *)
Definition enable_model (model_id : string) (enabled_models : list string)
    : list string * bool :=
  if mem model_id Diagnosis.registered && negb (mem model_id enabled_models)
  then ((enabled_models ++ [model_id])%list, true)
  else (enabled_models, false).

(** [disable_model(model_id)]. *)
Definition disable_model (model_id : string) (enabled_models : list string)
    : list string * bool :=
  if mem model_id enabled_models
  then (remove model_id enabled_models, true)
  else (enabled_models, false).

End Registry.

(** * Statements *)

(** ** Statements about the rule engine *)

Module RulesSpec.
Import Py Rules.

(** A run of [add_recommendation] over a sequence of calls, each given by
    its four arguments. *)
Definition add_each (calls : list rec_entry) (r : recommendations) : recommendations :=
  fold_left
    (λ r c, add_recommendation (name c) (category_of c) (confidence c) (primary c) r)
    calls r.

(** The bookkeeping that ties [combined_list] and [confidence_scores] to
    the two category lists. *)
Definition consistent (r : recommendations) : Prop :=
  length (combined_list r) = length (intrinsic r) + length (extrinsic r)
  ∧ (∀ x, x ∈ combined_list r → x ∈ intrinsic r ∨ x ∈ extrinsic r)
  ∧ dom (confidence_scores r) = list_to_set (combined_list r).

(** A step of the body keeps the bookkeeping. *)
Definition preserves (s : step) : Prop :=
  ∀ σ, consistent σ.1 → consistent (s σ).1.

(** Scenario C: a history of diabetes and peripheral neuropathy, no other
    key set. *)
Definition scenario_C : patient_context :=
  {| medical_history := ["diabetes"; "peripheral neuropathy"];
     previous_foot_pain := false; leg_length_discrepancy := false;
     ulcer_history := false |}.

(** The same history with a whole entry "neuropathy". *)
Definition scenario_C_exact : patient_context :=
  {| medical_history := ["diabetes"; "neuropathy"];
     previous_foot_pain := false; leg_length_discrepancy := false;
     ulcer_history := false |}.

(** All three zones neutral. *)
Definition neutral : gmap string string :=
  {[ "forefoot" := "neutral"; "midfoot" := "neutral"; "hindfoot" := "neutral" ]}.

(** A step acts on the local [flags] as [g] does, whatever the
    recommendations. *)
Definition flag_effect (s : step) (g : gmap string bool → gmap string bool) : Prop :=
  ∀ σ, (s σ).2 = g σ.2.

(** The context conditions that raise [high_risk_foot] (lines 398-415). *)
Definition high_risk (ctx : option patient_context) : bool :=
  match ctx with
  | None => false
  | Some c =>
      mem "diabetes" (history c) && mem "neuropathy" (history c)
      || mem "charcot" (history c)
      || ulcer_history c || mem "ulcer" (history c)
  end.

(** A step keeps a property of the locals. *)
Definition keeps (P : locals → Prop) (s : step) : Prop := ∀ σ, P σ → P (s σ).

(** No name is listed twice in a category or in a priority list. *)
Definition duplicate_free (r : recommendations) : Prop :=
  NoDup (intrinsic r) ∧ NoDup (extrinsic r)
  ∧ NoDup (primary_recommendations r) ∧ NoDup (secondary_recommendations r).

End RulesSpec.

(** ** Statements about the result normaliser *)

Module BaseSpec.
Import Py Base.

(** An image that passes lines 139-147: an array of two dimensions or
    more. *)
Definition well_formed (img : image) : Prop :=
  match img with
  | NdArray shape => (2 ≤ length shape)%nat
  | ImageNone | NotArray => False
  end.

(** A model whose implementation ignores its arguments. *)
Definition constant_model (result : outcome (option (gmap string value)))
    : BaseFootModel :=
  {| name := "Arch Type Analysis";
     description := "Analyzes the arch of the foot";
     get_version := "1.0.0";
     _analyze_implementation := λ _ _, result |}.

Definition sample_environment : environment :=
  {| start_time := 10%Q; end_time := 12.5%Q; timestamp := 12.5%Q;
     format_exc := "Traceback (most recent call last)" |}.

Definition one_image : option (list image) := Some [NdArray [224; 224]].

Definition sample_results : gmap string value :=
  {[ "condition" := VStr "flat_feet"; "confidence" := VNum 0.9%Q ]}.

End BaseSpec.

(** ** Statements about the weighted vote *)

Module ArchSpec.
Import Py Arch.

(** A method result with classification [c] and confidence [q]. *)
Definition vote (c : string) (q : Q) : method_result :=
  {| classification := Some c; confidence := Some q |}.

(** Scenario D: the six methods voting flat_feet four times and normal_arch
    twice, each with confidence 0.8. *)
Definition scenario_D : list (string * method_result) :=
  [ ("arch_height_index", vote "flat_feet" 0.8%Q);
    ("medial_arch_angle", vote "flat_feet" 0.8%Q);
    ("chippaux_smirak_index", vote "normal_arch" 0.8%Q);
    ("navicular_drop", vote "flat_feet" 0.8%Q);
    ("arch_rigidity", vote "normal_arch" 0.8%Q);
    ("dynamic_arch_response", vote "flat_feet" 0.8%Q) ].

(** The number of results whose classification is [c]. *)
Definition count_class (c : string) (results : list (string * method_result)) : nat :=
  length (filter (λ item : string * method_result, classification item.2 = Some c) results).

(** The number of results that have a classification. *)
Definition classified (results : list (string * method_result)) : nat :=
  length (filter (λ item : string * method_result, is_Some (classification item.2)) results).

(** Following the spec's words (section 4.1, step 5): the agreement is the
    count of results whose classification is the winner of the vote,
    divided by the count of results. *)
Definition spec_agreement_boost (results : list (string * method_result))
    (winner : string) (base_confidence : Q) : Q :=
  let agreement :=
    (inject_Z (Z.of_nat (count_class winner results))
       / inject_Z (Z.of_nat (length results)))%Q in
  min 0.95%Q
    (base_confidence
       + (if gt agreement 0.8%Q then 0.10 else if gt agreement 0.6%Q then 0.05 else 0))%Q.

(** The six methods of the weight table voting [cs] in order, all with
    confidence [q]. *)
Definition ballots (cs : list string) (q : Q) : list (string * method_result) :=
  zip_with (λ m c, (m, vote c q)) weights.*1 cs.

(** Four methods vote flat_feet with low confidence, the two heaviest vote
    normal_arch with high confidence. *)
Definition split_vote : list (string * method_result) :=
  [ ("arch_height_index", vote "normal_arch" 0.95%Q);
    ("medial_arch_angle", vote "normal_arch" 0.95%Q);
    ("chippaux_smirak_index", vote "flat_feet" 0.6%Q);
    ("navicular_drop", vote "flat_feet" 0.6%Q);
    ("arch_rigidity", vote "flat_feet" 0.6%Q);
    ("dynamic_arch_response", vote "flat_feet" 0.6%Q) ].

(** What one result adds to the vote of category [k]: weight times
    confidence when its method has a weight and its classification is [k],
    a missing confidence counting as 0.7. *)
Definition tally_step (weights : list (string * Q)) (k : string) (acc : Q)
    (item : string * method_result) : Q :=
  match dict_lookup weights item.1 with
  | Some weight =>
      if bool_decide (classification item.2 = Some k)
      then (acc + weight * default 0.7%Q (confidence item.2))%Q
      else acc
  | None => acc
  end.

(** A result that the vote does not count: its method has no weight, or it
    has no classification, or one that is not a category of the vote. *)
Definition uncounted (weights : list (string * Q)) (item : string * method_result)
    : Prop :=
  dict_lookup weights item.1 = None
  ∨ ∀ c, classification item.2 = Some c → c ∉ initial_votes.*1.

End ArchSpec.

(** ** Statements about the aggregator *)

Module DiagnosisSpec.
Import Py Diagnosis.


(** Every registered model returned the error record. *)
Definition all_errors : list (string * outcome model_result) :=
  map (λ model_id, (model_id, Returned empty_result)) registered.

(** A run in error: [analyze] raised, so that the loop stores the record of
    lines 140-149, or it returned the error record of
    [BaseFootModel.analyze], which has none of the keys that the aggregator
    reads. *)
Definition errored (run : outcome model_result) : Prop :=
  match run with
  | Raised _ => True
  | Returned r => r = empty_result
  end.

(** What the loop stores for a run in error. *)
Definition error_stored (r : model_result) : Prop :=
  r = empty_result ∨ r = analysis_error.

(** The run of a model that the loop keeps: the last one. *)
Definition last_run (runs : list (string * outcome model_result))
    (model_id : string) : option (outcome model_result) :=
  dict_lookup (reverse runs) model_id.

(** The diagnosis and confidence read from the arch result when every model
    is in error. *)
Definition degenerate_summary (runs : list (string * outcome model_result))
    : string * Q :=
  match last_run runs "arch_type" with
  | Some (Raised _) => ("Analysis Error", 0.0%Q)
  | _ => ("Normal Foot Structure", 0.9%Q)
  end.

(** [analyze] of every registered model raised. *)
Definition all_raised : list (string * outcome model_result) :=
  map (λ model_id, (model_id, Raised (Exception "analysis failed"))) registered.



(** [arch_result["arch_measurements"]["arch_height_index"]], when both
    keys are present. *)
Definition arch_height_index (arch_result : model_result) : option Q :=
  arch_measurements arch_result ≫= (.!! "arch_height_index").

(** The conditions of the second and third branch of
    [_determine_arch_degree]. *)
Definition is_flat (code : string) : bool :=
  negb (contains "normal" (lower code))
  && (contains "flat" (lower code) || contains "pes planus" (lower code)).

Definition is_high (code : string) : bool :=
  negb (contains "normal" (lower code))
  && negb (contains "flat" (lower code) || contains "pes planus" (lower code))
  && (contains "high" (lower code) || contains "pes cavus" (lower code)).

(** A severe flat arch whose result has no measurements. *)
Definition flat_feet_severe_unmeasured : model_result :=
  {| condition := Some "flat_feet"; condition_name := Some "Flat Feet (Pes Planus)";
     confidence := Some 0.8%Q; severity := Some "severe";
     arch_measurements := None; zone_alignment := None; rearfoot_angle := None |}.

(** Lines 130-134: a result that may become the primary diagnosis, and
    the confidence it competes with. *)
Definition eligible (r : model_result) : bool :=
  negb (contains "normal" (lower (default "" (condition_name r))))
  && negb (bool_decide (default "none" (severity r) = "none")).

Definition score (r : model_result) : Q := default 0%Q (confidence r).

(** What the loop stores for a run: the result, or the error record of
    lines 140-149. *)
Definition stored (run : outcome model_result) : model_result :=
  match run with Returned r => r | Raised _ => analysis_error end.

(** Two arch results with the same condition code and measured indices. *)
Definition measured_arch (code : string) (ahi : Q) : model_result :=
  {| condition := Some code; condition_name := None; confidence := None;
     severity := None;
     arch_measurements := Some {[ "arch_height_index" := ahi ]};
     zone_alignment := None; rearfoot_angle := None |}.

(** A gait result with a rearfoot angle. *)
Definition gait_angle (angle : Q) : model_result :=
  {| condition := None; condition_name := None; confidence := None;
     severity := None; arch_measurements := None; zone_alignment := None;
     rearfoot_angle := Some angle |}.

End DiagnosisSpec.

(** ** Statements about the winner of the vote *)

Module VoteSpec.
Import Py Vote.

Section floats.
Context {float : Type} (zero default_confidence : float)
  (add mul : float → float → float).

(** The vote of category [k] as the loop accumulates it: from [0.0], in the
    order of the results, the sum of weight times confidence over the
    results whose method has a weight and whose classification is [k]. *)
Definition tally_step (weights : list (string * float)) (k : string)
    (acc : float) (item : string * method_result float) : float :=
  match dict_lookup weights item.1 with
  | Some weight =>
      if bool_decide (classification item.2 = Some k)
      then add acc (mul weight (default default_confidence (confidence item.2)))
      else acc
  | None => acc
  end.

Definition tally (weights : list (string * float))
    (results : list (string * method_result float)) (k : string) : float :=
  fold_left (tally_step weights k) results zero.

End floats.

(** A result of the rational embedding as a result over [Q]. *)
Definition of_arch (item : string * Arch.method_result)
    : string * method_result Q :=
  (item.1, {| classification := Arch.classification item.2;
              confidence := Arch.confidence item.2 |}).

End VoteSpec.

(** ** Statements about the measurements and the models *)

Module ModelsSpec.
Import Py Runtime.

(** A runtime whose draws are the lower bounds and whose [round] keeps its
    argument. *)
Definition lowest : runtime := {| uniform := λ a _, a; round := λ x _, x |}.

(** A model result with the four keys that the pathology collection and the
    primary diagnosis read. *)
Definition finding (code name : string) (conf : Q) (sev : string)
    : Diagnosis.model_result :=
  {| Diagnosis.condition := Some code; Diagnosis.condition_name := Some name;
     Diagnosis.confidence := Some conf; Diagnosis.severity := Some sev;
     Diagnosis.arch_measurements := None; Diagnosis.zone_alignment := None;
     Diagnosis.rearfoot_angle := None |}.

(** Detected features: a flexed middle joint alone, and three joints bent
    alike. *)
Definition flexed_pip : gmap string Q := {[ "pip_flexion" := 6%Q ]}.

Definition clawed : gmap string Q :=
  {[ "mtp_extension" := 12%Q; "pip_flexion" := 12%Q; "dip_flexion" := 12%Q ]}.

End ModelsSpec.

(** * Properties *)

(** ** The rule engine *)

Module RulesFacts.
Import Py Rules RulesSpec.

Lemma mem_true x l : mem x l = true ↔ x ∈ l.
Proof. unfold mem. apply bool_decide_eq_true. Qed.

Lemma mem_false x l : mem x l = false ↔ x ∉ l.
Proof. unfold mem. apply bool_decide_eq_false. Qed.

Lemma consistent_init : consistent init_recommendations.
Proof. repeat split; simpl; try done; set_solver. Qed.

Lemma add_recommendation_consistent n c q p r :
  consistent r → consistent (add_recommendation n c q p r).
Proof.
  intros (Hlen & Hsub & Hdom). unfold add_recommendation.
  destruct (mem n (category_list c r)); [done|].
  repeat split; simpl.
  - rewrite length_app, Hlen. destruct c; rewrite length_app; simpl; lia.
  - intros x [Hx | ->%list_elem_of_singleton]%elem_of_app.
    + destruct (Hsub x Hx); destruct c; set_solver.
    + destruct c; set_solver.
  - rewrite dom_insert_L, Hdom, list_to_set_app_L. set_solver.
Qed.

Create HintDb rules.

Lemma preserves_id : preserves id.
Proof. by intros σ. Qed.

Lemma preserves_add n c q p : preserves (add n c q p).
Proof. intros σ H. by apply add_recommendation_consistent. Qed.

Lemma preserves_set_flag k : preserves (set_flag k).
Proof. by intros σ. Qed.

Lemma preserves_when b s : preserves s → preserves (when b s).
Proof. intros Hs. destruct b; [done | apply preserves_id]. Qed.

Lemma preserves_seq s1 s2 : preserves s1 → preserves s2 → preserves (s1 >> s2).
Proof. intros H1 H2 σ H. apply H2, H1, H. Qed.

Lemma preserves_if (b : bool) s1 s2 :
  preserves s1 → preserves s2 → preserves (if b then s1 else s2).
Proof. by destruct b. Qed.

Lemma preserves_fold {A} (f : A → step) (l : list A) :
  (∀ a, preserves (f a)) → preserves (λ σ, fold_left (λ σ a, f a σ) l σ).
Proof.
  intros Hf. induction l as [|a l IH]; intros σ H; simpl; [done|].
  apply IH, Hf, H.
Qed.

Lemma preserves_add_all recs : preserves (add_all recs).
Proof.
  unfold add_all.
  apply (preserves_fold (λ rec, add (name rec) (category_of rec) (confidence rec) (primary rec))).
  intros a. apply preserves_add.
Qed.

#[local] Hint Resolve preserves_id preserves_add preserves_set_flag preserves_when
  preserves_seq preserves_if preserves_add_all : rules.

Lemma preserves_arch_rules t d ctx : preserves (arch_rules t d ctx).
Proof. unfold arch_rules. auto 20 with rules. Qed.

Lemma preserves_alignment_rules t d a : preserves (alignment_rules t d a).
Proof. unfold alignment_rules. auto 20 with rules. Qed.

Lemma preserves_pathology_rules ps : preserves (pathology_rules ps).
Proof.
  unfold pathology_rules.
  apply (preserves_fold (λ condition, add_all (dict_get pathology_map condition []))).
  auto with rules.
Qed.

Lemma preserves_context_flags ctx : preserves (context_flags ctx).
Proof. unfold context_flags. destruct ctx; auto 20 with rules. Qed.

Lemma preserves_other_condition_rules cs : preserves (other_condition_rules cs).
Proof.
  unfold other_condition_rules.
  apply (preserves_fold
           (λ item : string * bool, when item.2 (add_all (dict_get other_conditions_map item.1 [])))).
  auto with rules.
Qed.

#[local] Hint Resolve preserves_arch_rules preserves_alignment_rules
  preserves_pathology_rules preserves_context_flags
  preserves_other_condition_rules : rules.

Lemma preserves_rules_body t d a ps ctx : preserves (rules_body t d a ps ctx).
Proof. unfold rules_body. auto 20 with rules. Qed.

(** C10.  After every run of [apply_medical_rules], whatever the arch type,
    degree, alignment, pathologies and patient context: [combined_list] has
    [len(intrinsic) + len(extrinsic)] entries, each of its entries occurs in
    [intrinsic] or in [extrinsic], and the keys of [confidence_scores] are
    exactly the names in [combined_list]. *)
Theorem apply_medical_rules_consistent (arch_type : string) (arch_degree : Z)
    (alignment : gmap string string) (detected_pathologies : list string)
    (ctx : option patient_context) :
  let r := apply_medical_rules arch_type arch_degree alignment detected_pathologies ctx in
  length (combined_list r) = length (intrinsic r) + length (extrinsic r)
  ∧ (∀ x, x ∈ combined_list r → x ∈ intrinsic r ∨ x ∈ extrinsic r)
  ∧ dom (confidence_scores r) = list_to_set (combined_list r).
Proof.
  simpl. unfold apply_medical_rules.
  pose proof (preserves_rules_body arch_type arch_degree alignment
                detected_pathologies ctx (init_recommendations, ∅) consistent_init) as H.
  exact H.
Qed.

(** *** First write and later writes of a confidence score *)

Lemma add_recommendation_noop n c q p r :
  n ∈ category_list c r → add_recommendation n c q p r = r.
Proof. intros H. unfold add_recommendation. by rewrite (proj2 (mem_true _ _) H). Qed.

Lemma add_recommendation_score n c q p r :
  n ∉ category_list c r →
  confidence_scores (add_recommendation n c q p r) !! n = Some q.
Proof.
  intros H. unfold add_recommendation. rewrite (proj2 (mem_false _ _) H). simpl.
  apply lookup_insert_eq.
Qed.

Lemma add_recommendation_score_ne n c q p r x :
  x ≠ n →
  confidence_scores (add_recommendation n c q p r) !! x = confidence_scores r !! x.
Proof.
  intros H. unfold add_recommendation.
  destruct (mem n (category_list c r)); [done|]. simpl.
  by apply lookup_insert_ne.
Qed.

Lemma add_recommendation_member n c q p r x c' :
  x ∈ category_list c' (add_recommendation n c q p r)
  ↔ x ∈ category_list c' r ∨ (x = n ∧ c' = c).
Proof.
  unfold add_recommendation.
  destruct (mem n (category_list c r)) eqn:E.
  - apply mem_true in E. naive_solver.
  - destruct c, c'; simpl; rewrite ?elem_of_app, ?list_elem_of_singleton; naive_solver.
Qed.

Lemma add_each_app l1 l2 r : add_each (l1 ++ l2) r = add_each l2 (add_each l1 r).
Proof. apply fold_left_app. Qed.

Lemma add_each_member l r x c' :
  x ∈ category_list c' (add_each l r)
  ↔ x ∈ category_list c' r ∨ ∃ e, e ∈ l ∧ name e = x ∧ category_of e = c'.
Proof.
  revert r. induction l as [|d l IH]; intros r; simpl.
  - split; [by left|]. intros [H | (e & He & _)]; [done | by apply elem_of_nil in He].
  - rewrite IH, add_recommendation_member. split.
    + intros [[H | [-> ->]] | (e & He & Hn & Hc)].
      * by left.
      * right. exists d. split; [left | done].
      * right. exists e. split; [by right | done].
    + intros [H | (e & He & Hn & Hc)]; [by left; left|].
      apply elem_of_cons in He as [-> | He].
      * left. right. done.
      * right. by exists e.
Qed.

(** Once the score of [n] is set, calls that find [n] in their category
    list leave it alone. *)
Lemma add_each_stable post : ∀ r n q,
  confidence_scores r !! n = Some q →
  (∀ d, d ∈ post → name d = n → n ∈ category_list (category_of d) r) →
  confidence_scores (add_each post r) !! n = Some q.
Proof.
  induction post as [|d post IH]; intros r n q Hq Hin; simpl; [done|].
  apply IH.
  - destruct (decide (name d = n)) as [<- | Hne].
    + rewrite add_recommendation_noop; [done|]. apply Hin; [left | done].
    + rewrite add_recommendation_score_ne; [done | congruence].
  - intros e He Hn. apply add_recommendation_member. left.
    apply Hin; [by right | done].
Qed.

(** C4, as the code has it.  In every sequence of [add] calls, let [c] be a
    call that inserts its name (no earlier call has the same name and
    category) and after which no call inserts that name again (each later
    call for the name uses the category of [c] or one already used for the
    name before [c]): the score recorded for the name at the end is the
    confidence argument of [c].  Later calls under the same category never
    change the score; only the first call under the other category does. *)
Theorem add_last_insertion_wins (pre post : list rec_entry) (c : rec_entry) :
  (∀ d, d ∈ pre → name d = name c → category_of d ≠ category_of c) →
  (∀ d, d ∈ post → name d = name c →
     category_of d = category_of c
     ∨ ∃ e, e ∈ pre ∧ name e = name c ∧ category_of e = category_of d) →
  confidence_scores (add_each (pre ++ c :: post) init_recommendations) !! name c
  = Some (confidence c).
Proof.
  intros Hpre Hpost. rewrite add_each_app. simpl.
  set (r1 := add_each pre init_recommendations).
  assert (Hfresh : name c ∉ category_list (category_of c) r1).
  { unfold r1. rewrite add_each_member.
    intros [H | (e & He & Hn & Hc)].
    - destruct (category_of c); simpl in H; by apply elem_of_nil in H.
    - by apply (Hpre e He Hn). }
  apply add_each_stable.
  - by apply add_recommendation_score.
  - intros d Hd Hn. apply add_recommendation_member.
    destruct (Hpost d Hd Hn) as [Hc | (e & He & Hne & Hce)].
    + right. by rewrite Hc.
    + left. unfold r1. apply add_each_member. right. by exists e.
Qed.

(** The first-write-wins example: [add("X","intrinsic",0.9,primary)] then
    [add("X","intrinsic",0.5,secondary)] keeps the score 0.9 and lists "X"
    under primary only. *)
Lemma add_last_insertion_wins_example :
  let r := add_each [Rec "X" Intrinsic 0.9%Q true; Rec "X" Intrinsic 0.5%Q false]
             init_recommendations in
  confidence_scores r !! "X" = Some 0.9%Q
  ∧ primary_recommendations r = ["X"]
  ∧ secondary_recommendations r = [].
Proof.
  split; [| by vm_compute].
  apply (add_last_insertion_wins [] [Rec "X" Intrinsic 0.5%Q false]
           (Rec "X" Intrinsic 0.9%Q true)).
  - intros d Hd. by apply elem_of_nil in Hd.
  - intros d Hd _. apply list_elem_of_singleton in Hd as ->. by left.
Defined.

(** C4 as stated fails: a later [add] of the same name under the other
    category overwrites the score of the first call. *)
Lemma add_other_category_overwrites :
  ∃ q, confidence_scores
         (add_each [Rec "X" Intrinsic 0.9%Q true; Rec "X" Extrinsic 0.5%Q false]
            init_recommendations) !! "X" = Some q
       ∧ ¬ (q == 0.9)%Q.
Proof. exists 0.5%Q. split; [by vm_compute | by intros H; vm_compute in H]. Qed.

(** *** Scenario C *)

(** C5, evaluated.  With [medical_history = ["diabetes", "peripheral
    neuropathy"]] the test ["neuropathy" in history] compares whole entries,
    so "Diabetes with Neuropathy" stays [False]: no flag is raised and no
    add-on is recommended. *)
Theorem scenario_C_not_detected :
  let r := apply_medical_rules "Normal Arch" 1 neutral [] (Some scenario_C) in
  (flags r !! "high_risk_foot" = None)
  ∧ ("Total Contact Orthotic" ∉ intrinsic r)
  ∧ (intrinsic r = []).
Proof.
  assert (E : apply_medical_rules "Normal Arch" 1 neutral [] (Some scenario_C)
              = init_recommendations) by (by vm_compute).
  cbv zeta. rewrite E. split; [done|]. split; [apply not_elem_of_nil | done].
Qed.

(** The rule does fire when "neuropathy" is an entry of its own. *)
Lemma scenario_C_exact_detected :
  let r := apply_medical_rules "Normal Arch" 1 neutral [] (Some scenario_C_exact) in
  (flags r !! "high_risk_foot" = Some true)
  ∧ ("Total Contact Orthotic" ∈ intrinsic r).
Proof.
  cbv zeta. split; [by vm_compute|].
  assert (intrinsic (apply_medical_rules "Normal Arch" 1 neutral [] (Some scenario_C_exact))
          = ["Total Contact Orthotic"; "Soft Cushioning"; "Pressure Redistribution"])
    as -> by (by vm_compute).
  left.
Qed.

(** *** The flags *)

Lemma flag_effect_id : flag_effect id id.
Proof. done. Qed.

Lemma flag_effect_add n c q p : flag_effect (add n c q p) id.
Proof. done. Qed.

Lemma flag_effect_set_flag k : flag_effect (set_flag k) (insert k true).
Proof. done. Qed.

Lemma flag_effect_seq s1 s2 g1 g2 :
  flag_effect s1 g1 → flag_effect s2 g2 → flag_effect (s1 >> s2) (g2 ∘ g1).
Proof. intros H1 H2 σ. unfold seq. simpl. by rewrite H2, H1. Qed.

Lemma flag_effect_when (b : bool) s g :
  flag_effect s g → flag_effect (when b s) (if b then g else id).
Proof. by destruct b. Qed.

Lemma flag_effect_fold {A} (f : A → step) (l : list A) :
  (∀ a, flag_effect (f a) id) → flag_effect (λ σ, fold_left (λ σ a, f a σ) l σ) id.
Proof.
  intros Hf. induction l as [|a l IH]; intros σ; simpl; [done|].
  by rewrite IH, Hf.
Qed.

Lemma flag_effect_add_all recs : flag_effect (add_all recs) id.
Proof.
  apply (flag_effect_fold
           (λ rec, add (name rec) (category_of rec) (confidence rec) (primary rec))).
  intros a. apply flag_effect_add.
Qed.

Lemma flag_effect_pathology_rules ps : flag_effect (pathology_rules ps) id.
Proof.
  apply (flag_effect_fold (λ condition, add_all (dict_get pathology_map condition []))).
  intros a. apply flag_effect_add_all.
Qed.

Lemma flag_effect_other_condition_rules cs : flag_effect (other_condition_rules cs) id.
Proof.
  apply (flag_effect_fold
           (λ item : string * bool,
              when item.2 (add_all (dict_get other_conditions_map item.1 [])))).
  intros [k []]; simpl; [apply flag_effect_add_all | done].
Qed.

Lemma flag_effect_alignment_rules t d a : flag_effect (alignment_rules t d a) id.
Proof.
  intros σ. unfold alignment_rules, seq, when, add.
  repeat case_match; done.
Qed.

Lemma flag_effect_arch_rules t d ctx :
  flag_effect (arch_rules t d ctx)
    (if bool_decide (t = "Flat Arch") && (d =? 4)%Z then insert "severe_pes_planus" true
     else if bool_decide (t = "High Arch") && (d =? 4)%Z then insert "severe_pes_cavus" true
     else id).
Proof.
  intros σ. unfold arch_rules, seq, when, add, set_flag.
  repeat case_bool_decide; simplify_eq; simpl;
    repeat (match goal with
            | |- context [(?x =? ?y)%Z] => destruct (Z.eqb_spec x y)
            | |- context [(?x <=? ?y)%Z] => destruct (Z.leb_spec x y)
            | |- context [match ?c with Some _ => _ | None => _ end] => destruct c
            | |- context [if ?b then _ else _] => destruct b
            end; simpl; try lia);
    try done.
Qed.

Lemma flag_effect_context_flags ctx :
  flag_effect (context_flags ctx)
    (if high_risk ctx then insert "high_risk_foot" true else id).
Proof.
  intros [r f]. unfold context_flags, high_risk, seq, when, set_flag.
  destruct ctx as [c|]; [|done]. simpl.
  destruct (mem "diabetes" (history c) && mem "neuropathy" (history c));
    destruct (mem "charcot" (history c)); destruct (ulcer_history c);
    destruct (mem "ulcer" (history c)); simpl; by rewrite ?insert_insert_eq.
Qed.

Lemma rules_body_flags t d a ps ctx σ :
  (rules_body t d a ps ctx σ).2
  = (if high_risk ctx then insert "high_risk_foot" true else id)
      ((if bool_decide (t = "Flat Arch") && (d =? 4)%Z
        then insert "severe_pes_planus" true
        else if bool_decide (t = "High Arch") && (d =? 4)%Z
        then insert "severe_pes_cavus" true
        else id) σ.2).
Proof.
  unfold rules_body.
  rewrite (flag_effect_seq _ _ _ _ (flag_effect_arch_rules t d ctx)
             (flag_effect_seq _ _ _ _ (flag_effect_alignment_rules t d a)
                (flag_effect_seq _ _ _ _ (flag_effect_pathology_rules ps)
                   (flag_effect_seq _ _ _ _ (flag_effect_context_flags ctx)
                      (flag_effect_other_condition_rules _))))).
  done.
Qed.

(** For every input, the flags of the result are exactly these:
    [severe_pes_planus] for a flat arch of degree 4, [severe_pes_cavus] for
    a high arch of degree 4, and [high_risk_foot] for a context with
    diabetes and neuropathy, Charcot foot or an ulcer; each is [True]. *)
Theorem flags_characterised (arch_type : string) (arch_degree : Z)
    (alignment : gmap string string) (detected_pathologies : list string)
    (ctx : option patient_context) (k : string) :
  flags (apply_medical_rules arch_type arch_degree alignment detected_pathologies ctx) !! k
  = if bool_decide (k = "severe_pes_planus") then
      (if bool_decide (arch_type = "Flat Arch") && (arch_degree =? 4)%Z
       then Some true else None)
    else if bool_decide (k = "severe_pes_cavus") then
      (if bool_decide (arch_type = "High Arch") && (arch_degree =? 4)%Z
       then Some true else None)
    else if bool_decide (k = "high_risk_foot") then
      (if high_risk ctx then Some true else None)
    else None.
Proof.
  unfold apply_medical_rules, store_flags. simpl. rewrite rules_body_flags. simpl.
  destruct (high_risk ctx); repeat case_bool_decide; simplify_eq; simpl;
    repeat (case_match; simplify_eq; simpl; try done);
    simplify_map_eq; done.
Qed.

(** *** A context that triggers nothing *)

Lemma silent_context_body t d a ps c σ :
  previous_foot_pain c = false → leg_length_discrepancy c = false →
  ulcer_history c = false →
  mem "neuropathy" (history c) = false → mem "amputation" (history c) = false →
  mem "charcot" (history c) = false → mem "ulcer" (history c) = false →
  rules_body t d a ps (Some c) σ = rules_body t d a ps None σ.
Proof.
  intros Hp Hl Hu Hn Ha Hc Hul.
  unfold rules_body, seq, arch_rules, context_flags, other_conditions, when.
  rewrite Hp, Hl, Hu, Hn, Ha, Hc, Hul, !andb_false_r. simpl. done.
Qed.

(** *** Properties kept by every step of the body *)

Section invariant.
Context (P : locals → Prop).
Hypothesis P_add : ∀ n c q p, keeps P (add n c q p).
Hypothesis P_set_flag : ∀ k, keeps P (set_flag k).

Lemma keeps_id : keeps P id.
Proof. by intros σ. Qed.

Lemma keeps_when b s : keeps P s → keeps P (when b s).
Proof. intros Hs. destruct b; [done | apply keeps_id]. Qed.

Lemma keeps_seq s1 s2 : keeps P s1 → keeps P s2 → keeps P (s1 >> s2).
Proof. intros H1 H2 σ H. apply H2, H1, H. Qed.

Lemma keeps_if (b : bool) s1 s2 :
  keeps P s1 → keeps P s2 → keeps P (if b then s1 else s2).
Proof. by destruct b. Qed.

Lemma keeps_fold {A} (f : A → step) (l : list A) :
  (∀ a, keeps P (f a)) → keeps P (λ σ, fold_left (λ σ a, f a σ) l σ).
Proof.
  intros Hf. induction l as [|a l IH]; intros σ H; simpl; [done|].
  apply IH, Hf, H.
Qed.

Lemma keeps_add_all recs : keeps P (add_all recs).
Proof.
  unfold add_all.
  apply (keeps_fold (λ rec, add (name rec) (category_of rec) (confidence rec) (primary rec))).
  intros a. apply P_add.
Qed.

Create HintDb kept.
#[local] Hint Resolve P_add P_set_flag keeps_id keeps_when keeps_seq keeps_if
  keeps_add_all : kept.

Lemma keeps_arch_rules t d ctx : keeps P (arch_rules t d ctx).
Proof. unfold arch_rules. auto 20 with kept. Qed.

Lemma keeps_alignment_rules t d a : keeps P (alignment_rules t d a).
Proof. unfold alignment_rules. auto 20 with kept. Qed.

Lemma keeps_pathology_rules ps : keeps P (pathology_rules ps).
Proof.
  unfold pathology_rules.
  apply (keeps_fold (λ condition, add_all (dict_get pathology_map condition []))).
  auto with kept.
Qed.

Lemma keeps_context_flags ctx : keeps P (context_flags ctx).
Proof. unfold context_flags. destruct ctx; auto 20 with kept. Qed.

Lemma keeps_other_condition_rules cs : keeps P (other_condition_rules cs).
Proof.
  unfold other_condition_rules.
  apply (keeps_fold
           (λ item : string * bool,
              when item.2 (add_all (dict_get other_conditions_map item.1 [])))).
  auto with kept.
Qed.

Lemma keeps_rules_body t d a ps ctx : keeps P (rules_body t d a ps ctx).
Proof.
  unfold rules_body.
  apply keeps_seq; [apply keeps_arch_rules|].
  apply keeps_seq; [apply keeps_alignment_rules|].
  apply keeps_seq; [apply keeps_pathology_rules|].
  apply keeps_seq; [apply keeps_context_flags|].
  apply keeps_other_condition_rules.
Qed.

End invariant.

(** *** No duplicates *)

Lemma append_new_NoDup x l : NoDup l → NoDup (append_new x l).
Proof.
  intros H. unfold append_new. destruct (mem x l) eqn:E; [done|].
  apply mem_false in E. apply NoDup_app. repeat split; [done| |apply NoDup_singleton].
  intros y Hy ->%list_elem_of_singleton. done.
Qed.

Lemma add_duplicate_free n c q p : keeps (λ σ, duplicate_free σ.1) (add n c q p).
Proof.
  intros [r fl] (Hi & He & Hp & Hs). unfold add, add_recommendation. simpl.
  destruct (mem n (category_list c r)) eqn:E; [done|].
  apply mem_false in E.
  assert (Hnew : ∀ l, NoDup l → n ∉ l → NoDup (l ++ [n])).
  { intros l Hl Hn. apply NoDup_app. repeat split; [done| |apply NoDup_singleton].
    intros y Hy ->%list_elem_of_singleton. done. }
  repeat split; simpl.
  - destruct c; [by apply Hnew | done].
  - destruct c; [done | by apply Hnew].
  - destruct p; [by apply append_new_NoDup | done].
  - destruct p; [done | by apply append_new_NoDup].
Qed.

(** Whatever the inputs, no add-on is listed twice under intrinsic, under
    extrinsic, under the primary or under the secondary recommendations. *)
Theorem apply_medical_rules_duplicate_free (arch_type : string) (arch_degree : Z)
    (alignment : gmap string string) (detected_pathologies : list string)
    (ctx : option patient_context) :
  duplicate_free
    (apply_medical_rules arch_type arch_degree alignment detected_pathologies ctx).
Proof.
  unfold apply_medical_rules.
  pose proof (keeps_rules_body (λ σ, duplicate_free σ.1) add_duplicate_free
                (λ k σ H, H) arch_type arch_degree alignment detected_pathologies ctx
                (init_recommendations, ∅)) as H.
  apply H. repeat split; apply NoDup_nil_2.
Qed.

(** *** Every listed add-on is in the combined list *)

Lemma add_listed_in_combined n c q p :
  keeps (λ σ, ∀ x cx, x ∈ category_list cx σ.1 → x ∈ combined_list σ.1)
        (add n c q p).
Proof.
  intros σ H x cx. unfold add, add_recommendation. simpl.
  destruct (mem n (category_list c σ.1)); [apply H|].
  pose proof (H x Intrinsic) as Hi. pose proof (H x Extrinsic) as He.
  simpl in Hi, He. clear H.
  destruct cx, c; simpl; rewrite ?elem_of_app; tauto.
Qed.

Lemma listed_in_combined_list t d a ps ctx x c :
  x ∈ category_list c (apply_medical_rules t d a ps ctx) →
  x ∈ combined_list (apply_medical_rules t d a ps ctx).
Proof.
  unfold apply_medical_rules.
  pose proof (keeps_rules_body
                (λ σ, ∀ x cx, x ∈ category_list cx σ.1 → x ∈ combined_list σ.1)
                add_listed_in_combined (λ k σ H, H) t d a ps ctx
                (init_recommendations, ∅)) as H.
  intros Hx. apply (H ltac:(intros ? []; simpl; set_solver) x c).
  by destruct c.
Qed.

(** *** What a detected pathology adds *)

Lemma add_listed n c q p σ : n ∈ category_list c (add n c q p σ).1.
Proof.
  unfold add, add_recommendation. simpl.
  destruct (mem n (category_list c σ.1)) eqn:E; [by apply mem_true in E|].
  destruct c; simpl; set_solver.
Qed.

Lemma add_keeps_listed x cx n c q p :
  keeps (λ σ, x ∈ category_list cx σ.1) (add n c q p).
Proof.
  intros σ H. unfold add, add_recommendation. simpl.
  destruct (mem n (category_list c σ.1)); [done|].
  destruct cx, c; simpl in *; set_solver.
Qed.

Lemma add_all_listed recs rec σ :
  rec ∈ recs → name rec ∈ category_list (category_of rec) (add_all recs σ).1.
Proof.
  intros (pre & post & ->)%list_elem_of_split. unfold add_all.
  rewrite fold_left_app. cbn [fold_left].
  apply (keeps_add_all (λ σ, name rec ∈ category_list (category_of rec) σ.1)
           (add_keeps_listed _ _) post).
  apply add_listed.
Qed.

Lemma pathology_adds arch_type arch_degree alignment detected_pathologies ctx
    pathology rec :
  pathology ∈ detected_pathologies →
  rec ∈ dict_get pathology_map pathology [] →
  name rec ∈ category_list (category_of rec)
    (apply_medical_rules arch_type arch_degree alignment detected_pathologies ctx).
Proof.
  intros (pre & post & ->)%list_elem_of_split Hrec.
  set (P := λ σ : locals, name rec ∈ category_list (category_of rec) σ.1).
  assert (HP : ∀ n c q p, keeps P (add n c q p)) by (intros; apply add_keeps_listed).
  assert (HF : ∀ k, keeps P (set_flag k)) by (by intros k σ H).
  assert (G : ∀ σ, P (rules_body arch_type arch_degree alignment
                        (pre ++ pathology :: post) ctx σ)).
  { intros σ. unfold rules_body, seq.
    apply keeps_other_condition_rules, keeps_context_flags; try done.
    unfold pathology_rules. rewrite fold_left_app. cbn [fold_left].
    apply (keeps_pathology_rules P HP post). by apply add_all_listed. }
  specialize (G (init_recommendations, ∅)). unfold P in G.
  unfold apply_medical_rules, store_flags. by destruct (category_of rec).
Qed.

(** Every add-on that the pathology table lists for a detected pathology is
    in the result, under the category that the table gives it. *)
Theorem detected_pathology_recommended (arch_type : string) (arch_degree : Z)
    (alignment : gmap string string) (detected_pathologies : list string)
    (ctx : option patient_context) (pathology : string) (rec : rec_entry) :
  pathology ∈ detected_pathologies →
  rec ∈ dict_get pathology_map pathology [] →
  name rec ∈ category_list (category_of rec)
    (apply_medical_rules arch_type arch_degree alignment detected_pathologies ctx).
Proof.
  intros (pre & post & ->)%list_elem_of_split Hrec.
  set (P := λ σ : locals, name rec ∈ category_list (category_of rec) σ.1).
  assert (HP : ∀ n c q p, keeps P (add n c q p)) by (intros; apply add_keeps_listed).
  assert (HF : ∀ k, keeps P (set_flag k)) by (by intros k σ H).
  unfold apply_medical_rules, rules_body, seq.
  assert (G : P (other_condition_rules
                   (other_conditions arch_degree (pre ++ pathology :: post) ctx)
                   (context_flags ctx
                      (pathology_rules (pre ++ pathology :: post)
                         (alignment_rules arch_type arch_degree alignment
                            (arch_rules arch_type arch_degree ctx
                               (init_recommendations, ∅))))))).
  { apply keeps_other_condition_rules, keeps_context_flags; try done.
    unfold pathology_rules. rewrite fold_left_app. cbn [fold_left].
    apply (keeps_pathology_rules P HP post). by apply add_all_listed. }
  unfold P in G. unfold store_flags. by destruct (category_of rec).
Qed.

Lemma detected_pathology_recommended_hammer_toe :
  "Toe Loop" ∈ extrinsic
    (apply_medical_rules "Flat Arch" 2 ∅ ["Plantar Fasciitis"; "Hammer Toe"] None).
Proof.
  apply (detected_pathology_recommended "Flat Arch" 2 ∅
           ["Plantar Fasciitis"; "Hammer Toe"] None "Hammer Toe"
           (Rec "Toe Loop" Extrinsic 0.75 false)).
  - set_solver.
  - vm_compute. set_solver.
Defined.

End RulesFacts.

(** ** The weighted vote *)

Module ArchFacts.
Import Py Arch ArchSpec.

(** *** Comparisons, [min] and [max] on rationals *)

Lemma gt_true a b : gt a b = true ↔ (b < a)%Q.
Proof.
  unfold gt. rewrite negb_true_iff. split.
  - intros H. apply Qnot_le_lt. intros Hle. apply Qle_bool_iff in Hle. congruence.
  - intros H. destruct (Qle_bool a b) eqn:E; [|done].
    apply Qle_bool_iff in E. apply Qle_not_lt in E. done.
Qed.

Lemma gt_false a b : gt a b = false ↔ (a <= b)%Q.
Proof. unfold gt. rewrite negb_false_iff. apply Qle_bool_iff. Qed.

Lemma lt_true a b : lt a b = true ↔ (a < b)%Q.
Proof. apply (gt_true b a). Qed.

Lemma lt_false a b : lt a b = false ↔ (b <= a)%Q.
Proof. apply (gt_false b a). Qed.

Ltac by_cases_Q :=
  repeat match goal with
    | |- context [gt ?a ?b] =>
        let E := fresh "E" in
        destruct (gt a b) eqn:E; [apply gt_true in E | apply gt_false in E]
    | |- context [lt ?a ?b] =>
        let E := fresh "E" in
        destruct (lt a b) eqn:E; [apply lt_true in E | apply lt_false in E]
    end.

Lemma min_bounds a b c : (c <= a)%Q → (c <= b)%Q → (c <= min a b <= a)%Q.
Proof. intros Ha Hb. unfold min. by_cases_Q; split; lra. Qed.

Lemma max_bounds a b c : (a <= c)%Q → (b <= c)%Q → (a <= max a b <= c)%Q.
Proof. intros Ha Hb. unfold max. by_cases_Q; split; lra. Qed.

(** [max(0.6, min(0.95, confidence))] lies in the range, whatever
    [confidence] is. *)
Lemma clamp_bounds q : (0.6 <= max 0.6 (min 0.95 q) <= 0.95)%Q.
Proof. unfold max, min. by_cases_Q; split; lra. Qed.

(** *** The vote table keeps its three keys *)

Lemma dict_update_keys {V} (d : list (string * V)) k i f :
  is_Some (dict_lookup d k) → (dict_update d k i f).*1 = d.*1.
Proof.
  induction d as [|[k' v] d IH]; simpl; intros H.
  - by destruct H.
  - case_bool_decide; simpl; [done|]. f_equal. by apply IH.
Qed.

Lemma collect_vote_keys w votes item : (collect_vote w votes item).*1 = votes.*1.
Proof.
  unfold collect_vote. destruct (dict_lookup w item.1); [|done].
  destruct (classification item.2); [|done].
  case_bool_decide; [|done]. by apply dict_update_keys.
Qed.

Lemma votes_keys w cls votes :
  (fold_left (collect_vote w) cls votes).*1 = votes.*1.
Proof.
  revert votes. induction cls as [|x cls IH]; intros votes; simpl; [done|].
  by rewrite IH, collect_vote_keys.
Qed.

Lemma votes_shape w cls :
  ∃ a b c, fold_left (collect_vote w) cls initial_votes
           = [("flat_feet", a); ("normal_arch", b); ("high_arch", c)].
Proof.
  pose proof (votes_keys w cls initial_votes) as H.
  destruct (fold_left (collect_vote w) cls initial_votes)
    as [|[k1 a] [|[k2 b] [|[k3 c] [|? ?]]]]; simplify_eq/=.
  by exists a, b, c.
Qed.

(** The vote never raises, and its confidence is clamped. *)
Lemma determine_returns cls w :
  ∃ c q, _determine_overall_arch_type cls w = Returned (c, q)
         ∧ (0.6 <= q <= 0.95)%Q.
Proof.
  unfold _determine_overall_arch_type.
  destruct (votes_shape w cls) as (a & b & c & ->).
  cbn [max_item max_by mbind outcome_bind fst snd].
  destruct (gt b a); cbn [fst snd]; [destruct (gt c b) | destruct (gt c a)];
    destruct (gt (sum w.*2) 0);
    eexists _, _; (split; [reflexivity | apply clamp_bounds]).
Qed.

Lemma boost_bounds cls base :
  (0.6 <= base <= 0.95)%Q →
  (0.6 <= _boost_confidence_with_agreement_analysis cls base <= 0.95)%Q.
Proof.
  intros [Hlo Hhi]. unfold _boost_confidence_with_agreement_analysis.
  destruct (fold_left count_method cls ([], 0%Z)) as [[|x l] total]; [done|].
  destruct (0 <? total)%Z; [|done].
  cbv zeta. unfold min. by_cases_Q; split; lra.
Qed.

(** C8.  For every non-empty collection of method results and every weight
    table, the vote returns, and its confidence lies in [0.6, 0.95] both
    after the base clamp and after the agreement boost. *)
Theorem classify_confidence_bounds
    (results : list (string * method_result)) (weights : list (string * Q)) :
  results ≠ [] →
  ∃ c q b,
    _determine_overall_arch_type results weights = Returned (c, q)
    ∧ (0.6 <= q <= 0.95)%Q
    ∧ classify results weights = Returned (c, b)
    ∧ (0.6 <= b <= 0.95)%Q.
Proof.
  intros _. destruct (determine_returns results weights) as (c & q & E & Hq).
  exists c, q, (_boost_confidence_with_agreement_analysis results q).
  split; [done|]. split; [done|]. split.
  - unfold classify. by rewrite E.
  - by apply boost_bounds.
Qed.

Lemma classify_confidence_bounds_scenario_D :
  ∃ c q b,
    _determine_overall_arch_type scenario_D weights = Returned (c, q)
    ∧ (0.6 <= q <= 0.95)%Q
    ∧ classify scenario_D weights = Returned (c, b)
    ∧ (0.6 <= b <= 0.95)%Q.
Proof. apply classify_confidence_bounds. discriminate. Defined.

(** *** An empty collection of results *)

Lemma zero_div t : (0.0 / t == 0)%Q.
Proof. unfold Qdiv. destruct (/ t)%Q. reflexivity. Qed.

Lemma clamp_zero_div t : max 0.6%Q (min 0.95%Q (0.0 / t)%Q) = 0.6%Q.
Proof.
  pose proof (zero_div t) as H. unfold max, min.
  assert (lt (0.0 / t) 0.95 = true) as -> by (apply lt_true; rewrite H; lra).
  assert (gt (0.0 / t) 0.6 = false) as -> by (apply gt_false; rewrite H; lra).
  done.
Qed.

(** C7, as the code has it.  On an empty collection of results the vote
    returns the first category, "flat_feet", with confidence 0.6 when the
    weights sum to more than zero (the vote 0 is normalised and clamped)
    and with the default 0.7 only otherwise. *)
Theorem classify_empty (weights : list (string * Q)) :
  classify [] weights
  = Returned ("flat_feet", if gt (sum weights.*2) 0 then 0.6%Q else 0.7%Q).
Proof.
  unfold classify, _determine_overall_arch_type. cbn [fold_left].
  change (max_item initial_votes) with (Returned ("flat_feet", 0.0%Q)).
  cbn [mbind outcome_bind fst snd].
  change (getitem initial_votes "flat_feet") with (Returned 0.0%Q).
  destruct (gt (sum weights.*2) 0);
    cbn [mbind outcome_bind mret outcome_ret fst snd].
  - by rewrite clamp_zero_div.
  - reflexivity.
Qed.

(** C7 as stated fails: with the weight table of the arch model the
    confidence returned for an empty collection is 0.6, not 0.7. *)
Lemma classify_empty_arch_weights :
  ∃ q, classify [] weights = Returned ("flat_feet", q) ∧ ¬ (q == 0.7)%Q.
Proof. exists 0.6%Q. split; [by vm_compute | by intros H; vm_compute in H]. Qed.

(** *** The agreement boost *)

Lemma dict_lookup_update {V} (d : list (string * V)) c i f k :
  dict_lookup (dict_update d c i f) k
  = if decide (k = c) then Some (f (default i (dict_lookup d c))) else dict_lookup d k.
Proof.
  induction d as [|[k' v] d IH]; simpl.
  - case_bool_decide; case_decide; simplify_eq; done.
  - destruct (decide (k' = c)) as [-> | Hne].
    + rewrite !bool_decide_eq_true_2 by done. simpl.
      case_bool_decide; case_decide; simplify_eq; done.
    + rewrite (bool_decide_eq_false_2 (k' = c)) by done. simpl. rewrite IH.
      case_bool_decide; case_decide; simplify_eq; done.
Qed.

Lemma dict_lookup_None {V} (d : list (string * V)) k :
  dict_lookup d k = None ↔ k ∉ d.*1.
Proof.
  induction d as [|[k' v] d IH]; simpl.
  - split; [intros _; apply not_elem_of_nil | done].
  - rewrite not_elem_of_cons. case_bool_decide; simplify_eq; naive_solver.
Qed.

Lemma dict_lookup_Some {V} (d : list (string * V)) k v :
  dict_lookup d k = Some v → (k, v) ∈ d.
Proof.
  induction d as [|[k' v'] d IH]; simpl; [done|].
  case_bool_decide; intros; simplify_eq; [left | right; auto].
Qed.

Lemma dict_lookup_elem {V} (d : list (string * V)) k v :
  NoDup d.*1 → (k, v) ∈ d → dict_lookup d k = Some v.
Proof.
  induction d as [|[k' v'] d IH]; simpl; intros Hnd Hin.
  - by apply elem_of_nil in Hin.
  - apply NoDup_cons in Hnd as [Hk Hnd].
    apply elem_of_cons in Hin as [? | Hin]; simplify_eq.
    + by rewrite bool_decide_eq_true_2.
    + rewrite bool_decide_eq_false_2; [by apply IH|].
      intros ->. apply Hk. apply list_elem_of_fmap. by exists (k, v).
Qed.

Lemma dict_update_keys_absent {V} (d : list (string * V)) k i f :
  dict_lookup d k = None → (dict_update d k i f).*1 = (d.*1 ++ [k])%list.
Proof.
  induction d as [|[k' v] d IH]; simpl; [done|].
  case_bool_decide; [done|]. intros Hnone. simpl. f_equal. by apply IH.
Qed.

Lemma dict_update_NoDup {V} (d : list (string * V)) k i f :
  NoDup d.*1 → NoDup (dict_update d k i f).*1.
Proof.
  intros Hnd. destruct (dict_lookup d k) eqn:E.
  - by rewrite dict_update_keys.
  - rewrite dict_update_keys_absent by done.
    apply NoDup_app. split; [done|]. split; [|apply NoDup_singleton].
    intros x Hx ->%list_elem_of_singleton. by apply dict_lookup_None in E.
Qed.

Lemma count_class_snoc k l x :
  count_class k (l ++ [x])
  = (count_class k l + if decide (classification x.2 = Some k) then 1 else 0)%nat.
Proof.
  unfold count_class. rewrite filter_app, length_app. f_equal.
  rewrite filter_cons, filter_nil. by case_decide.
Qed.

Lemma classified_snoc l x :
  classified (l ++ [x])
  = (classified l + if decide (is_Some (classification x.2)) then 1 else 0)%nat.
Proof.
  unfold classified. rewrite filter_app, length_app. f_equal.
  rewrite filter_cons, filter_nil. by case_decide.
Qed.

Lemma count_class_le_classified k l : (count_class k l ≤ classified l)%nat.
Proof.
  induction l as [|x l IH] using rev_ind; [done|].
  rewrite count_class_snoc, classified_snoc.
  repeat case_decide; try lia. exfalso. naive_solver.
Qed.

(** What the counting loop has computed after a sequence of results. *)
Lemma count_fold results :
  let st := fold_left count_method results ([], 0%Z) in
  NoDup st.1.*1
  ∧ st.2 = Z.of_nat (classified results)
  ∧ ∀ k, dict_lookup st.1 k
         = if decide (count_class k results = 0)%nat then None
           else Some (Z.of_nat (count_class k results)).
Proof.
  induction results as [|x l IH] using rev_ind.
  - simpl. split; [apply NoDup_nil_2 | done].
  - cbv zeta in *. rewrite fold_left_app. simpl.
    destruct (fold_left count_method l ([], 0%Z)) as [cnt total].
    destruct IH as (Hnd & Htot & Hlook). simpl in *.
    unfold count_method. simpl.
    destruct (classification x.2) as [c|] eqn:Ec; simpl.
    + split; [by apply dict_update_NoDup|]. split.
      * rewrite classified_snoc, Ec. rewrite decide_True by eauto. lia.
      * intros k. rewrite dict_lookup_update, count_class_snoc, Ec, !Hlook.
        repeat case_decide; simplify_eq; simpl; try done; try lia; f_equal; lia.
    + split; [done|]. split.
      * rewrite classified_snoc, Ec. rewrite decide_False; [lia|]. by intros [? ?].
      * intros k. rewrite count_class_snoc, Ec, Hlook.
        rewrite (decide_False (P := None = Some k)) by done.
        by rewrite Nat.add_0_r.
Qed.

Lemma max_by_elem {A} (above : A → A → bool) x l : max_by above x l ∈ x :: l.
Proof.
  revert x. induction l as [|y l IH]; intros x; simpl; [left|].
  specialize (IH (if above y x then y else x)).
  apply elem_of_cons in IH as [-> | IH].
  - destruct (above y x); [right; left | left].
  - right; by right.
Qed.

Lemma max_by_count_ge (x : string * Z) l y :
  y ∈ x :: l → (y.2 ≤ (max_by (λ a b, (b.2 <? a.2)%Z) x l).2)%Z.
Proof.
  revert x y. induction l as [|z l IH]; intros x y; simpl.
  - intros ->%list_elem_of_singleton. done.
  - intros Hy.
    assert (Hx : (x.2 ≤ (if (x.2 <? z.2)%Z then z else x).2
                  ∧ z.2 ≤ (if (x.2 <? z.2)%Z then z else x).2)%Z).
    { destruct (Z.ltb_spec x.2 z.2); simpl; lia. }
    apply elem_of_cons in Hy as [-> | Hy].
    + etrans; [apply Hx|]. apply IH. left.
    + apply elem_of_cons in Hy as [-> | Hy].
      * etrans; [apply Hx|]. apply IH. left.
      * apply IH. by right.
Qed.

Lemma boost_most_common results base c :
  (0 < count_class c results)%nat →
  (∀ c', (count_class c' results ≤ count_class c results)%nat) →
  _boost_confidence_with_agreement_analysis results base
  = let agreement :=
      (inject_Z (Z.of_nat (count_class c results))
         / inject_Z (Z.of_nat (classified results)))%Q in
    min 0.95%Q
      (base + (if gt agreement 0.8%Q then 0.1 else if gt agreement 0.6%Q then 0.05 else 0))%Q.
Proof.
  intros Hpos Hmax. unfold _boost_confidence_with_agreement_analysis.
  pose proof (count_fold results) as H. cbv zeta in H.
  destruct (fold_left count_method results ([], 0%Z)) as [cnt total].
  destruct H as (Hnd & Htot & Hlook). simpl in Hnd, Htot, Hlook.
  assert (Hc : (c, Z.of_nat (count_class c results)) ∈ cnt).
  { apply dict_lookup_Some. rewrite Hlook. rewrite decide_False; [done | lia]. }
  destruct cnt as [|x l]; [by apply elem_of_nil in Hc|].
  pose proof (max_by_elem (λ a b : string * Z, (b.2 <? a.2)%Z) x l) as Hin.
  pose proof (max_by_count_ge x l _ Hc) as Hge. simpl in Hge.
  destruct (max_by (λ a b : string * Z, (b.2 <? a.2)%Z) x l) as [k v].
  apply (dict_lookup_elem _ _ _ Hnd) in Hin. rewrite Hlook in Hin.
  case_decide; simplify_eq. specialize (Hmax k). simpl in Hge.
  assert (Z.of_nat (count_class k results) = Z.of_nat (count_class c results)) as Hv by lia.
  pose proof (count_class_le_classified c results).
  rewrite (proj2 (Z.ltb_lt 0 (Z.of_nat (classified results)))) by lia.
  cbv zeta. cbn [snd]. by rewrite Hv.
Qed.

(** Three different classifications share the classified results. *)
Lemma count_class_three a b c l :
  a ≠ b → a ≠ c → b ≠ c →
  (count_class a l + count_class b l + count_class c l ≤ classified l)%nat.
Proof.
  intros Hab Hac Hbc. induction l as [|x l IH] using rev_ind; [done|].
  rewrite !count_class_snoc, classified_snoc.
  destruct (classification x.2) as [k|]; repeat case_decide; simplify_eq; try lia.
  all: exfalso; eauto.
Qed.

(** Four of six results agree: the agreement 4/6 lies between 0.6 and 0.8. *)
Lemma boost_four_of_six results base c d :
  c ≠ d →
  count_class c results = 4%nat → count_class d results = 2%nat →
  classified results = 6%nat →
  _boost_confidence_with_agreement_analysis results base
  = min 0.95%Q (base + 0.05)%Q.
Proof.
  intros Hcd Hc Hd Hall.
  rewrite (boost_most_common results base c).
  - rewrite Hc, Hall. cbv zeta.
    change (gt (inject_Z (Z.of_nat 4) / inject_Z (Z.of_nat 6)) 0.8) with false.
    change (gt (inject_Z (Z.of_nat 4) / inject_Z (Z.of_nat 6)) 0.6) with true.
    done.
  - lia.
  - intros c'. destruct (decide (c' = c)) as [-> | H1]; [done|].
    destruct (decide (c' = d)) as [-> | H2]; [lia|].
    pose proof (count_class_three c' c d results H1 H2 Hcd). lia.
Qed.

Lemma determine_winner_flat cls w a b c :
  fold_left (collect_vote w) cls initial_votes
  = [("flat_feet", a); ("normal_arch", b); ("high_arch", c)] →
  (b <= a)%Q → (c <= a)%Q →
  ∃ conf, _determine_overall_arch_type cls w = Returned ("flat_feet", conf).
Proof.
  intros E Hb Hc. unfold _determine_overall_arch_type. rewrite E.
  cbn [max_item max_by mbind outcome_bind fst snd].
  rewrite (proj2 (gt_false b a) Hb). cbn [fst snd].
  rewrite (proj2 (gt_false c a) Hc). cbn [fst snd].
  destruct (gt (sum w.*2) 0); eexists; reflexivity.
Qed.

Lemma winner_four_of_six cs q :
  length cs = 6%nat →
  Forall (λ c, c = "flat_feet" ∨ c = "normal_arch") cs →
  count_class "flat_feet" (ballots cs q) = 4%nat →
  (0 < q)%Q →
  ∃ conf, _determine_overall_arch_type (ballots cs q) weights
          = Returned ("flat_feet", conf).
Proof.
  intros Hlen Hcs Hcount Hq.
  destruct cs as [|c1 [|c2 [|c3 [|c4 [|c5 [|c6 [|? ?]]]]]]]; try done.
  repeat match goal with
    | H : Forall _ (_ :: _) |- _ => apply Forall_cons in H as [[-> | ->] H]
    end;
    try (by vm_compute in Hcount).
  all: eapply determine_winner_flat;
     [ unfold ballots, weights, vote; cbn -[Qplus Qmult]; reflexivity
     | | ].
  all: cbn -[Qplus Qmult Qle]; lra.
Qed.

(** C2, as the code has it.  The agreement is the count of the most common
    classification [c] among the results divided by the count of results
    that have a classification; above 0.8 the confidence gains 0.1, above
    0.6 it gains 0.05, and the sum is capped at 0.95.  The winner of the
    weighted vote plays no part.  In particular, when six results vote
    flat_feet four times and normal_arch twice, 0.05 is added to the base
    confidence; and when these are the six methods of the weight table
    with one common positive confidence, the winner is "flat_feet". *)
Theorem agreement_boost_most_common
    (results : list (string * method_result)) (base : Q) :
  (∀ c, (0 < count_class c results)%nat →
        (∀ c', (count_class c' results ≤ count_class c results)%nat) →
        _boost_confidence_with_agreement_analysis results base
        = let agreement :=
            (inject_Z (Z.of_nat (count_class c results))
               / inject_Z (Z.of_nat (classified results)))%Q in
          min 0.95%Q
            (base + (if gt agreement 0.8%Q then 0.1
                     else if gt agreement 0.6%Q then 0.05 else 0))%Q)
  ∧ (count_class "flat_feet" results = 4%nat →
     count_class "normal_arch" results = 2%nat →
     classified results = 6%nat →
     _boost_confidence_with_agreement_analysis results base
     = min 0.95%Q (base + 0.05)%Q)
  ∧ (∀ cs q, results = ballots cs q →
       length cs = 6%nat →
       Forall (λ c, c = "flat_feet" ∨ c = "normal_arch") cs →
       count_class "flat_feet" results = 4%nat →
       (0 < q)%Q →
       ∃ conf, _determine_overall_arch_type results weights
               = Returned ("flat_feet", conf)).
Proof.
  split; [|split].
  - intros c. apply boost_most_common.
  - by apply boost_four_of_six.
  - intros cs q ->. apply winner_four_of_six.
Qed.

(** Scenario D on the six methods of the arch model, each with confidence
    0.8: the winner is "flat_feet" with base confidence 0.6, and the boost
    adds 0.05 to it. *)
Lemma agreement_boost_scenario_D :
  (∃ conf, _determine_overall_arch_type scenario_D weights = Returned ("flat_feet", conf))
  ∧ _boost_confidence_with_agreement_analysis scenario_D 0.6
    = min 0.95%Q (0.6 + 0.05)%Q.
Proof.
  destruct (agreement_boost_most_common scenario_D 0.6%Q) as (_ & Hboost & Hwin).
  split.
  - apply (Hwin ["flat_feet"; "flat_feet"; "normal_arch"; "flat_feet";
                 "normal_arch"; "flat_feet"] 0.8%Q);
      [reflexivity | reflexivity | | by vm_compute | reflexivity].
    repeat (apply Forall_cons_2; [first [by left | by right]|]).
    apply Forall_nil_2.
  - apply Hboost; by vm_compute.
Defined.

(** C2 as stated fails: on a 4/2 vote the winner can be "normal_arch", and
    the boost is then still the one of the four flat_feet votes (0.05),
    whereas the agreement with the winner, 2/6, earns none. *)
Lemma agreement_is_not_with_winner :
  ∃ q, _determine_overall_arch_type split_vote weights = Returned ("normal_arch", q)
       ∧ count_class "flat_feet" split_vote = 4%nat
       ∧ count_class "normal_arch" split_vote = 2%nat
       ∧ ¬ (_boost_confidence_with_agreement_analysis split_vote q
            == spec_agreement_boost split_vote "normal_arch" q)%Q.
Proof.
  exists 0.6%Q. split; [by vm_compute|]. split; [by vm_compute|].
  split; [by vm_compute|]. intros H. by vm_compute in H.
Qed.

(** *** Results that the vote does not count *)

Lemma collect_vote_tally w a b c item :
  collect_vote w [("flat_feet", a); ("normal_arch", b); ("high_arch", c)] item
  = [("flat_feet", tally_step w "flat_feet" a item);
     ("normal_arch", tally_step w "normal_arch" b item);
     ("high_arch", tally_step w "high_arch" c item)].
Proof.
  unfold collect_vote, tally_step.
  destruct (dict_lookup w item.1) as [weight|]; [|done].
  destruct (classification item.2) as [k|]; [|done].
  destruct (decide (k = "flat_feet")) as [->|Hf]; [done|].
  destruct (decide (k = "normal_arch")) as [->|Hn]; [done|].
  destruct (decide (k = "high_arch")) as [->|Hh]; [done|].
  assert (Hl : dict_lookup
                 [("flat_feet", a); ("normal_arch", b); ("high_arch", c)] k = None).
  { simpl. by rewrite !bool_decide_eq_false_2 by congruence. }
  rewrite Hl. rewrite bool_decide_eq_false_2 by (by intros [? [=]]).
  by rewrite !bool_decide_eq_false_2 by congruence.
Qed.

(** A result that is not counted can be dropped without changing the vote:
    so the classes of the dynamic-response method, which are not categories
    of the vote, never weigh in. *)
Theorem vote_ignores_uncounted (pre post : list (string * method_result))
    (item : string * method_result) (w : list (string * Q)) :
  uncounted w item →
  _determine_overall_arch_type (pre ++ item :: post)%list w
  = _determine_overall_arch_type (pre ++ post)%list w.
Proof.
  intros Hitem. unfold _determine_overall_arch_type.
  rewrite !fold_left_app. cbn [fold_left].
  destruct (votes_shape w pre) as (a & b & c & ->).
  rewrite collect_vote_tally.
  assert (E : ∀ k acc, k ∈ initial_votes.*1 → tally_step w k acc item = acc).
  { intros k acc Hk. unfold tally_step.
    destruct Hitem as [->|Hc]; [done|].
    destruct (dict_lookup w item.1); [|done].
    case_bool_decide as Hk'; [|done]. by destruct (Hc k Hk'). }
  rewrite !E by (simpl; set_solver). done.
Qed.

Lemma vote_ignores_uncounted_rigid_arch :
  _determine_overall_arch_type
    (take 5 scenario_D ++ [("dynamic_arch_response", vote "rigid_arch" 0.9%Q)])%list
    weights
  = _determine_overall_arch_type (take 5 scenario_D ++ [])%list weights.
Proof.
  apply (vote_ignores_uncounted (take 5 scenario_D) []
           ("dynamic_arch_response", vote "rigid_arch" 0.9%Q) weights).
  right. intros c [= <-]. simpl. set_solver.
Defined.

End ArchFacts.

(** ** The result normaliser *)

Module BaseFacts.
Import Py Base BaseSpec.

(** The inputs on which validation fails. *)
Lemma validate_no_images measurements :
  _validate_inputs None measurements = Raised (ValidationError "No images provided")
  ∧ _validate_inputs (Some []) measurements = Raised (ValidationError "No images provided").
Proof. done. Qed.

Lemma validate_no_measurements img images :
  _validate_inputs (Some (img :: images)) None
  = Raised (ValidationError "No measurements provided").
Proof. done. Qed.

Lemma validate_images_malformed i images :
  (∃ img, img ∈ images ∧ match img with NdArray shape => length shape < 2 | _ => True end) →
  ∃ msg, validate_images i images = Raised (ValidationError msg).
Proof.
  revert i. induction images as [|img images IH]; intros i (bad & Hin & Hbad).
  - by apply elem_of_nil in Hin.
  - simpl. destruct img as [| |shape]; [by eexists | by eexists |].
    destruct (Nat.ltb_spec (length shape) 2); [by eexists|].
    apply IH. exists bad. split; [|done].
    apply elem_of_cons in Hin as [-> | Hin]; [|done]. simpl in Hbad. lia.
Qed.

Section with_model.
Context (self : BaseFootModel) (env : environment).

(** The body fails exactly when validation fails or the implementation
    raises. *)
Lemma analyze_body_raises images measurements e :
  analyze_body self env images measurements = Raised e
  ↔ _validate_inputs images measurements = Raised e
    ∨ ∃ args, _validate_inputs images measurements = Returned args
              ∧ _analyze_implementation self args.1 args.2 = Raised e.
Proof.
  unfold analyze_body.
  destruct (_validate_inputs images measurements) as [args|e']; simpl.
  - destruct (_analyze_implementation self args.1 args.2) eqn:E; simpl.
    + split; [done|]. intros [? | (args' & ? & ?)]; simplify_eq. congruence.
    + split; [intros; simplify_eq; right; by exists args|].
      intros [? | (args' & ? & ?)]; simplify_eq. congruence.
  - split; [intros; simplify_eq; by left|].
    intros [? | (args' & ? & ?)]; by simplify_eq.
Qed.

Lemma error_response_fields ty msg t tb :
  let d := _create_error_response self env ty msg t tb in
  d !! "success" = Some (VBool false)
  ∧ ∃ error, d !! "error" = Some (VDict error)
      ∧ dict_lookup error "type" = Some (VStr ty)
      ∧ dict_lookup error "message" = Some (VStr msg)
      ∧ dict_lookup error "model_name" = Some (VStr (name self)).
Proof.
  cbv zeta. unfold _create_error_response. split; [done|].
  eexists. split; [done|]. by destruct tb.
Qed.

(** On success the defaults are filled in for the keys that the
    implementation left out. *)
Lemma post_process_defaults (results : gmap string value) :
  let d := _post_process_results self (Some results) in
  d !! "model_name" = Some (default (VStr (name self)) (results !! "model_name"))
  ∧ d !! "confidence" = Some (default (VNum 0.8%Q) (results !! "confidence")).
Proof.
  cbv zeta. unfold _post_process_results, setdefault.
  repeat case_match; simplify_map_eq; done.
Qed.

(** C9.  For every input (images and measurements present or missing,
    images of any shape, an implementation that returns or raises any
    exception), [analyze] returns a dict and does not raise; when the body
    failed with [e], the dict is the error record: ["success"] is [False]
    and ["error"] holds the type, the message and the model name. *)
Theorem analyze_never_raises
    (images : option (list image)) (measurements : option (gmap string Q)) :
  ∃ d, analyze self env images measurements = Returned d
     ∧ match analyze_body self env images measurements with
       | Returned _ => is_Some (d !! "execution_metadata")
       | Raised e =>
           d !! "success" = Some (VBool false)
           ∧ ∃ error, d !! "error" = Some (VDict error)
               ∧ dict_lookup error "type" = Some (VStr (error_type e))
               ∧ dict_lookup error "message" = Some (VStr (str e))
               ∧ dict_lookup error "model_name" = Some (VStr (name self))
       end.
Proof.
  unfold analyze.
  destruct (analyze_body self env images measurements) as [d|e] eqn:E; simpl.
  - exists d. split; [done|]. unfold analyze_body in E.
    destruct (_validate_inputs images measurements) as [args|]; simpl in E; [|done].
    destruct (_analyze_implementation self args.1 args.2); simpl in E; [|done].
    injection E as <-. rewrite lookup_insert_eq. by eexists.
  - destruct e; simpl; eexists; (split; [reflexivity|]); apply error_response_fields.
Qed.

(** When the implementation returns a dict, [analyze] returns it with the
    defaults filled in and the execution metadata attached: every key that
    the implementation set, other than ["execution_metadata"], keeps its
    value. *)
Theorem analyze_keeps_implementation_keys
    (images : option (list image)) (measurements : option (gmap string Q))
    (args : list image * gmap string Q) (results : gmap string value) :
  _validate_inputs images measurements = Returned args →
  _analyze_implementation self args.1 args.2 = Returned (Some results) →
  ∃ d, analyze self env images measurements = Returned d
     ∧ (∀ k v, k ≠ "execution_metadata" → results !! k = Some v → d !! k = Some v)
     ∧ d !! "confidence" = Some (default (VNum 0.8%Q) (results !! "confidence"))
     ∧ ∃ meta, d !! "execution_metadata" = Some (VDict meta)
         ∧ dict_lookup meta "model_name" = Some (VStr (name self)).
Proof.
  intros Hv Hi. unfold analyze, analyze_body. rewrite Hv. simpl. rewrite Hi. simpl.
  eexists. split; [reflexivity|]. split; [|split].
  - intros k v Hk Hr. rewrite lookup_insert_ne by done.
    unfold setdefault. repeat case_match; simplify_map_eq; done.
  - rewrite lookup_insert_ne by done. apply post_process_defaults.
  - eexists. rewrite lookup_insert_eq. done.
Qed.

(** When the implementation returns [None], [analyze] returns a dict that
    holds the execution metadata only: the defaults for ["model_name"] and
    ["confidence"] are not filled in. *)
Theorem analyze_none_result
    (images : option (list image)) (measurements : option (gmap string Q))
    (args : list image * gmap string Q) :
  _validate_inputs images measurements = Returned args →
  _analyze_implementation self args.1 args.2 = Returned None →
  ∃ d, analyze self env images measurements = Returned d
     ∧ dom d = {[ "execution_metadata" ]}
     ∧ d !! "confidence" = None.
Proof.
  intros Hv Hi. unfold analyze, analyze_body. rewrite Hv. simpl. rewrite Hi. simpl.
  eexists. split; [reflexivity|]. split.
  - rewrite dom_insert_L, dom_empty_L. set_solver.
  - done.
Qed.

(** The error record carries a traceback exactly for an exception that is
    neither a [ValidationError] nor a [ModelError], and its execution time
    is the time elapsed since the start of the call. *)
Theorem error_record_traceback
    (images : option (list image)) (measurements : option (gmap string Q)) (e : exn) :
  analyze_body self env images measurements = Raised e →
  ∃ d error, analyze self env images measurements = Returned d
     ∧ d !! "error" = Some (VDict error)
     ∧ dict_lookup error "traceback"
       = match e with
         | Exception _ => Some (VStr (format_exc env))
         | ValidationError _ | ModelError _ => None
         end
     ∧ dict_lookup error "execution_time"
       = Some (VNum (end_time env - start_time env)%Q).
Proof.
  intros E. unfold analyze. rewrite E. simpl.
  destruct e; simpl; eexists _, _; (split; [reflexivity|]); done.
Qed.

End with_model.

Lemma analyze_keeps_implementation_keys_sample :
  ∃ d, analyze (constant_model (Returned (Some sample_results))) sample_environment
         one_image (Some ∅) = Returned d
     ∧ (∀ k v, k ≠ "execution_metadata" →
               sample_results !! k = Some v → d !! k = Some v)
     ∧ d !! "confidence" = Some (default (VNum 0.8%Q) (sample_results !! "confidence"))
     ∧ ∃ meta, d !! "execution_metadata" = Some (VDict meta)
         ∧ dict_lookup meta "model_name" = Some (VStr "Arch Type Analysis").
Proof.
  apply (analyze_keeps_implementation_keys
           (constant_model (Returned (Some sample_results))) sample_environment
           one_image (Some ∅) ([NdArray [224; 224]], ∅) sample_results); reflexivity.
Defined.

Lemma analyze_none_result_sample :
  ∃ d, analyze (constant_model (Returned None)) sample_environment one_image (Some ∅)
       = Returned d
     ∧ dom d = {[ "execution_metadata" ]}
     ∧ d !! "confidence" = None.
Proof.
  apply (analyze_none_result (constant_model (Returned None)) sample_environment
           one_image (Some ∅) ([NdArray [224; 224]], ∅)); reflexivity.
Defined.

Lemma error_record_traceback_sample :
  ∃ d error,
    analyze (constant_model (Raised (Exception "division by zero"))) sample_environment
      one_image (Some ∅) = Returned d
    ∧ d !! "error" = Some (VDict error)
    ∧ dict_lookup error "traceback" = Some (VStr "Traceback (most recent call last)")
    ∧ dict_lookup error "execution_time" = Some (VNum (12.5 - 10)%Q).
Proof.
  apply (error_record_traceback (constant_model (Raised (Exception "division by zero")))
           sample_environment one_image (Some ∅) (Exception "division by zero")).
  reflexivity.
Defined.

(** *** Validation *)

Lemma validate_images_returns i images :
  validate_images i images = Returned () ↔ Forall well_formed images.
Proof.
  revert i. induction images as [|img images IH]; intros i; simpl.
  - split; [constructor | done].
  - rewrite Forall_cons. destruct img as [| |shape]; simpl; [naive_solver..|].
    destruct (Nat.ltb_spec (length shape) 2); [|rewrite IH]; naive_solver lia.
Qed.

(** Validation succeeds exactly when the images are a non-empty list of
    arrays of two dimensions or more and the measurements are not [None];
    an empty measurements dict is accepted. *)
Theorem validate_inputs_returns_iff
    (images : option (list image)) (measurements : option (gmap string Q))
    (args : list image * gmap string Q) :
  _validate_inputs images measurements = Returned args
  ↔ images = Some args.1 ∧ measurements = Some args.2
    ∧ args.1 ≠ [] ∧ Forall well_formed args.1.
Proof.
  destruct args as [imgs m]. unfold _validate_inputs. simpl.
  destruct images as [[|img images]|]; [naive_solver | | naive_solver].
  destruct measurements as [m'|]; [|naive_solver].
  destruct (validate_images 0 (img :: images)) as [[]|e] eqn:E; simpl.
  - apply (validate_images_returns 0) in E. split.
    + intros [= <- <-]. done.
    + intros (? & ? & _); by simplify_eq.
  - split; [done|]. intros (? & ? & _ & Hwf). simplify_eq.
    apply (validate_images_returns 0) in Hwf. congruence.
Qed.

(** A failing image loop reports the first image that is not well formed:
    the message names its index. *)
Theorem validate_images_first_bad (i : nat) (images : list image) (e : exn) :
  validate_images i images = Raised e →
  ∃ k bad rest,
    images !! k = Some bad ∧ ¬ well_formed bad
    ∧ Forall well_formed (take k images)
    ∧ e = ValidationError ("Image at index " +:+ pretty (i + k) +:+ rest).
Proof.
  revert i. induction images as [|img images IH]; intros i; simpl; [done|].
  assert (Hhere : ∀ rest, ¬ well_formed img →
    ∃ k bad rest0, (img :: images) !! k = Some bad ∧ ¬ well_formed bad
      ∧ Forall well_formed (take k (img :: images))
      ∧ ValidationError ("Image at index " +:+ pretty i +:+ rest)
        = ValidationError ("Image at index " +:+ pretty (i + k) +:+ rest0)).
  { intros rest Hbad. exists 0, img, rest. rewrite Nat.add_0_r.
    split; [reflexivity|]. split; [exact Hbad|]. split; [apply Forall_nil_2 | reflexivity]. }
  destruct img as [| |shape].
  - intros [= <-]. apply Hhere. intros [].
  - intros [= <-]. apply Hhere. intros [].
  - destruct (Nat.ltb_spec (length shape) 2) as [Hlt | Hge].
    + intros [= <-]. apply Hhere. simpl. lia.
    + intros E. destruct (IH _ E) as (k & bad & rest & Hk & Hbad & Hpre & ->).
      exists (S k), bad, rest. rewrite Nat.add_succ_r. simpl.
      split; [done|]. split; [done|]. split; [by constructor | done].
Qed.

Lemma validate_images_first_bad_third :
  ∃ k bad rest,
    [NdArray [224; 224]; NdArray [224; 224; 3]; NdArray [224]; ImageNone] !! k = Some bad
    ∧ ¬ well_formed bad
    ∧ Forall well_formed
        (take k [NdArray [224; 224]; NdArray [224; 224; 3]; NdArray [224]; ImageNone])
    ∧ ValidationError "Image at index 2 has invalid dimensions: (224,)"
      = ValidationError ("Image at index " +:+ pretty (0 + k) +:+ rest).
Proof.
  apply (validate_images_first_bad 0
           [NdArray [224; 224]; NdArray [224; 224; 3]; NdArray [224]; ImageNone]).
  by vm_compute.
Defined.

End BaseFacts.

(** ** The aggregator *)

Module DiagnosisFacts.
Import Py Diagnosis DiagnosisSpec.

(** *** All models in error *)

Lemma dict_update_Forall {V} (P : V → Prop) (d : list (string * V)) k x :
  Forall (λ p, P p.2) d → P x → Forall (λ p, P p.2) (dict_update d k x (λ _, x)).
Proof.
  intros Hd Hx. induction Hd as [|[k' v] d Hv Hd IH]; simpl.
  - by constructor.
  - case_bool_decide; constructor; auto.
Qed.

Lemma result_of_Forall (P : model_result → Prop) models model_id :
  Forall (λ p, P p.2) models → P empty_result → P (result_of models model_id).
Proof.
  intros Hd He. unfold result_of.
  induction Hd as [|[k' v] d Hv Hd IH]; simpl; [done|].
  by case_bool_decide.
Qed.

Lemma run_all_snoc runs x : run_all (runs ++ [x]) = run_model (run_all runs) x.
Proof. unfold run_all. by rewrite fold_left_app. Qed.

Lemma run_model_models st item :
  models (run_model st item)
  = dict_update (models st) item.1 (stored item.2) (λ _, stored item.2).
Proof.
  unfold run_model, stored. destruct item.2 as [r|e]; [|done].
  by destruct (_ && _).
Qed.

(** The loop keeps, for each model, what it stored for its last run. *)
Lemma run_all_lookup runs id :
  dict_lookup (models (run_all runs)) id = stored <$> last_run runs id.
Proof.
  unfold last_run. induction runs as [|[k run] runs IH] using rev_ind; [done|].
  rewrite run_all_snoc, run_model_models, ArchFacts.dict_lookup_update, reverse_snoc.
  cbn [dict_lookup fst snd]. rewrite IH.
  case_decide; case_bool_decide; simplify_eq; done.
Qed.

Lemma errored_stored run : errored run → error_stored (stored run).
Proof. destruct run as [r|e]; simpl; [by left | by right]. Qed.

Lemma run_model_error st item :
  errored item.2 →
  primary_diagnosis st = None →
  primary_diagnosis (run_model st item) = None.
Proof.
  intros Hitem Hp. unfold run_model.
  destruct item.2 as [r|e]; simpl in *; [|done].
  subst r. simpl. by rewrite andb_false_r.
Qed.

Lemma run_all_errors runs :
  (∀ item, item ∈ runs → errored item.2) →
  primary_diagnosis (run_all runs) = None
  ∧ Forall (λ p, error_stored p.2) (models (run_all runs)).
Proof.
  induction runs as [|item runs IH] using rev_ind; intros Hruns.
  - split; [done | constructor].
  - destruct IH as [Hp Hm].
    { intros i Hi. apply Hruns, elem_of_app. by left. }
    assert (errored item.2) as Hitem.
    { apply Hruns, elem_of_app. right. by apply list_elem_of_singleton. }
    rewrite run_all_snoc. split; [by apply run_model_error|].
    rewrite run_model_models.
    by apply (dict_update_Forall error_stored), errored_stored.
Qed.

Lemma collect_pathologies_errors models :
  Forall (λ p, error_stored p.2) models → collect_pathologies models = [].
Proof.
  unfold collect_pathologies.
  induction 1 as [|[k v] d Hv Hd IH]; simpl; [done|].
  simpl in Hv. destruct Hv as [-> | ->]; simpl; apply IH.
Qed.

Lemma structure_errors models :
  Forall (λ p, error_stored p.2) models →
  structure models = structured fallback.
Proof.
  intros H. unfold structure.
  rewrite (collect_pathologies_errors models H).
  destruct (result_of_Forall error_stored models "arch_type" H) as [-> | ->];
    [by left|..];
    (destruct (result_of_Forall error_stored models "pronation" H) as [-> | ->];
       [by left|..]);
    (destruct (result_of_Forall error_stored models "gait" H) as [-> | ->];
       [by left|..]);
    by vm_compute.
Qed.

Lemma summary_errors runs :
  (∀ item, item ∈ runs → errored item.2) →
  summary (run_all runs) = degenerate_summary runs.
Proof.
  intros Hruns. destruct (run_all_errors runs Hruns) as [Hp _].
  unfold summary, degenerate_summary, result_of. rewrite Hp, run_all_lookup.
  cbn [truthy]. destruct (last_run runs "arch_type") as [[r|e]|] eqn:E; [|done..].
  assert (errored (Returned r)) as ->; [|done].
  apply (Hruns ("arch_type", Returned r)).
  apply elem_of_reverse. by apply ArchFacts.dict_lookup_Some.
Qed.

(** C1, as the code has it.  [analyze_foot_images] returns for every input.
    When every model is in error, because its [analyze] raised or because
    it returned an error record, the structured diagnosis is the empty one
    of the static fallback, and the diagnosis and its confidence are read
    from what the loop stored for the arch model: "Analysis Error" with
    0.0 when its [analyze] raised, "Normal Foot Structure" with 0.9
    otherwise.  The static fallback itself, with confidence 0.70, is the
    result only when the body raised. *)
Theorem aggregate_all_errors (extracted : outcome (gmap string Q))
    (runs : list (string * outcome model_result))
    (patient_context : option (option Rules.patient_context)) :
  ∃ r, analyze_foot_images extracted runs patient_context = Returned r
     ∧ ((∀ item, item ∈ runs → errored item.2) →
        structured r = structured fallback
        ∧ match extracted with
          | Returned _ => (diagnosis r, result_confidence r) = degenerate_summary runs
          | Raised _ => r = fallback
          end).
Proof.
  unfold analyze_foot_images, analyze_body.
  destruct extracted as [measured|e]; simpl.
  - eexists. split; [reflexivity|]. intros Hruns. simpl.
    destruct (run_all_errors runs Hruns) as [_ Hm].
    rewrite (structure_errors _ Hm), <- (summary_errors runs Hruns).
    split; [done|]. by destruct (summary (run_all runs)).
  - exists fallback. done.
Qed.

Lemma aggregate_all_errors_all_raised :
  ∃ r, analyze_foot_images (Returned ∅) all_raised None = Returned r
     ∧ structured r = structured fallback
     ∧ (diagnosis r, result_confidence r) = ("Analysis Error", 0.0%Q).
Proof.
  destruct (aggregate_all_errors (Returned ∅) all_raised None) as (r & E & H).
  exists r. split; [done|]. apply H.
  intros item Hin. unfold all_raised in Hin.
  apply list_elem_of_fmap in Hin as (m & -> & _). done.
Defined.

(** C1 as stated fails: when [analyze] of every registered model raised,
    the diagnosis is "Analysis Error" with confidence 0.0, neither the
    name nor the 0.70 of the static fallback. *)
Lemma all_raised_not_fallback :
  ∃ r, analyze_foot_images (Returned ∅) all_raised None = Returned r
     ∧ diagnosis r ≠ diagnosis fallback
     ∧ ¬ (result_confidence r == result_confidence fallback)%Q.
Proof.
  eexists. split; [reflexivity|]. split; [by vm_compute|].
  simpl. intros H. by vm_compute in H.
Qed.

(** When every registered model returned an error record instead, the
    defaults of the summary give "Normal Foot Structure" with 0.9. *)
Lemma aggregate_all_error_records :
  ∃ r, analyze_foot_images (Returned ∅) all_errors None = Returned r
     ∧ diagnosis r = "Normal Foot Structure"
     ∧ result_confidence r = 0.9%Q
     ∧ structured r = structured fallback.
Proof. eexists. split; [reflexivity|]. by vm_compute. Qed.

(** *** Arch type and arch degree *)







(** *** The thresholds of the arch degree *)

Lemma arch_degree_flat arch_result code ahi :
  condition arch_result = Some code → is_flat code = true →
  arch_height_index arch_result = Some ahi →
  _determine_arch_degree arch_result
  = (if ge ahi 0.21%Q then 1 else if ge ahi 0.18%Q then 2
     else if ge ahi 0.15%Q then 3 else 4)%Z.
Proof.
  unfold _determine_arch_degree, is_flat, arch_height_index.
  intros -> [Hn Hf]%andb_true_iff Hm. simpl.
  apply negb_true_iff in Hn. rewrite Hn, Hf.
  destruct (arch_measurements arch_result) as [m|]; simpl in *; [|done].
  by rewrite Hm.
Qed.

Lemma arch_degree_high arch_result code ahi :
  condition arch_result = Some code → is_high code = true →
  arch_height_index arch_result = Some ahi →
  _determine_arch_degree arch_result
  = (if le ahi 0.34%Q then 1 else if le ahi 0.38%Q then 2
     else if le ahi 0.42%Q then 3 else 4)%Z.
Proof.
  unfold _determine_arch_degree, is_high, arch_height_index.
  intros -> [[Hn Hf]%andb_true_iff Hh]%andb_true_iff Hm. simpl.
  apply negb_true_iff in Hn, Hf. rewrite Hn, Hf, Hh.
  destruct (arch_measurements arch_result) as [m|]; simpl in *; [|done].
  by rewrite Hm.
Qed.

(** Without the measurement a flat or high arch gets degree 1 from the
    default index 0.25, whatever its severity. *)
Lemma arch_degree_unmeasured arch_result code :
  condition arch_result = Some code → is_flat code || is_high code = true →
  arch_height_index arch_result = None →
  _determine_arch_degree arch_result = 1%Z.
Proof.
  unfold _determine_arch_degree, is_flat, is_high, arch_height_index.
  intros -> H Hm. simpl.
  assert (default 0.25%Q (default ∅ (arch_measurements arch_result) !! "arch_height_index")
          = 0.25%Q) as ->.
  { destruct (arch_measurements arch_result) as [m|]; simpl in *; [by rewrite Hm | done]. }
  destruct (contains "normal" (lower code)); [done|].
  destruct (contains "flat" (lower code) || contains "pes planus" (lower code)); [done|].
  simpl in H. by rewrite H.
Qed.

(** C6, as the code has it.  With [code] the condition of the result
    ("normal_arch" when absent): a normal arch has degree 1; a flat arch
    with a measured index gets its degree from the thresholds 0.21, 0.18
    and 0.15, a high arch from 0.34, 0.38 and 0.42; and a result without
    the index gets degree 1 when the condition is normal, flat or high (the
    index then counts as 0.25, the middle of the normal range), and the
    severity map applied to its severity for every other condition. *)
Theorem arch_degree_tables (arch_result : model_result) :
  let code := default "normal_arch" (condition arch_result) in
  (contains "normal" (lower code) = true → _determine_arch_degree arch_result = 1%Z)
  ∧ (∀ ahi, is_flat code = true → arch_height_index arch_result = Some ahi →
     _determine_arch_degree arch_result
     = (if ge ahi 0.21%Q then 1 else if ge ahi 0.18%Q then 2
        else if ge ahi 0.15%Q then 3 else 4)%Z)
  ∧ (∀ ahi, is_high code = true → arch_height_index arch_result = Some ahi →
     _determine_arch_degree arch_result
     = (if le ahi 0.34%Q then 1 else if le ahi 0.38%Q then 2
        else if le ahi 0.42%Q then 3 else 4)%Z)
  ∧ (arch_height_index arch_result = None →
     _determine_arch_degree arch_result
     = if contains "normal" (lower code) || is_flat code || is_high code
       then 1%Z
       else dict_get severity_map (default "none" (severity arch_result)) 1%Z).
Proof.
  intros code.
  assert (Hidx : ∀ o, arch_height_index arch_result = o →
            default 0.25%Q
              (default ∅ (arch_measurements arch_result) !! "arch_height_index")
            = default 0.25%Q o).
  { intros o <-. unfold arch_height_index.
    by destruct (arch_measurements arch_result). }
  unfold _determine_arch_degree, is_flat, is_high. fold code. cbv zeta.
  split; [|split; [|split]].
  - by intros ->.
  - intros ahi [Hn Hf]%andb_true_iff Hm. apply negb_true_iff in Hn.
    by rewrite (Hidx _ Hm), Hn, Hf.
  - intros ahi [[Hn Hf]%andb_true_iff Hh]%andb_true_iff Hm.
    apply negb_true_iff in Hn, Hf. by rewrite (Hidx _ Hm), Hn, Hf, Hh.
  - intros Hm. rewrite (Hidx _ Hm). cbn [default from_option].
    destruct (contains "normal" (lower code)); [done|].
    destruct (contains "flat" (lower code) || contains "pes planus" (lower code));
      [done|].
    by destruct (contains "high" (lower code) || contains "pes cavus" (lower code)).
Qed.

Lemma arch_degree_tables_flat_feet :
  _determine_arch_degree (measured_arch "flat_feet" 0.16%Q) = 3%Z
  ∧ _determine_arch_degree analysis_error = 1%Z.
Proof.
  split.
  - destruct (arch_degree_tables (measured_arch "flat_feet" 0.16%Q))
      as (_ & Hflat & _ & _).
    exact (Hflat 0.16%Q eq_refl eq_refl).
  - destruct (arch_degree_tables analysis_error) as (_ & _ & _ & Hnone).
    exact (Hnone eq_refl).
Defined.

(** C6 as stated fails: a severe flat arch whose result has no
    [arch_height_index] gets degree 1, from the default index 0.25, and not
    the 4 that the severity map gives for "severe". *)
Lemma unmeasured_flat_not_severity_map :
  arch_height_index flat_feet_severe_unmeasured = None
  ∧ _determine_arch_degree flat_feet_severe_unmeasured = 1%Z
  ∧ dict_get severity_map
      (default "none" (severity flat_feet_severe_unmeasured)) 1%Z = 4%Z.
Proof. split; [done|]. split; by vm_compute. Qed.

(** On the results that the aggregator passes without the index, the empty
    dict and the stored error record, the degree is the one that the
    severity map gives for their missing severity. *)
Lemma arch_degree_error_results :
  _determine_arch_degree empty_result = dict_get severity_map "none" 1%Z
  ∧ _determine_arch_degree analysis_error = dict_get severity_map "none" 1%Z.
Proof. split; by vm_compute. Qed.

(** *** The structured diagnosis *)

Lemma arch_type_range code :
  _map_arch_type_to_pdf_terminology code ∈ ["Normal Arch"; "Flat Arch"; "High Arch"].
Proof.
  unfold _map_arch_type_to_pdf_terminology, mapping. simpl.
  repeat (case_bool_decide; [set_solver|]). set_solver.
Qed.

Lemma arch_degree_range arch_result :
  (1 ≤ _determine_arch_degree arch_result ≤ 4)%Z.
Proof.
  unfold _determine_arch_degree, severity_map. simpl.
  repeat (case_match; try lia); repeat (case_bool_decide; try lia).
Qed.

(** For every input, the structured diagnosis names one of the three arch
    types and an arch degree between 1 and 4. *)
Theorem structured_diagnosis_ranges (extracted : outcome (gmap string Q))
    (runs : list (string * outcome model_result))
    (patient_context : option (option Rules.patient_context)) :
  ∃ r, analyze_foot_images extracted runs patient_context = Returned r
     ∧ arch_type (structured r) ∈ ["Normal Arch"; "Flat Arch"; "High Arch"]
     ∧ (1 ≤ arch_degree (structured r) ≤ 4)%Z.
Proof.
  unfold analyze_foot_images, analyze_body.
  destruct extracted as [measured|e]; simpl; eexists; (split; [reflexivity|]); simpl.
  - split; [apply arch_type_range | apply arch_degree_range].
  - split; [set_solver | lia].
Qed.

Lemma collect_pathologies_elem models p :
  p ∈ collect_pathologies models
  ↔ ∃ item, item ∈ models ∧ condition_name item.2 = Some p
      ∧ p ≠ "" ∧ contains "normal" (lower p) = false
      ∧ default "none" (severity item.2) ≠ "none"
      ∧ (0.6 <= score item.2)%Q.
Proof.
  unfold collect_pathologies. rewrite list_elem_of_omap. unfold score, ge.
  split.
  - intros (item & Hin & H). exists item. split; [done|].
    destruct (condition_name item.2) as [c|] eqn:Ec; simpl in H; [|done].
    destruct (bool_decide (c = "")) eqn:E1; simpl in H; [done|].
    destruct (contains "normal" (lower c)) eqn:En; simpl in H; [done|].
    destruct (bool_decide (default "none" (severity item.2) = "none")) eqn:E3;
      simpl in H; [done|].
    destruct (Qle_bool 0.6 (default 0%Q (confidence item.2))) eqn:Eq; [|done].
    injection H as <-. apply bool_decide_eq_false in E1, E3.
    apply Qle_bool_iff in Eq. done.
  - intros (item & Hin & Hc & Hne & Hn & Hs & Hq). exists item. split; [done|].
    rewrite Hc. simpl. rewrite Hn. simpl.
    rewrite (bool_decide_eq_false_2 (p = "")) by done.
    rewrite (bool_decide_eq_false_2 _ Hs). simpl.
    apply Qle_bool_iff in Hq. by rewrite Hq.
Qed.

(** For every input, the pathologies of the structured diagnosis are
    non-empty names that do not contain "normal" in any letter case. *)
Theorem pathologies_never_normal (extracted : outcome (gmap string Q))
    (runs : list (string * outcome model_result))
    (patient_context : option (option Rules.patient_context)) :
  ∃ r, analyze_foot_images extracted runs patient_context = Returned r
     ∧ Forall (λ p, p ≠ "" ∧ contains "normal" (lower p) = false)
         (pathologies (structured r)).
Proof.
  unfold analyze_foot_images, analyze_body.
  destruct extracted as [measured|e]; simpl; eexists; (split; [reflexivity|]); simpl.
  - apply Forall_forall. intros p Hp.
    apply collect_pathologies_elem in Hp as (item & _ & _ & ? & ? & _). done.
  - constructor.
Qed.

(** *** The primary diagnosis *)

Lemma run_model_returned st id r :
  run_model st (id, Returned r)
  = let models := dict_update (models st) id r (λ _, r) in
    if gt (score r) (primary_confidence st) && eligible r
    then {| models := models; primary_diagnosis := Some (default "" (condition_name r));
            primary_confidence := score r |}
    else {| models := models; primary_diagnosis := primary_diagnosis st;
            primary_confidence := primary_confidence st |}.
Proof. unfold run_model, eligible, score. simpl. by rewrite andb_assoc. Qed.

Lemma primary_fold runs :
  let st := run_all runs in
  (0 <= primary_confidence st)%Q
  ∧ (∀ id r, (id, Returned r) ∈ runs → eligible r = true →
       (score r <= primary_confidence st)%Q)
  ∧ match primary_diagnosis st with
    | None => primary_confidence st = 0%Q
    | Some d =>
        ∃ pre id r post,
          runs = (pre ++ (id, Returned r) :: post)%list
          ∧ eligible r = true
          ∧ default "" (condition_name r) = d
          ∧ primary_confidence st = score r
          ∧ (0 < score r)%Q
          ∧ (∀ id' r', (id', Returned r') ∈ pre → eligible r' = true →
               (score r' < score r)%Q)
    end.
Proof.
  induction runs as [|[id o] runs IH] using rev_ind; cbv zeta in *.
  - simpl. split; [done|]. split; [|done]. intros id r Hin. by apply elem_of_nil in Hin.
  - rewrite run_all_snoc. destruct IH as (Hpos & Hub & Hprim).
    destruct o as [r|e].
    + rewrite run_model_returned. cbv zeta.
      destruct (gt (score r) (primary_confidence (run_all runs))) eqn:Egt;
        [apply ArchFacts.gt_true in Egt | apply ArchFacts.gt_false in Egt];
        destruct (eligible r) eqn:Eel; simpl.
      * split; [lra|]. split.
        -- intros id' r' [Hin | Hin%list_elem_of_singleton]%elem_of_app Hel.
           ++ specialize (Hub _ _ Hin Hel). lra.
           ++ simplify_eq. lra.
        -- exists runs, id, r, []. split; [done|]. split; [done|]. split; [done|].
           split; [done|]. split; [lra|].
           intros id' r' Hin Hel. specialize (Hub _ _ Hin Hel). lra.
      * split; [done|]. split.
        -- intros id' r' [Hin | Hin%list_elem_of_singleton]%elem_of_app Hel.
           ++ by apply (Hub id').
           ++ simplify_eq. congruence.
        -- destruct (primary_diagnosis (run_all runs)); [|done].
           destruct Hprim as (pre & id0 & r0 & post & -> & ?).
           exists pre, id0, r0, (post ++ [(id, Returned r)])%list.
           split; [|done]. by rewrite <- app_assoc.
      * split; [done|]. split.
        -- intros id' r' [Hin | Hin%list_elem_of_singleton]%elem_of_app Hel.
           ++ by apply (Hub id').
           ++ by simplify_eq.
        -- destruct (primary_diagnosis (run_all runs)); [|done].
           destruct Hprim as (pre & id0 & r0 & post & -> & ?).
           exists pre, id0, r0, (post ++ [(id, Returned r)])%list.
           split; [|done]. by rewrite <- app_assoc.
      * split; [done|]. split.
        -- intros id' r' [Hin | Hin%list_elem_of_singleton]%elem_of_app Hel.
           ++ by apply (Hub id').
           ++ simplify_eq. congruence.
        -- destruct (primary_diagnosis (run_all runs)); [|done].
           destruct Hprim as (pre & id0 & r0 & post & -> & ?).
           exists pre, id0, r0, (post ++ [(id, Returned r)])%list.
           split; [|done]. by rewrite <- app_assoc.
    + unfold run_model. simpl. split; [done|]. split.
      * intros id' r' [Hin | Hin%list_elem_of_singleton]%elem_of_app Hel.
        -- by apply (Hub id').
        -- by simplify_eq.
      * destruct (primary_diagnosis (run_all runs)); [|done].
        destruct Hprim as (pre & id0 & r0 & post & -> & ?).
        exists pre, id0, r0, (post ++ [(id, Raised e)])%list.
        split; [|done]. by rewrite <- app_assoc.
Qed.

(** The primary diagnosis is the first returned result, in the order of the
    runs, that attains the highest confidence among the results whose name
    does not contain "normal" and whose severity is not "none": no such
    result has a higher confidence, and the ones before it have a strictly
    lower one.  Without a primary diagnosis no such result has a positive
    confidence. *)
Theorem primary_diagnosis_first_highest
    (runs : list (string * outcome model_result)) :
  let st := run_all runs in
  (∀ id r, (id, Returned r) ∈ runs → eligible r = true →
     (score r <= primary_confidence st)%Q)
  ∧ match primary_diagnosis st with
    | None => primary_confidence st = 0%Q
    | Some d =>
        ∃ pre id r post,
          runs = (pre ++ (id, Returned r) :: post)%list
          ∧ eligible r = true
          ∧ default "" (condition_name r) = d
          ∧ primary_confidence st = score r
          ∧ (0 < score r)%Q
          ∧ (∀ id' r', (id', Returned r') ∈ pre → eligible r' = true →
               (score r' < score r)%Q)
    end.
Proof. apply primary_fold. Qed.

(** *** The synthesised patient context *)

Lemma seed_history_names models :
  Forall (λ h, h ∈ pathology_indicators.*1) (seed_history models).
Proof.
  unfold seed_history.
  assert (G : ∀ (cond : string) (entries : list (string * list string)) acc,
    Forall (λ e, e ∈ pathology_indicators) entries →
    Forall (λ h, h ∈ pathology_indicators.*1) acc →
    Forall (λ h, h ∈ pathology_indicators.*1)
      (fold_left
         (λ history (entry : string * list string),
            if existsb (λ indicator, contains (lower indicator) cond) entry.2
            then Rules.append_new entry.1 history else history)
         entries acc)).
  { intros cond entries. induction entries as [|e entries IH]; intros acc He Hacc; [done|].
    apply Forall_cons in He as [He Hes]. simpl. apply IH; [done|].
    destruct (existsb _ e.2); [|done]. unfold Rules.append_new.
    destruct (mem e.1 acc); [done|]. apply Forall_app. split; [done|].
    constructor; [|constructor]. apply list_elem_of_fmap. by exists e. }
  generalize (@nil string) (Forall_nil_2 (λ h : string, h ∈ pathology_indicators.*1)).
  induction models as [|item models IH]; intros acc Hacc; cbn [fold_left]; [done|].
  apply IH. apply G; [|done]. by apply Forall_forall.
Qed.

Lemma default_context_silent models k :
  k ∈ ["neuropathy"; "amputation"; "charcot"; "ulcer"] →
  mem k (Rules.history (_generate_default_patient_context models)) = false.
Proof.
  intros Hk. apply RulesFacts.mem_false. unfold Rules.history. simpl.
  intros (h & -> & Hh)%list_elem_of_fmap.
  pose proof (seed_history_names models) as Hnames.
  rewrite Forall_forall in Hnames. specialize (Hnames h Hh).
  unfold pathology_indicators in Hnames. simpl in Hnames.
  set_unfold. naive_solver.
Qed.

(** When the caller passes no context, the context synthesised from the
    model results never changes a recommendation or a flag: the result is
    the one obtained with an empty context. *)
Theorem default_context_changes_nothing (extracted : outcome (gmap string Q))
    (runs : list (string * outcome model_result)) :
  analyze_foot_images extracted runs None
  = analyze_foot_images extracted runs (Some None).
Proof.
  unfold analyze_foot_images, analyze_body.
  destruct extracted as [measured|e]; simpl; [|done].
  do 2 f_equal. unfold Rules.apply_medical_rules. do 2 f_equal.
  apply RulesFacts.silent_context_body; try done;
    apply default_context_silent; set_solver.
Qed.

(** *** Zones and gait *)

(** The gait result can only change the alignment of the hindfoot. *)
Theorem gait_only_affects_hindfoot (zone : string)
    (alignment_result gait_result gait_result' : model_result) :
  zone ≠ "hindfoot" →
  _determine_zone_alignment zone alignment_result gait_result
  = _determine_zone_alignment zone alignment_result gait_result'.
Proof.
  intros Hz. unfold _determine_zone_alignment, zone_or_gait.
  rewrite !(bool_decide_eq_false_2 (zone = "hindfoot")) by done.
  by destruct (rearfoot_angle gait_result), (rearfoot_angle gait_result').
Qed.

Lemma gait_only_affects_hindfoot_forefoot :
  _determine_zone_alignment "forefoot" empty_result (gait_angle 5%Q)
  = _determine_zone_alignment "forefoot" empty_result (gait_angle (-5)%Q).
Proof. by apply gait_only_affects_hindfoot. Defined.

(** *** The degree follows the index *)

Ltac Qle_cases :=
  unfold ge, le;
  repeat match goal with
    | |- context [Qle_bool ?a ?b] =>
        let E := fresh "E" in
        destruct (Qle_bool a b) eqn:E;
        [ apply Qle_bool_iff in E
        | assert (b < a)%Q by (apply ArchFacts.gt_true; unfold gt; by rewrite E);
          clear E ]
    end.

(** With the same condition code, a lower arch height index never gives a
    lower degree to a flat arch, nor a higher degree to a high arch. *)
Theorem arch_degree_monotone (r1 r2 : model_result) (code : string) (a1 a2 : Q) :
  condition r1 = Some code → condition r2 = Some code →
  arch_height_index r1 = Some a1 → arch_height_index r2 = Some a2 →
  (a1 <= a2)%Q →
  (is_flat code = true → (_determine_arch_degree r2 ≤ _determine_arch_degree r1)%Z)
  ∧ (is_high code = true → (_determine_arch_degree r1 ≤ _determine_arch_degree r2)%Z).
Proof.
  intros Hc1 Hc2 Hm1 Hm2 Hle. split; intros Hcode.
  - rewrite (arch_degree_flat r1 code a1), (arch_degree_flat r2 code a2) by done.
    Qle_cases; first [lia | lra].
  - rewrite (arch_degree_high r1 code a1), (arch_degree_high r2 code a2) by done.
    Qle_cases; first [lia | lra].
Qed.

Lemma arch_degree_monotone_flat_feet :
  (_determine_arch_degree (measured_arch "flat_feet" 0.19%Q)
   ≤ _determine_arch_degree (measured_arch "flat_feet" 0.12%Q))%Z.
Proof.
  apply (arch_degree_monotone (measured_arch "flat_feet" 0.12%Q)
           (measured_arch "flat_feet" 0.19%Q) "flat_feet" 0.12%Q 0.19%Q);
    try reflexivity. by vm_compute.
Defined.

(** *** From a model's finding to the add-ons *)

Lemma run_all_stored runs id run :
  NoDup runs.*1 → (id, run) ∈ runs →
  dict_lookup (models (run_all runs)) id = Some (stored run).
Proof.
  induction runs as [|x runs IH] using rev_ind; intros Hnd Hin.
  - by apply elem_of_nil in Hin.
  - rewrite fmap_app in Hnd. apply NoDup_app in Hnd as (Hnd & Hfresh & _).
    rewrite run_all_snoc, run_model_models, ArchFacts.dict_lookup_update.
    apply elem_of_app in Hin as [Hin | <-%list_elem_of_singleton].
    + rewrite decide_False; [by apply IH|].
      intros ->. apply (Hfresh x.1); [|simpl; apply elem_of_cons; by left].
      apply list_elem_of_fmap. by exists (x.1, run).
    + by rewrite decide_True.
Qed.

Lemma finding_is_pathology runs id r name :
  NoDup runs.*1 → (id, Returned r) ∈ runs →
  condition_name r = Some name → name ≠ "" →
  contains "normal" (lower name) = false →
  default "none" (severity r) ≠ "none" →
  (0.6 <= default 0 (confidence r))%Q →
  name ∈ collect_pathologies (models (run_all runs)).
Proof.
  intros Hnd Hin Hname Hne Hnormal Hsev Hconf.
  apply (run_all_stored _ _ _ Hnd) in Hin. simpl in Hin.
  apply ArchFacts.dict_lookup_Some in Hin.
  unfold collect_pathologies. apply list_elem_of_omap.
  exists (id, r). split; [done|]. cbv zeta. cbn [snd]. rewrite Hname.
  change (default "" (Some name)) with name.
  rewrite Hnormal, (bool_decide_eq_false_2 (name = "")) by done.
  rewrite (bool_decide_eq_false_2 _ Hsev).
  unfold ge. by rewrite (proj2 (Qle_bool_iff _ _) Hconf).
Qed.

Lemma finding_adds (measured : gmap string Q)
    (runs : list (string * outcome model_result))
    (ctx : option (option Rules.patient_context)) id r name rec :
  NoDup runs.*1 → (id, Returned r) ∈ runs →
  condition_name r = Some name → name ≠ "" →
  contains "normal" (lower name) = false →
  default "none" (severity r) ≠ "none" →
  (0.6 <= default 0 (confidence r))%Q →
  rec ∈ dict_get Rules.pathology_map name [] →
  ∃ res recs,
    analyze_foot_images (Returned measured) runs ctx = Returned res
    ∧ recommendations res = Some recs
    ∧ Rules.name rec ∈ Rules.category_list (Rules.category_of rec) recs.
Proof.
  intros Hnd Hin Hname Hne Hnormal Hsev Hconf Hrec.
  eexists _, _. split; [reflexivity|]. split; [reflexivity|].
  apply RulesFacts.pathology_adds with (pathology := name); [|done].
  by apply (finding_is_pathology runs id r).
Qed.

(** When every model runs once, a finding that a model returns with a
    severity, a confidence of at least 0.6 and a name that is a key of the
    pathology table puts each add-on of that table entry into the
    recommendations of the final result. *)
Theorem finding_gets_table_addons (measured : gmap string Q)
    (runs : list (string * outcome model_result))
    (ctx : option (option Rules.patient_context))
    (id : string) (r : model_result) (name : string) (rec : Rules.rec_entry) :
  NoDup runs.*1 → (id, Returned r) ∈ runs →
  condition_name r = Some name → name ≠ "" →
  contains "normal" (lower name) = false →
  default "none" (severity r) ≠ "none" →
  (0.6 <= default 0 (confidence r))%Q →
  rec ∈ dict_get Rules.pathology_map name [] →
  ∃ res recs,
    analyze_foot_images (Returned measured) runs ctx = Returned res
    ∧ recommendations res = Some recs
    ∧ Rules.name rec ∈ Rules.category_list (Rules.category_of rec) recs.
Proof.
  intros Hnd Hin Hname Hne Hnormal Hsev Hconf Hrec.
  pose proof (finding_is_pathology runs id r name Hnd Hin Hname Hne Hnormal
                Hsev Hconf) as Hlisted.
  unfold analyze_foot_images, analyze_body. cbn [mbind outcome_bind try_except mret outcome_ret].
  eexists _, _. split; [reflexivity|]. split; [reflexivity|].
  cbn [structure pathologies].
  by apply RulesFacts.pathology_adds with (pathology := name).
Qed.

Lemma finding_gets_table_addons_heel_spur :
  ∃ res recs,
    analyze_foot_images (Returned ∅)
      [("pressure", Returned (ModelsSpec.finding "heel_spur" "Heel Spur" 0.8%Q "mild"))]
      None = Returned res
    ∧ recommendations res = Some recs
    ∧ "Heel Spur Pad" ∈ Rules.intrinsic recs.
Proof.
  apply (finding_gets_table_addons ∅
           [("pressure", Returned (ModelsSpec.finding "heel_spur" "Heel Spur" 0.8%Q "mild"))]
           None "pressure" (ModelsSpec.finding "heel_spur" "Heel Spur" 0.8%Q "mild")
           "Heel Spur" (Rules.Rec "Heel Spur Pad" Rules.Intrinsic 0.95%Q true)).
  - apply NoDup_singleton.
  - apply list_elem_of_singleton. reflexivity.
  - reflexivity.
  - discriminate.
  - reflexivity.
  - discriminate.
  - vm_compute. discriminate.
  - vm_compute. apply elem_of_cons. by left.
Defined.

End DiagnosisFacts.

(** ** The measurements and the pronation model *)

Module PronationFacts.
Import Py Runtime Measurements Diagnosis Pronation ModelsSpec.

Lemma clamp_range x lo hi lo' hi' :
  (lo <= hi)%Q → (lo' <= lo)%Q → (hi <= hi')%Q →
  (lo' <= max (min x hi) lo <= hi')%Q.
Proof.
  intros H Hlo Hhi. unfold max, min.
  destruct (lt hi x) eqn:E1; destruct (gt lo _) eqn:E2;
    try apply ArchFacts.gt_true in E2; try apply ArchFacts.gt_false in E2;
    try apply ArchFacts.lt_true in E1; try apply ArchFacts.lt_false in E1;
    split; lra.
Qed.

(** Whatever the images are, the extracted measurements have the keys
    ["length"], ["width"], ["arch_height"] and ["instep_height"], and no
    other. *)
Lemma extract_measurements_keys (rt : runtime) (images : list (list nat)) :
  dom (_extract_measurements rt images)
  = ({[ "length"; "width"; "arch_height"; "instep_height" ]} : gset string).
Proof.
  assert (Hd : dom (drawn rt)
               = ({[ "length"; "width"; "arch_height"; "instep_height" ]} : gset string)).
  { unfold drawn. rewrite !dom_insert_L, dom_singleton_L. set_solver. }
  unfold _extract_measurements.
  destruct images as [|img images]; [done|].
  destruct (0 <? size img)%nat; [|done].
  destruct img as [|height [|width rest]]; [done..|].
  unfold from_image. rewrite !dom_insert_L, dom_singleton_L. set_solver.
Qed.

(** Measurements simulated from an image lie in the ranges that the code
    calls realistic, whatever [round] returns. *)
Theorem extract_measurements_image_ranges (rt : runtime) (height width : nat)
    (rest : list nat) (images : list (list nat)) :
  (0 < size (height :: width :: rest))%nat →
  ∃ l w a i : Q,
    _extract_measurements rt ((height :: width :: rest) :: images)
    = {[ "length" := l; "width" := w; "arch_height" := a; "instep_height" := i ]}
    ∧ (22 <= l <= 32)%Q ∧ (7 <= w <= 12)%Q
    ∧ (0.5 <= a <= 3)%Q ∧ (1.5 <= i <= 4)%Q.
Proof.
  intros Hsize. unfold _extract_measurements.
  rewrite (proj2 (Nat.ltb_lt _ _) Hsize). unfold from_image.
  eexists _, _, _, _. split; [reflexivity|].
  split; [|split; [|split]]; apply clamp_range; lra.
Qed.

Lemma extract_measurements_image_ranges_square :
  ∃ l w a i : Q,
    _extract_measurements lowest [[224; 224]%nat]
    = {[ "length" := l; "width" := w; "arch_height" := a; "instep_height" := i ]}
    ∧ (22 <= l <= 32)%Q ∧ (7 <= w <= 12)%Q
    ∧ (0.5 <= a <= 3)%Q ∧ (1.5 <= i <= 4)%Q.
Proof.
  apply (extract_measurements_image_ranges lowest 224 224 [] []).
  apply Nat.ltb_lt. vm_compute. reflexivity.
Defined.

Lemma analyze_condition {A} (rt : runtime) (images : list A)
    (measurements : gmap string Q) :
  condition (analyze rt images measurements)
  = (let arch_height := default 0%Q (measurements !! "archHeight") in
     let heel_angle := _calculate_heel_angle rt images in
     if lt arch_height 1.2%Q && gt heel_angle 5%Q then "overpronation"
     else if gt arch_height 2.4%Q && lt heel_angle (-3)%Q then "underpronation"
     else "neutral_pronation").
Proof.
  unfold analyze. cbv zeta.
  destruct (lt _ 1.2%Q && gt _ 5%Q); [done|].
  by destruct (gt _ 2.4%Q && lt _ (-3)%Q).
Qed.

(** Every result of the pronation model, the neutral one included, gives
    the aggregator a valgus hindfoot and midfoot and a varus forefoot: each
    of its three condition codes contains the word that the aggregator looks
    for. *)
Theorem pronation_result_alignment {A} (rt : runtime) (images : list A)
    (measurements : gmap string Q) (gait_result : model_result) :
  _determine_zone_alignment "hindfoot"
    (as_model_result (analyze rt images measurements)) gait_result = "valgus"
  ∧ _determine_zone_alignment "midfoot"
      (as_model_result (analyze rt images measurements)) gait_result = "valgus"
  ∧ _determine_zone_alignment "forefoot"
      (as_model_result (analyze rt images measurements)) gait_result = "varus".
Proof.
  unfold _determine_zone_alignment, as_model_result.
  cbn [Diagnosis.condition Diagnosis.zone_alignment default from_option].
  rewrite analyze_condition. cbv zeta.
  destruct (lt _ 1.2%Q && gt _ 5%Q); [by vm_compute|].
  destruct (gt _ 2.4%Q && lt _ (-3)%Q); by vm_compute.
Qed.

(** The model reads the key ["archHeight"], which the extracted measurements
    do not have: on them it never reports underpronation, and it reports
    overpronation exactly when the heel angle exceeds 5. *)
Theorem extracted_never_underpronation (rt : runtime) (images : list (list nat)) :
  condition (analyze rt images (_extract_measurements rt images))
  ≠ "underpronation"
  ∧ (condition (analyze rt images (_extract_measurements rt images))
     = "overpronation"
     ↔ (5 < _calculate_heel_angle rt images)%Q).
Proof.
  rewrite analyze_condition.
  assert (Hk : _extract_measurements rt images !! "archHeight" = None).
  { apply not_elem_of_dom. rewrite extract_measurements_keys. set_solver. }
  rewrite Hk. cbv zeta. cbn [default from_option].
  change (lt 0 1.2%Q) with true. change (gt 0 2.4%Q) with false.
  cbn [andb]. rewrite <- ArchFacts.gt_true.
  destruct (gt (_calculate_heel_angle rt images) 5); split; done.
Qed.

End PronationFacts.

(** ** The abbreviation map *)

Module AbbreviationsFacts.
Import Py Abbreviations.

Lemma note_lookup result rec abbr :
  dict_lookup (note result rec) abbr
  = if decide (abbr = strip (before_paren rec))
    then match dict_lookup abbreviation_map abbr with
         | Some full => Some full
         | None => dict_lookup result abbr
         end
    else dict_lookup result abbr.
Proof.
  unfold note.
  destruct (dict_lookup abbreviation_map (strip (before_paren rec))) as [full|] eqn:E.
  - rewrite ArchFacts.dict_lookup_update. case_decide; [|done]. subst. by rewrite E.
  - case_decide; [|done]. subst. by rewrite E.
Qed.

Lemma note_sound result rec :
  (∀ k v, dict_lookup result k = Some v → dict_lookup abbreviation_map k = Some v) →
  ∀ k v, dict_lookup (note result rec) k = Some v →
         dict_lookup abbreviation_map k = Some v.
Proof.
  intros Hres k v. rewrite note_lookup. case_decide as Hk; [|apply Hres].
  destruct (dict_lookup abbreviation_map k) eqn:E; [done|].
  intros Hv. apply Hres in Hv. congruence.
Qed.

Lemma notes_lookup recs result abbr full :
  (∀ k v, dict_lookup result k = Some v → dict_lookup abbreviation_map k = Some v) →
  dict_lookup (fold_left note recs result) abbr = Some full
  ↔ dict_lookup result abbr = Some full
    ∨ (dict_lookup abbreviation_map abbr = Some full
       ∧ ∃ rec, rec ∈ recs ∧ strip (before_paren rec) = abbr).
Proof.
  revert result. induction recs as [|rec recs IH]; intros result Hres;
    cbn [fold_left].
  - split; [by left|]. intros [H|(_ & rec & Hrec & _)]; [done|].
    by apply elem_of_nil in Hrec.
  - rewrite (IH _ (note_sound _ _ Hres)), note_lookup. split.
    + intros [H|(Hfull & rec' & Hin & Heq)].
      * case_decide as Habbr; [|by left].
        destruct (dict_lookup abbreviation_map abbr) as [full'|] eqn:E; [|by left].
        right. split; [exact H|]. exists rec.
        split; [apply elem_of_cons; by left|by symmetry].
      * right. split; [exact Hfull|]. exists rec'.
        split; [apply elem_of_cons; by right|exact Heq].
    + intros [H|(Hfull & rec' & Hin & Heq)].
      * left. case_decide; [|done]. by rewrite (Hres _ _ H).
      * apply elem_of_cons in Hin as [->|Hin].
        -- left. rewrite decide_True by done. by rewrite Hfull.
        -- right. split; [done|]. by exists rec'.
Qed.

(** The result maps an abbreviation to a full name exactly when the table
    does and some visited recommendation, cut at its first parenthesis and
    stripped, is that abbreviation: neither the order nor repetitions of the
    recommendations matter. *)
Theorem map_abbreviations_lookup (data : recommendations_data) (abbr full : string) :
  dict_lookup (map_abbreviations data) abbr = Some full
  ↔ dict_lookup abbreviation_map abbr = Some full
    ∧ ∃ recs rec, recommendations_list data = Some recs
                  ∧ rec ∈ recs ∧ strip (before_paren rec) = abbr.
Proof.
  unfold map_abbreviations.
  destruct (recommendations_list data) as [recs|].
  - rewrite notes_lookup by done. split.
    + intros [H|(Hfull & rec & Hin & Heq)]; [done|].
      split; [done|]. by exists recs, rec.
    + intros (Hfull & recs' & rec & [= <-] & Hin & Heq).
      right. split; [done|]. by exists rec.
  - split; [done|]. by intros (_ & recs & rec & [=] & _).
Qed.

(** Every add-on that the rule engine lists under a category and whose name
    starts with an abbreviation of the table is explained in the map built
    from the engine's result. *)
Theorem engine_abbreviations_explained (arch_type : string) (arch_degree : Z)
    (alignment : gmap string string) (detected_pathologies : list string)
    (ctx : option Rules.patient_context) (x : string) (c : Rules.category)
    (full : string) :
  x ∈ Rules.category_list c
        (Rules.apply_medical_rules arch_type arch_degree alignment
           detected_pathologies ctx) →
  dict_lookup abbreviation_map (strip (before_paren x)) = Some full →
  dict_lookup
    (map_abbreviations
       (of_recommendations
          (Rules.apply_medical_rules arch_type arch_degree alignment
             detected_pathologies ctx)))
    (strip (before_paren x)) = Some full.
Proof.
  intros Hx Hfull. unfold map_abbreviations, of_recommendations.
  cbn [recommendations_list]. apply notes_lookup; [done|].
  right. split; [done|]. exists x. split; [|done].
  by apply (RulesFacts.listed_in_combined_list _ _ _ _ _ x c).
Qed.

Lemma engine_abbreviations_explained_flat_arch :
  dict_lookup
    (map_abbreviations
       (of_recommendations (Rules.apply_medical_rules "Flat Arch" 2 ∅ [] None)))
    "MAS" = Some "Medial Arch Support".
Proof.
  apply (engine_abbreviations_explained "Flat Arch" 2 ∅ [] None
           "MAS (Medial Arch Support)" Rules.Intrinsic "Medial Arch Support").
  - vm_compute. set_solver.
  - reflexivity.
Defined.

End AbbreviationsFacts.

(** ** The deformity model *)

Module DeformityFacts.
Import Py Runtime Diagnosis Deformity ModelsSpec.

Ltac score_cases :=
  unfold analyze, feature_scores, highest; cbn [fold_left fst snd];
  repeat match goal with
    | |- context [gt ?a ?b] =>
        let E := fresh "E" in
        destruct (gt a b) eqn:E;
        [apply ArchFacts.gt_true in E | apply ArchFacts.gt_false in E];
        cbn [andb fst snd]
    end.

(** A deformity that the model reports has a confidence between 0.6 and
    0.95 whatever [round] returns, a severity, and one of the four names. *)
Lemma detected_deformity (rt : runtime) (f : gmap string Q) :
  condition (analyze rt f) ≠ "no_deformity" →
  (0.6 <= confidence (analyze rt f) <= 0.95)%Q
  ∧ severity (analyze rt f) ∈ ["mild"; "moderate"; "severe"]
  ∧ (condition (analyze rt f), condition_name (analyze rt f)) ∈ names.
Proof.
  assert (Hclamp : ∀ x, (0.6 <= min (max x 0.6%Q) 0.95%Q <= 0.95)%Q).
  { intros x. unfold min, max.
    destruct (gt 0.6%Q x) eqn:E1;
      [apply ArchFacts.gt_true in E1 | apply ArchFacts.gt_false in E1];
      destruct (lt 0.95%Q _) eqn:E2;
      try apply ArchFacts.lt_true in E2; try apply ArchFacts.lt_false in E2;
      split; lra. }
  score_cases; cbn [bool_decide decide_rel]; intros Hc;
    try (by destruct Hc);
    (split; [apply Hclamp|]); split; set_solver.
Qed.

(** With no negative feature, hammer toe is reported only when neither the
    extension of the base joint nor the flexion of the end joint is
    positive: otherwise the claw-toe score, which adds them, is the larger
    one. *)
Theorem hammer_toe_needs_zero_extension (rt : runtime) (f : gmap string Q) :
  (0 <= get f "mtp_extension")%Q → (0 <= get f "dip_flexion")%Q →
  condition (analyze rt f) = "hammer_toe" →
  (get f "mtp_extension" == 0)%Q ∧ (get f "dip_flexion" == 0)%Q.
Proof.
  intros Hmtp Hdip.
  unfold analyze, feature_scores, highest; cbn [fold_left fst snd].
  set (mtp := get f "mtp_extension") in *. set (dip := get f "dip_flexion") in *.
  set (pip := get f "pip_flexion"). set (hv := get f "hallux_valgus_angle").
  set (fm := get f "first_metatarsal_angle").
  clearbody mtp dip pip hv fm.
  repeat match goal with
    | |- context [gt ?a ?b] =>
        lazymatch a with context [if _ then _ else _] => fail | _ => idtac end;
        lazymatch b with context [if _ then _ else _] => fail | _ => idtac end;
        let E := fresh "E" in
        destruct (gt a b) eqn:E;
        [apply ArchFacts.gt_true in E | apply ArchFacts.gt_false in E];
        cbn [andb fst snd]
    end;
    intros Hc; try discriminate Hc;
    unfold Qdiv in *; change (/ 2)%Q with (1 # 2)%Q in *; split; lra.
Qed.

Lemma hammer_toe_needs_zero_extension_flexed_pip :
  (get flexed_pip "mtp_extension" == 0)%Q ∧ (get flexed_pip "dip_flexion" == 0)%Q.
Proof.
  apply (hammer_toe_needs_zero_extension lowest flexed_pip); by vm_compute.
Defined.

(** A hammer, claw or mallet toe that the deformity model reports always
    puts the add-on "Toe Crest" among the intrinsic recommendations of the
    final result, when every model runs once. *)
Theorem toe_deformity_gets_toe_crest (rt : runtime) (f measured : gmap string Q)
    (runs : list (string * outcome model_result))
    (ctx : option (option Rules.patient_context)) (id : string) :
  NoDup runs.*1 →
  (id, Returned (as_model_result (analyze rt f))) ∈ runs →
  condition (analyze rt f) ∈ ["hammer_toe"; "claw_toe"; "mallet_toe"] →
  ∃ res recs,
    analyze_foot_images (Returned measured) runs ctx = Returned res
    ∧ recommendations res = Some recs
    ∧ "Toe Crest" ∈ Rules.intrinsic recs.
Proof.
  intros Hnd Hin Hc.
  destruct (detected_deformity rt f) as ([Hlo _] & Hsev & Hname).
  { intros E. rewrite E in Hc. set_solver. }
  assert (∃ q, Rules.Rec "Toe Crest" Rules.Intrinsic q true
               ∈ dict_get Rules.pathology_map (condition_name (analyze rt f)) [])
    as [q Hrec].
  { unfold names in Hname.
    repeat (apply elem_of_cons in Hname as [Hname|Hname]);
      try (by apply elem_of_nil in Hname);
      injection Hname as Hcode ->; rewrite Hcode in Hc;
      try (exfalso; set_solver);
      eexists; vm_compute; apply elem_of_cons; left; reflexivity. }
  apply (DiagnosisFacts.finding_adds measured runs ctx id
           (as_model_result (analyze rt f)) (condition_name (analyze rt f))
           (Rules.Rec "Toe Crest" Rules.Intrinsic q true)
           Hnd Hin); try done.
  - unfold names in Hname.
    repeat (apply elem_of_cons in Hname as [Hname|Hname]);
      try (by apply elem_of_nil in Hname);
      injection Hname as _ ->; done.
  - unfold names in Hname.
    repeat (apply elem_of_cons in Hname as [Hname|Hname]);
      try (by apply elem_of_nil in Hname);
      injection Hname as _ ->; done.
  - cbn. intros E. rewrite E in Hsev. set_solver.
Qed.

Lemma toe_deformity_gets_toe_crest_clawed :
  ∃ res recs,
    analyze_foot_images (Returned ∅)
      [("deformity", Returned (as_model_result (analyze lowest clawed)))] None
    = Returned res
    ∧ recommendations res = Some recs
    ∧ "Toe Crest" ∈ Rules.intrinsic recs.
Proof.
  apply (toe_deformity_gets_toe_crest lowest clawed ∅
           [("deformity", Returned (as_model_result (analyze lowest clawed)))]
           None "deformity").
  - apply NoDup_singleton.
  - apply list_elem_of_singleton. reflexivity.
  - vm_compute. apply elem_of_cons. right. apply elem_of_cons. by left.
Defined.

End DeformityFacts.

(** ** The enabled models *)

Module RegistryFacts.
Import Py Diagnosis Registry.

Lemma remove_first pre post x :
  x ∉ pre → remove x (pre ++ x :: post)%list = (pre ++ post)%list.
Proof.
  induction pre as [|y pre IH]; intros Hx; simpl.
  - by rewrite bool_decide_eq_true_2.
  - apply not_elem_of_cons in Hx as [Hne Hx].
    rewrite bool_decide_eq_false_2 by done. f_equal. by apply IH.
Qed.

(** Disabling a registered model that is enabled once and enabling it again
    moves it to the end of the run order; both calls return [True]. *)
Theorem disable_then_enable (pre post : list string) (model_id : string) :
  model_id ∉ pre → model_id ∉ post → model_id ∈ registered →
  disable_model model_id (pre ++ model_id :: post)%list = ((pre ++ post)%list, true)
  ∧ enable_model model_id (pre ++ post)%list
    = ((pre ++ post ++ [model_id])%list, true).
Proof.
  intros Hpre Hpost Hreg. unfold disable_model, enable_model, mem. split.
  - rewrite bool_decide_eq_true_2 by set_solver. by rewrite remove_first.
  - rewrite bool_decide_eq_true_2 by done.
    rewrite bool_decide_eq_false_2 by set_solver.
    by rewrite <- app_assoc.
Qed.

Lemma disable_then_enable_pronation :
  disable_model "pronation" (["arch_type"] ++ "pronation" :: ["gait"])%list
  = ((["arch_type"] ++ ["gait"])%list, true)
  ∧ enable_model "pronation" (["arch_type"] ++ ["gait"])%list
    = ((["arch_type"] ++ ["gait"] ++ ["pronation"])%list, true).
Proof.
  apply (disable_then_enable ["arch_type"] ["gait"] "pronation").
  - set_solver.
  - set_solver.
  - unfold registered. set_solver.
Defined.

End RegistryFacts.



(** ** The winner of the vote *)

Module VoteFacts.
Import Py Vote VoteSpec.

Section strict_weak_order.
Context {float : Type} (zero default_confidence : float)
  (add mul : float → float → float) (above : float → float → bool).

(** [>] on floats other than NaN is a strict weak order. *)
Hypothesis above_asymmetric : ∀ a b, above a b = true → above b a = false.
Hypothesis above_transitive :
  ∀ a b c, above a b = true → above b c = true → above a c = true.
Hypothesis above_negatively_transitive :
  ∀ a b c, above a c = true → above a b = true ∨ above b c = true.

Lemma above_irreflexive a : above a a = false.
Proof.
  destruct (above a a) eqn:E; [|done]. by rewrite (above_asymmetric a a E) in E.
Qed.

Lemma collect_vote_accumulates w a b c item :
  collect_vote zero default_confidence add mul w
    [("flat_feet", a); ("normal_arch", b); ("high_arch", c)] item
  = [("flat_feet", tally_step default_confidence add mul w "flat_feet" a item);
     ("normal_arch", tally_step default_confidence add mul w "normal_arch" b item);
     ("high_arch", tally_step default_confidence add mul w "high_arch" c item)].
Proof.
  unfold collect_vote, tally_step.
  destruct (dict_lookup w item.1) as [weight|]; [|done].
  destruct (classification item.2) as [k|]; [|done].
  destruct (decide (k = "flat_feet")) as [->|Hf]; [done|].
  destruct (decide (k = "normal_arch")) as [->|Hn]; [done|].
  destruct (decide (k = "high_arch")) as [->|Hh]; [done|].
  assert (Hl : dict_lookup
                 [("flat_feet", a); ("normal_arch", b); ("high_arch", c)] k = None).
  { simpl. by rewrite !bool_decide_eq_false_2 by congruence. }
  rewrite Hl. rewrite bool_decide_eq_false_2 by (by intros [? [=]]).
  by rewrite !bool_decide_eq_false_2 by congruence.
Qed.

Lemma votes_accumulated w cls :
  fold_left (collect_vote zero default_confidence add mul w) cls
    (initial_votes zero)
  = [("flat_feet", tally zero default_confidence add mul w cls "flat_feet");
     ("normal_arch", tally zero default_confidence add mul w cls "normal_arch");
     ("high_arch", tally zero default_confidence add mul w cls "high_arch")].
Proof.
  assert (G : ∀ a b c,
    fold_left (collect_vote zero default_confidence add mul w) cls
      [("flat_feet", a); ("normal_arch", b); ("high_arch", c)]
    = [("flat_feet", fold_left (tally_step default_confidence add mul w "flat_feet") cls a);
       ("normal_arch", fold_left (tally_step default_confidence add mul w "normal_arch") cls b);
       ("high_arch", fold_left (tally_step default_confidence add mul w "high_arch") cls c)]).
  { induction cls as [|item cls IH]; intros a b c; [done|].
    cbn [fold_left]. rewrite collect_vote_accumulates. apply IH. }
  apply G.
Qed.

(** Over floats whose [>] is a strict weak order, the vote picks the first
    category, in the order flat_feet, normal_arch, high_arch, whose
    accumulated vote no other accumulated vote exceeds: the winner's vote
    exceeds the vote of every category before it. *)
Theorem vote_winner_largest_tally (cls : list (string * method_result float))
    (w : list (string * float)) :
  ∃ c, winner zero default_confidence add mul above cls w
       = Returned (c, tally zero default_confidence add mul w cls c)
    ∧ c ∈ ["flat_feet"; "normal_arch"; "high_arch"]
    ∧ (∀ k, k ∈ ["flat_feet"; "normal_arch"; "high_arch"] →
         above (tally zero default_confidence add mul w cls k)
               (tally zero default_confidence add mul w cls c) = false)
    ∧ (c = "normal_arch" →
       above (tally zero default_confidence add mul w cls c)
             (tally zero default_confidence add mul w cls "flat_feet") = true)
    ∧ (c = "high_arch" →
       above (tally zero default_confidence add mul w cls c)
             (tally zero default_confidence add mul w cls "flat_feet") = true
       ∧ above (tally zero default_confidence add mul w cls c)
               (tally zero default_confidence add mul w cls "normal_arch") = true).
Proof.
  unfold winner. rewrite votes_accumulated. cbn [max_by fst snd].
  set (a := tally zero default_confidence add mul w cls "flat_feet").
  set (b := tally zero default_confidence add mul w cls "normal_arch").
  set (c := tally zero default_confidence add mul w cls "high_arch").
  assert (Hcases : ∀ (P : string → Prop),
            P "flat_feet" → P "normal_arch" → P "high_arch" →
            ∀ k, k ∈ ["flat_feet"; "normal_arch"; "high_arch"] → P k).
  { intros P Hf Hn Hh k Hk.
    repeat (apply elem_of_cons in Hk as [->|Hk]; [done|]).
    by apply elem_of_nil in Hk. }
  destruct (above b a) eqn:Eba; cbn [fst snd];
    [destruct (above c b) eqn:Ecb | destruct (above c a) eqn:Eca]; cbn [fst snd].
  - (* high_arch, over normal_arch, over flat_feet *)
    pose proof (above_transitive c b a Ecb Eba) as Eca.
    exists "high_arch". fold a b c. split; [done|].
    split; [set_solver|]. split; [|by split].
    apply Hcases; fold a b c;
      [by apply above_asymmetric | by apply above_asymmetric
      | apply above_irreflexive].
  - (* normal_arch: high_arch does not exceed it *)
    exists "normal_arch". fold a b c. split; [done|].
    split; [set_solver|]. split; [|by split].
    apply Hcases; fold a b c;
      [by apply above_asymmetric | apply above_irreflexive | done].
  - (* high_arch, over flat_feet, which normal_arch does not exceed *)
    assert (above c b = true) as Ecb.
    { destruct (above_negatively_transitive c b a Eca) as [H|H]; [done|].
      by rewrite H in Eba. }
    exists "high_arch". fold a b c. split; [done|].
    split; [set_solver|]. split; [|by split].
    apply Hcases; fold a b c;
      [by apply above_asymmetric | by apply above_asymmetric
      | apply above_irreflexive].
  - (* flat_feet: neither of the others exceeds it *)
    exists "flat_feet". fold a b c. split; [done|].
    split; [set_solver|]. split; [|by split].
    apply Hcases; fold a b c; [apply above_irreflexive | done | done].
Qed.

End strict_weak_order.

(** *** The rationals of the embedding *)

Lemma rational_gt_asymmetric (a b : Q) : gt a b = true → gt b a = false.
Proof.
  intros H%ArchFacts.gt_true. apply ArchFacts.gt_false. lra.
Qed.

Lemma rational_gt_transitive (a b c : Q) :
  gt a b = true → gt b c = true → gt a c = true.
Proof.
  intros H1%ArchFacts.gt_true H2%ArchFacts.gt_true. apply ArchFacts.gt_true. lra.
Qed.

Lemma rational_gt_negatively_transitive (a b c : Q) :
  gt a c = true → gt a b = true ∨ gt b c = true.
Proof.
  intros H%ArchFacts.gt_true. destruct (gt a b) eqn:E; [by left|].
  apply ArchFacts.gt_false in E. right. apply ArchFacts.gt_true. lra.
Qed.

Lemma dict_update_present {V} (d : list (string * V)) k i i' f :
  is_Some (dict_lookup d k) → dict_update d k i f = dict_update d k i' f.
Proof.
  induction d as [|[k' v] d IH]; simpl; [by intros [? [=]]|].
  case_bool_decide as Hk; [done|]. intros Hsome. f_equal. by apply IH.
Qed.

(** Over the rationals, [winner] is the category that
    [_determine_overall_arch_type] returns. *)
Lemma winner_rationals (cls : list (string * Arch.method_result))
    (w : list (string * Q)) (c : string) (q : Q) :
  Arch._determine_overall_arch_type cls w = Returned (c, q) →
  ∃ v, winner 0.0%Q 0.7%Q Qplus Qmult gt (of_arch <$> cls) w = Returned (c, v).
Proof.
  unfold Arch._determine_overall_arch_type, winner.
  assert (G : ∀ votes,
    fold_left (collect_vote 0.0%Q 0.7%Q Qplus Qmult w) (of_arch <$> cls) votes
    = fold_left (Arch.collect_vote w) cls votes).
  { induction cls as [|[m [k q']] cls IH]; intros votes; [done|].
    cbn [fmap list_fmap fold_left]. rewrite IH. f_equal.
    unfold collect_vote, Arch.collect_vote, of_arch. cbn [fst snd classification confidence
      Arch.classification Arch.confidence].
    destruct (dict_lookup w m); [|done]. destruct k as [k|]; [|done].
    case_bool_decide; [|done]. by apply dict_update_present. }
  rewrite (G (initial_votes 0.0%Q)).
  change (initial_votes 0.0%Q) with Arch.initial_votes.
  destruct (fold_left (Arch.collect_vote w) cls Arch.initial_votes) as [|x l];
    [done|].
  cbn [Arch.max_item].
  destruct (max_by (λ a b : string * Q, gt a.2 b.2) x l) as [c' v'].
  destruct (gt (sum w.*2) 0); cbn -[Arch.getitem Qdiv max min].
  - destruct (Arch.getitem (x :: l) c'); cbn -[Qdiv max min]; [|done].
    intros [= <- _]. by eexists.
  - intros [= <- _]. by eexists.
Qed.

Lemma vote_winner_largest_tally_rationals :
  ∃ c, winner 0.0%Q 0.7%Q Qplus Qmult gt (of_arch <$> ArchSpec.split_vote)
         Arch.weights
       = Returned (c, tally 0.0%Q 0.7%Q Qplus Qmult Arch.weights
                        (of_arch <$> ArchSpec.split_vote) c)
    ∧ c ∈ ["flat_feet"; "normal_arch"; "high_arch"].
Proof.
  destruct (vote_winner_largest_tally 0.0%Q 0.7%Q Qplus Qmult gt
              rational_gt_asymmetric rational_gt_transitive
              rational_gt_negatively_transitive
              (of_arch <$> ArchSpec.split_vote) Arch.weights)
    as (c & E & Hc & _).
  by exists c.
Defined.

End VoteFacts.
